(** * CloudMiner: the session's HTTP helper, the executors and the CLI flow

    A shallow embedding of [azure_automation_session.py],
    [scripts_executor.py] and [cloud_miner.py].

    Conventions of the embedding.
    - Time is the value of [time.time()] in milliseconds, an integer
      ([TIME_BETWEEN_REQUESTS_SECONDS = 0.5] is 500); [time.sleep d]
      advances the clock by [d]; a request advances it by the duration
      the network takes to answer.
    - The network, [uuid.uuid4], the Azure CLI and the helpers of
      [cloudminer.utils] are an environment [env] of oracles: the answer
      to the [i]-th request sent is [net i].
    - Python exceptions are the [Raise] results of a state-and-error
      monad; the [while] loop of [_wait_for_package_upload] runs on fuel
      and [OutOfFuel] is the result of a loop cut short.
    - A Python [str] is the string of its UTF-8 bytes; the content of a
      file is the string of its bytes. What the default encoding makes of
      bytes read in text mode, and of text written in text mode, is part
      of the environment ([decode], [encode]).
    - The file system is a map from paths to files and directories; a
      path names one file, and every file can be opened.
    - Logging is not modelled. *)

From Stdlib Require Import ZArith List String Ascii Bool Lia.
Import ListNotations.

Open Scope string_scope.
Open Scope Z_scope.

(** ** Dynamic values: the JSON bodies consumed as Python objects *)

#[local] Unset Elimination Schemes.
Inductive json : Type :=
| JNull                                  (* None *)
| JBool (b : bool)
| JNum (n : Z)
| JStr (s : string)
| JArr (items : list json)
| JObj (members : list (string * json)).
#[local] Set Elimination Schemes.

(** Python truthiness, as in [if pip_package:] and [if not package_data:]. *)
Definition truthy (v : json) : bool :=
  match v with
  | JNull => false
  | JBool b => b
  | JNum n => negb (n =? 0)
  | JStr s => negb (s =? "")%string
  | JArr l => match l with [] => false | _ :: _ => true end
  | JObj l => match l with [] => false | _ :: _ => true end
  end.

Fixpoint assoc {A : Type} (k : string) (l : list (string * A)) : option A :=
  match l with
  | [] => None
  | (k', v) :: tl => if (k =? k')%string then Some v else assoc k tl
  end.

(** [d[k] = v] on a dict kept as an association list. *)
Fixpoint dict_set {A : Type} (k : string) (v : A) (l : list (string * A))
  : list (string * A) :=
  match l with
  | [] => [(k, v)]
  | (k', v') :: tl =>
      if (k =? k')%string then (k, v) :: tl else (k', v') :: dict_set k v tl
  end.

(** ** Strings *)

Definition nl : string := String (ascii_of_nat 10) "".
Definition tab : string := String (ascii_of_nat 9) "".
Definition dquote : string := String (ascii_of_nat 34) "".

Definition lower_ascii (c : ascii) : ascii :=
  let n := nat_of_ascii c in
  if andb (Nat.leb 65 n) (Nat.leb n 90) then ascii_of_nat (n + 32) else c.

(** [str.lower] on the bytes of a string: only the ASCII letters change.
    [str.lower] also changes letters outside ASCII, none of them into a
    character of [".ps1"] or [".py"]: the comparisons of the result with
    these two extensions, its only use, come out the same. *)
Fixpoint lower (s : string) : string :=
  match s with
  | EmptyString => EmptyString
  | String c tl => String (lower_ascii c) (lower tl)
  end.

Definition startswith_slash (s : string) : bool :=
  match s with
  | String c _ => Ascii.eqb c "/"
  | EmptyString => false
  end.

Fixpoint endswith_slash (s : string) : bool :=
  match s with
  | EmptyString => false
  | String c EmptyString => Ascii.eqb c "/"
  | String _ tl => endswith_slash tl
  end.

(** One step of the loop of [posixpath.join]. *)
Definition posix_join_step (path b : string) : string :=
  if startswith_slash b then b
  else if orb (path =? "")%string (endswith_slash path) then path ++ b
  else path ++ "/" ++ b.

Definition posixpath_join (a : string) (p : list string) : string :=
  fold_left posix_join_step p a.

(** A byte that continues a character of several bytes: [10xxxxxx]. *)
Definition is_continuation (c : ascii) : bool :=
  andb (Nat.leb 128 (nat_of_ascii c)) (Nat.ltb (nat_of_ascii c) 192).

Fixpoint drop_continuation (s : string) : string :=
  match s with
  | EmptyString => EmptyString
  | String c tl => if is_continuation c then drop_continuation tl else s
  end.

(** [s[1:]]: the string without its first character, that is without
    its first byte and the bytes that continue it. *)
Definition drop_first (s : string) : string :=
  match s with
  | EmptyString => EmptyString
  | String _ tl => drop_continuation tl
  end.

Fixpoint join (sep : string) (l : list string) : string :=
  match l with
  | [] => ""
  | [x] => x
  | x :: tl => x ++ sep ++ join sep tl
  end.

(** What a file opened in text mode, with the default [newline=None],
    makes of the line ends when it is read: ["\r\n"] and ["\r"] become
    ["\n"]. *)
Fixpoint universal_newlines (s : string) : string :=
  match s with
  | EmptyString => EmptyString
  | String c tl =>
      if Ascii.eqb c (ascii_of_nat 13) then
        String (ascii_of_nat 10)
          match tl with
          | String c' tl' =>
              if Ascii.eqb c' (ascii_of_nat 10) then universal_newlines tl'
              else universal_newlines tl
          | EmptyString => EmptyString
          end
      else String c (universal_newlines tl)
  end.

(** [f.readlines()] on the text of such a file, whose line ends are all
    ["\n"]: the lines, each with its line end. *)
Fixpoint readlines_aux (acc : string) (s : string) : list string :=
  match s with
  | EmptyString => if (acc =? "")%string then [] else [acc]
  | String c tl =>
      if Ascii.eqb c (ascii_of_nat 10)
      then (acc ++ String c "") :: readlines_aux "" tl
      else readlines_aux (acc ++ String c "") tl
  end.

Definition readlines (s : string) : list string := readlines_aux "" s.

(** [line.replace('\n', '')] *)
Fixpoint remove_newlines (s : string) : string :=
  match s with
  | EmptyString => EmptyString
  | String c tl =>
      if Ascii.eqb c (ascii_of_nat 10) then remove_newlines tl
      else String c (remove_newlines tl)
  end.



(** ** Constants of [azure_automation_session.py] *)

Definition AZURE_MANAGEMENT_URL : string := "https://management.azure.com".
Definition DEFAULT_API_VERSION : string := "2018-06-30".
Definition UPLOAD_TIMEOUT : Z := 300.
Definition SLEEP_BETWEEN_ERROR_SECONDS : Z := 10.
(** 0.5 seconds, in milliseconds. *)
Definition TIME_BETWEEN_REQUESTS_MS : Z := 500.
Definition HTTP_REQUEST_TIMEOUT : Z := 5.

Definition seconds (n : Z) : Z := n * 1000.

(** [URL_GET_STORAGE_BLOB.format(account_id=...)] *)
Definition URL_GET_STORAGE_BLOB (account_id : string) : string :=
  "https://s2.automation.ext.azure.com/api/Orchestrator/GenerateSasLinkUri?accountId="
  ++ account_id ++ "&assetType=Module".

(** The members of [http.HTTPStatus] the code names. *)
Module HTTPStatus.
Definition BAD_REQUEST : Z := 400.
Definition UNAUTHORIZED : Z := 401.
Definition NOT_FOUND : Z := 404.
Definition TOO_MANY_REQUESTS : Z := 429.
Definition BAD_GATEWAY : Z := 502.
Definition SERVICE_UNAVAILABLE : Z := 503.
Definition GATEWAY_TIMEOUT : Z := 504.
End HTTPStatus.

(** ** The upload-state enum *)

Inductive UPLOAD_STATE : Type :=
| FAILED
| CREATING
| SUCCEEDED
| CONTENT_VALIDATED
| CONTENT_DOWNLOADED
| CONNECTION_TYPE_IMPORTED
| RUNNING_IMPORT_MODULE_RUNBOOK.

(** The value of a member: the enum mixes in [str]. *)
Definition value (m : UPLOAD_STATE) : string :=
  match m with
  | FAILED => "Failed"
  | CREATING => "Creating"
  | SUCCEEDED => "Succeeded"
  | CONTENT_VALIDATED => "ContentValidated"
  | CONTENT_DOWNLOADED => "ContentDownloaded"
  | CONNECTION_TYPE_IMPORTED => "ConnectionTypeImported"
  | RUNNING_IMPORT_MODULE_RUNBOOK => "RunningImportModuleRunbook"
  end.

(** The members in definition order, [list(UPLOAD_STATE)]. *)
Definition UPLOAD_STATE_members : list UPLOAD_STATE :=
  [FAILED; CREATING; SUCCEEDED; CONTENT_VALIDATED; CONTENT_DOWNLOADED;
   CONNECTION_TYPE_IMPORTED; RUNNING_IMPORT_MODULE_RUNBOOK].

(** [member == s] for a string [s]: the comparison of [str]. *)
Definition member_eq_str (m : UPLOAD_STATE) (s : string) : bool :=
  (value m =? s)%string.

(** [v == member] for a dynamic value [v], as in
    [upload_state == UPLOAD_STATE.SUCCEEDED]. *)
Definition json_eq_member (v : json) (m : UPLOAD_STATE) : bool :=
  match v with
  | JStr s => member_eq_str m s
  | _ => false
  end.

(** ** Responses, exceptions and results *)

(** A [requests.Response]: its status code and what [resp.json()] gives
    ([None] when the body is not JSON). *)
Record response : Type := mkResponse {
  status_code : Z;
  json_body : option json
}.

(** What [requests.request] can raise. [ConnectionError] is the builtin
    of that name (the module imports only [ReadTimeout] and
    [ChunkedEncodingError] from [requests.exceptions]) and its
    subclasses; [InvalidURL] stands for the [RequestException]s raised
    for a URL that cannot be sent to; [OtherRequestError] for every other
    class, such as [requests.exceptions.ConnectionError]. *)
Inductive request_error : Type :=
| ReadTimeout
| ChunkedEncodingError
| ConnectionError
| InvalidURL
| OtherRequestError (name : string).

Inductive outcome : Type :=
| Responded (r : response)
| Errored (e : request_error).

(** The messages of [CloudMinerException]. *)
Inductive cm_message : Type :=
| MaxRetriesReached (http_method : string) (url : json)
| InvalidAccessToken
| InvalidAccountId (account_id : string)
| AccountDoesNotExist (account_id : string)
| DeleteMissingPackage (package_name : string)
| UploadFlowNotStarted (package_name : string)
| PackageUploadFailed (error : json)
| PackageUploadTimeout
| ScriptPathMissing (path : string)
| RequirementsPathMissing (path : string)
| UnsupportedExtension (ext : string)
| CliNotLoggedIn
| CliTokenFailed (stderr : string)
| CliNotInstalled
| UtilsFailure (what : string).

Inductive exn : Type :=
| HTTPError (r : response)
| CloudMinerException (m : cm_message)
| RequestError (e : request_error)
| KeyError (key : string)
| TypeError
| JSONDecodeError
| AttributeError (name : string)
| FileNotFoundError (path : string)
| IsADirectoryError (path : string)
| SameFileError (path : string)
| UnicodeDecodeError
| UnicodeEncodeError.

Inductive result (A : Type) : Type :=
| Return (a : A)
| Raise (e : exn)
| OutOfFuel.
Arguments Return {A} a.
Arguments Raise {A} e.
Arguments OutOfFuel {A}.

(** ** Requests, events and the world *)

Inductive body : Type :=
| NoBody
| Data (file_data : string)
| Json (j : json).

Record request : Type := mkRequest {
  req_method : string;
  req_url : string;
  req_headers : list (string * string);
  req_timeout : Z;
  req_body : body
}.

Inductive event : Type :=
| EvRequest (t : Z) (r : request) (o : outcome)
    (* a request issued at time [t], and how it ended *)
| EvSleep (d : Z)                      (* [time.sleep] *)
| EvCommand (argv : list string).      (* [utils.run_command] *)

(** What a path names: a file, with its bytes, or a directory. *)
Inductive node : Type :=
| File (data : string)
| Directory.

Definition files := list (string * node).

Record world : Type := mkWorld {
  clock : Z;               (* [time.time()], milliseconds *)
  sent : nat;              (* requests sent so far *)
  uuid_ix : nat;           (* [uuid.uuid4()] calls so far *)
  fs : files;              (* the files, by path *)
  trace : list event       (* what happened, oldest first *)
}.

(** A finished [subprocess] run. *)
Record process : Type := mkProcess {
  returncode : Z;
  stdout : string;
  stderr : string
}.

(** The environment: the network, the random source, the Azure CLI and
    what [cloudminer.utils] provides. *)
Record env : Type := mkEnv {
  net : nat -> outcome * N;             (* answer and duration (ms) *)
  uuid_src : nat -> string;
  run_command : list string -> option process;  (* [None]: no such program *)
  json_loads : string -> option json;
  get_file_extension : string -> string;
  zip_file : string -> string -> files -> result string * files;
  package_to_whl : string -> files -> result string * files;
  RESOURCES_DIRECTORY : string;
  py_str : json -> string;              (* [str(v)] *)
  decode : string -> option string;
    (* the text of bytes in the default encoding; [None]: they are not
       text of that encoding *)
  encode : string -> option string
    (* the bytes a file opened in text mode writes for a text: [os.linesep]
       for each line end, then the default encoding; [None]: the encoding
       has no bytes for it *)
}.

(** ** The monad: state and exceptions *)

Definition St (S A : Type) : Type := S -> result A * S.

Definition ret {S A : Type} (a : A) : St S A := fun s => (Return a, s).

Definition raise {S A : Type} (e : exn) : St S A := fun s => (Raise e, s).

Definition bind {S A B : Type} (m : St S A) (k : A -> St S B) : St S B :=
  fun s =>
    match m s with
    | (Return a, s') => k a s'
    | (Raise e, s') => (Raise e, s')
    | (OutOfFuel, s') => (OutOfFuel, s')
    end.

(** [try: m  except exc as e: h e], the handler taking the exceptions
    the clause names. *)
Definition try_except {S A : Type} (m : St S A) (h : exn -> option (St S A))
  : St S A :=
  fun s =>
    match m s with
    | (Raise e, s') =>
        match h e with
        | Some k => k s'
        | None => (Raise e, s')
        end
    | r => r
    end.

Declare Scope monad_scope.
Delimit Scope monad_scope with monad.
Notation "x <- m ;; k" := (bind m (fun x => k))
  (at level 61, m at next level, right associativity) : monad_scope.
Notation "m ;; k" := (bind m (fun _ => k))
  (at level 61, right associativity) : monad_scope.
Open Scope monad_scope.

Definition get {S : Type} : St S S := fun s => (Return s, s).
Definition modify {S : Type} (f : S -> S) : St S unit := fun s => (Return tt, f s).

(** ** Operations on the world *)

Definition set_clock (t : Z) (w : world) : world :=
  mkWorld t (sent w) (uuid_ix w) (fs w) (trace w).

Definition log (e : event) (w : world) : world :=
  mkWorld (clock w) (sent w) (uuid_ix w) (fs w) (trace w ++ [e]).

Definition set_fs (f : files) (w : world) : world :=
  mkWorld (clock w) (sent w) (uuid_ix w) f (trace w).

(** [time.sleep(d)] *)
Definition sleep_w (d : Z) (w : world) : world :=
  log (EvSleep d) (set_clock (clock w + d) w).

(** [requests.request(...)]: the request leaves at the current time and
    the answer is there [duration] later. *)
Definition send_w (E : env) (r : request) (w : world) : outcome * world :=
  let '(o, duration) := net E (sent w) in
  (o, mkWorld (clock w + Z.of_N duration) (S (sent w)) (uuid_ix w) (fs w)
        (trace w ++ [EvRequest (clock w) r o])).

(** [str(uuid.uuid4())] *)
Definition uuid4_w (E : env) (w : world) : string * world :=
  (uuid_src E (uuid_ix w),
   mkWorld (clock w) (sent w) (S (uuid_ix w)) (fs w) (trace w)).

(** ** [class AzureAutomationSession] *)

Record session : Type := mkSession {
  __account_id : string;
  __access_token : string;
  __next_request_time : Z;
  (** Absent ([None]) until [__upload_file_to_temp_storage] assigns it. *)
  __current_temp_storage_url : option json
}.

Definition set_next_request_time (t : Z) (s : session) : session :=
  mkSession (__account_id s) (__access_token s) t (__current_temp_storage_url s).

Definition set_current_temp_storage_url (u : json) (s : session) : session :=
  mkSession (__account_id s) (__access_token s) (__next_request_time s) (Some u).

(** The methods run on the session object and the world. *)
Definition M (A : Type) : Type := St (session * world) A.

Definition self : M session := fun sw => (Return (fst sw), sw).

Definition on_self (f : session -> session) : M unit :=
  fun sw => (Return tt, (f (fst sw), snd sw)).

Definition on_world {A : Type} (f : world -> A * world) : M A :=
  fun sw => let r := f (snd sw) in (Return (fst r), (fst sw, snd r)).

Definition time_time : M Z := on_world (fun w => (clock w, w)).

Definition time_sleep (d : Z) : M unit := on_world (fun w => (tt, sleep_w d w)).

(** [open(path, 'rb').read()] *)
Definition read_file (path : string) : M string :=
  fun sw =>
    match assoc path (fs (snd sw)) with
    | Some (File data) => (Return data, sw)
    | Some Directory => (Raise (IsADirectoryError path), sw)
    | None => (Raise (FileNotFoundError path), sw)
    end.

(** [open(path, 'wb').write(data)] *)
Definition write_file (path data : string) : M unit :=
  fun sw =>
    match assoc path (fs (snd sw)) with
    | Some Directory => (Raise (IsADirectoryError path), sw)
    | _ =>
        (Return tt,
         (fst sw, set_fs (dict_set path (File data) (fs (snd sw))) (snd sw)))
    end.

(** [os.path.exists(path)] *)
Definition path_exists (path : string) (w : world) : bool :=
  match assoc path (fs w) with Some _ => true | None => false end.

(** [shutil.copyfile(src, dst)]: the bytes of [src] become those of
    [dst]; the same file twice is refused before anything is opened. *)
Definition copyfile (src dst : string) : M unit :=
  fun sw =>
    if andb (src =? dst)%string (path_exists src (snd sw))
    then (Raise (SameFileError src), sw)
    else (data <- read_file src ;; write_file dst data) sw.

(** [resp.json()] *)
Definition response_json (r : response) : M json :=
  match json_body r with
  | Some j => ret j
  | None => raise JSONDecodeError
  end.

(** [resp.raise_for_status()] *)
Definition raise_for_status (r : response) : M unit :=
  if andb (400 <=? status_code r) (status_code r <? 600)
  then raise (HTTPError r)
  else ret tt.

(** The status codes of the [in [...]] test of [__http_request]. *)
Definition retried_status_codes : list Z :=
  [HTTPStatus.TOO_MANY_REQUESTS; HTTPStatus.GATEWAY_TIMEOUT;
   HTTPStatus.SERVICE_UNAVAILABLE].

Definition status_in (c : Z) (l : list Z) : bool := existsb (Z.eqb c) l.

(** The classes of [except (ReadTimeout, ChunkedEncodingError,
    ConnectionError)]. *)
Definition caught (e : request_error) : bool :=
  match e with
  | ReadTimeout | ChunkedEncodingError | ConnectionError => true
  | InvalidURL | OtherRequestError _ => false
  end.

(** [resp is None or resp.status_code in [...]] *)
Definition must_retry (resp : option response) : bool :=
  match resp with
  | None => true
  | Some r => status_in (status_code r) retried_status_codes
  end.

(** An attempt that ends in a failure the loop goes on after: an
    exception the [except] clause catches, or a status of its list. *)
Definition transient (o : outcome) : bool :=
  match o with
  | Errored e => caught e
  | Responded r => status_in (status_code r) retried_status_codes
  end.

(** ** Reading the trace *)

(** The requests sent, oldest first. *)
Fixpoint requests (tr : list event) : list request :=
  match tr with
  | [] => []
  | EvRequest _ r _ :: tl => r :: requests tl
  | _ :: tl => requests tl
  end.

(** The times at which they were sent. *)
Fixpoint request_times (tr : list event) : list Z :=
  match tr with
  | [] => []
  | EvRequest t _ _ :: tl => t :: request_times tl
  | _ :: tl => request_times tl
  end.

(** The commands run. *)
Fixpoint commands (tr : list event) : list (list string) :=
  match tr with
  | [] => []
  | EvCommand argv :: tl => argv :: commands tl
  | _ :: tl => commands tl
  end.

(** An answer the helper returns to its caller: a response whose status
    is neither retried nor an error. *)
Definition accepted (o : outcome) : bool :=
  match o with
  | Responded r =>
      andb (negb (status_in (status_code r) retried_status_codes))
           (negb (andb (400 <=? status_code r) (status_code r <? 600)))
  | Errored _ => false
  end.

(** A request that changes the automation account: a [DELETE], or the
    [PUT] of a content link that starts an import. *)
Definition is_mutation (r : request) : bool :=
  orb (req_method r =? "DELETE")%string
      (andb (req_method r =? "PUT")%string
            match req_body r with Json _ => true | _ => false end).

(** The changes the account accepted: method and URL, oldest first. *)
Fixpoint mutations (tr : list event) : list (string * string) :=
  match tr with
  | [] => []
  | EvRequest _ r o :: tl =>
      if andb (is_mutation r) (accepted o)
      then (req_method r, req_url r) :: mutations tl
      else mutations tl
  | _ :: tl => mutations tl
  end.

(** The requests the server answered with an accepted response: method
    and URL, oldest first. *)
Fixpoint answered (tr : list event) : list (string * string) :=
  match tr with
  | [] => []
  | EvRequest _ r o :: tl =>
      if accepted o
      then (req_method r, req_url r) :: answered tl
      else answered tl
  | _ :: tl => answered tl
  end.

(** The sleeps, oldest first. *)
Fixpoint sleeps (tr : list event) : list Z :=
  match tr with
  | [] => []
  | EvSleep d :: tl => d :: sleeps tl
  | _ :: tl => sleeps tl
  end.

(** ** Concrete environments, for the examples *)

(** A 200 with the JSON body [j]; a response with status [c] and no JSON. *)
Definition ok_response (j : json) : response := mkResponse 200 (Some j).

Definition status_response (c : Z) : response := mkResponse c None.

(** A network that answers from a script, then with empty successes. *)
Definition net_of (l : list (outcome * N)) (i : nat) : outcome * N :=
  nth i l (Responded (ok_response JNull), 0%N).

(** The text from the last dot on. *)
Fixpoint extension_from (s : string) : option string :=
  match s with
  | EmptyString => None
  | String c tl =>
      match extension_from tl with
      | Some e => Some e
      | None => if Ascii.eqb c "." then Some s else None
      end
  end.

(** An environment around a network: UUIDs numbered in turn, a CLI that
    is logged in, helpers that write the file they name, UTF-8 as the
    default encoding and ["\n"] as [os.linesep]. *)
Definition env_with_net (network : nat -> outcome * N) : env :=
  mkEnv network
        (fun i => "uuid-" ++ String (ascii_of_nat (48 + i)) "")
        (fun _ => Some (mkProcess 0 "cli" ""))
        (fun _ => Some (JObj [("accessToken", JStr "cli-token")]))
        (fun p => match extension_from p with Some e => e | None => "" end)
        (fun _ zip_name f =>
           (Return (zip_name ++ ".zip"),
            dict_set (zip_name ++ ".zip") (File "PK") f))
        (fun p f => (Return (p ++ ".whl"), dict_set (p ++ ".whl") (File "WHL") f))
        "resources"
        (fun _ => "")
        Some
        Some.

Definition example_env (l : list (outcome * N)) : env := env_with_net (net_of l).

(** The body of a package whose provisioning state is [st]. *)
Definition package_json (st : string) : json :=
  JObj [("properties",
         JObj [("provisioningState", JStr st);
               ("error", JObj [("message", JStr "bad wheel")])])].

(** A server on which the package is created at the third poll. *)
Definition polling_net (i : nat) : outcome * N :=
  (Responded (ok_response
                (package_json (if Nat.ltb i 2 then "Creating" else "Succeeded"))),
   100%N).

Definition polling_env : env := env_with_net polling_net.



Definition example_session : session := mkSession "/subscriptions/x" "tok" 0 None.

Definition example_world : world := mkWorld 1000 0 0 [] [].

Section Program.

Variable E : env.

(** [self.__get_url(path)] *)
Definition __get_url (s : session) (path : string) : string :=
  posixpath_join AZURE_MANAGEMENT_URL [drop_first (__account_id s); path]
  ++ "?api-version=" ++ DEFAULT_API_VERSION.

(** [self.__wait_for_next_request()] *)
Definition __wait_for_next_request : M unit :=
  current_time <- time_time ;;
  s <- self ;;
  let time_gap := __next_request_time s - current_time in
  (if 0 <? time_gap then time_sleep time_gap else ret tt) ;;
  t <- time_time ;;
  on_self (set_next_request_time (t + TIME_BETWEEN_REQUESTS_MS)).

(** The [try] of the loop body: [resp] is the response, or [None] after
    an exception the clause catches; any other exception goes up. A URL
    that is not a string is refused before anything is sent. *)
Definition try_request (http_method : string) (url : json)
    (headers : list (string * string)) (timeout : Z) (b : body)
  : M (option response) :=
  match url with
  | JStr u =>
      o <- on_world (send_w E (mkRequest http_method u headers timeout b)) ;;
      match o with
      | Responded resp => ret (Some resp)
      | Errored e => if caught e then ret None else raise (RequestError e)
      end
  | _ => raise (RequestError InvalidURL)
  end.

(** [for _ in range(retries): ... else: raise CloudMinerException(...)] *)
Fixpoint retry_loop (n : nat) (http_method : string) (url : json)
    (headers : list (string * string)) (timeout : Z) (b : body)
  : M response :=
  match n with
  | O => raise (CloudMinerException (MaxRetriesReached http_method url))
  | S n' =>
      resp <- try_request http_method url headers timeout b ;;
      if must_retry resp then
        time_sleep (seconds SLEEP_BETWEEN_ERROR_SECONDS) ;;
        retry_loop n' http_method url headers timeout b
      else
        match resp with
        | Some r => raise_for_status r ;; ret r
        | None => raise (AttributeError "status_code")
        end
  end.

(** [self.__http_request(http_method, url, headers, add_auth_info,
    retries, timeout, **kwargs)] *)
Definition __http_request (http_method : string) (url : json)
    (headers : option (list (string * string))) (add_auth_info : bool)
    (retries : Z) (timeout : Z) (b : body) : M response :=
  __wait_for_next_request ;;
  s <- self ;;
  let headers := match headers with None => [] | Some h => h end in
  let headers :=
    if add_auth_info
    then dict_set "Authorization" ("Bearer " ++ __access_token s) headers
    else headers in
  retry_loop (Z.to_nat retries) http_method url headers timeout b.

(** The call with the defaults [headers=None, add_auth_info=True,
    retries=5, timeout=HTTP_REQUEST_TIMEOUT]. *)
Definition http_request_default (http_method : string) (url : json) (b : body)
  : M response :=
  __http_request http_method url None true 5 HTTP_REQUEST_TIMEOUT b.

(** [AzureAutomationSession(account_id, access_token)]: the object of
    [__init__], or what it raises. *)
Definition init_handler (acct : string) (e : exn) : option (M response) :=
  match e with
  | HTTPError r =>
      Some (if status_code r =? HTTPStatus.UNAUTHORIZED
            then raise (CloudMinerException InvalidAccessToken)
            else if status_code r =? HTTPStatus.BAD_REQUEST
            then raise (CloudMinerException (InvalidAccountId acct))
            else if status_code r =? HTTPStatus.NOT_FOUND
            then raise (CloudMinerException (AccountDoesNotExist acct))
            else raise e)
  | _ => None
  end.

Definition __init__ (acct : string) : M response :=
  try_except
    (s <- self ;; http_request_default "GET" (JStr (__get_url s "")) NoBody)
    (init_handler acct).

Definition AzureAutomationSession (acct tok : string) : St world session :=
  fun w =>
    match __init__ acct (mkSession acct tok 0 None, w) with
    | (Return _, (s, w')) => (Return s, w')
    | (Raise e, (_, w')) => (Raise e, w')
    | (OutOfFuel, (_, w')) => (OutOfFuel, w')
    end.

(** [self.__upload_file_to_temp_storage(file_path)] *)
Definition __upload_file_to_temp_storage (file_path : string) : M json :=
  s <- self ;;
  r <- http_request_default "GET" (JStr (URL_GET_STORAGE_BLOB (__account_id s)))
         NoBody ;;
  j <- response_json r ;;
  on_self (set_current_temp_storage_url j) ;;
  file_data <- read_file file_path ;;
  s <- self ;;
  match __current_temp_storage_url s with
  | None => raise (AttributeError "__current_temp_storage_url")
  | Some u =>
      __http_request "PUT" u (Some [("x-ms-blob-type", "BlockBlob")]) false 5
        HTTP_REQUEST_TIMEOUT (Data file_data) ;;
      s <- self ;;
      match __current_temp_storage_url s with
      | None => raise (AttributeError "__current_temp_storage_url")
      | Some u' => ret u'
      end
  end.

Definition content_link (temp_storage_url : json) : json :=
  JObj [("properties", JObj [("contentLink", JObj [("uri", temp_storage_url)])])].

(** [upload_powershell_module(module_name, zipped_ps_module)] *)
Definition upload_powershell_module (module_name zipped_ps_module : string)
  : M unit :=
  temp_storage_url <- __upload_file_to_temp_storage zipped_ps_module ;;
  s <- self ;;
  let url := __get_url s ("modules/" ++ module_name) in
  http_request_default "PUT" (JStr url) (Json (content_link temp_storage_url)) ;;
  ret tt.

(** [upload_python_package(package_name, whl_path)] *)
Definition upload_python_package (package_name whl_path : string) : M unit :=
  temp_storage_url <- __upload_file_to_temp_storage whl_path ;;
  s <- self ;;
  let url := __get_url s ("python3Packages/" ++ package_name) in
  http_request_default "PUT" (JStr url) (Json (content_link temp_storage_url)) ;;
  ret tt.

(** [get_python_package(package_name)]: [JNull] is Python's [None]. *)
Definition get_python_package (package_name : string) : M json :=
  s <- self ;;
  let url := __get_url s ("python3Packages/" ++ package_name) in
  try_except
    (r <- http_request_default "GET" (JStr url) NoBody ;; response_json r)
    (fun e =>
       match e with
       | HTTPError r =>
           Some (if status_code r =? HTTPStatus.NOT_FOUND
                 then ret JNull
                 else raise e)
       | _ => None
       end).

(** [delete_python_package(package_name)] *)
Definition delete_python_package (package_name : string) : M unit :=
  s <- self ;;
  let url := __get_url s ("python3Packages/" ++ package_name) in
  try_except
    (http_request_default "DELETE" (JStr url) NoBody ;; ret tt)
    (fun e =>
       match e with
       | HTTPError r =>
           Some (if status_code r =? HTTPStatus.NOT_FOUND
                 then raise (CloudMinerException (DeleteMissingPackage package_name))
                 else raise e)
       | _ => None
       end).

(** ** [scripts_executor.py] *)

(** [obj[key]] on a dynamic value. *)
Definition getitem (obj : json) (key : string) : M json :=
  match obj with
  | JObj members =>
      match assoc key members with
      | Some v => ret v
      | None => raise (KeyError key)
      end
  | _ => raise TypeError
  end.

(** [str(uuid.uuid4())] *)
Definition uuid4 : M string := on_world (uuid4_w E).

(** The helpers of [cloudminer.utils] that work on files. *)
Definition utils_zip_file (file_path zip_name : string) : M string :=
  fun sw =>
    let r := zip_file E file_path zip_name (fs (snd sw)) in
    (fst r, (fst sw, set_fs (snd r) (snd sw))).

Definition utils_package_to_whl (package_path : string) : M string :=
  fun sw =>
    let r := package_to_whl E package_path (fs (snd sw)) in
    (fst r, (fst sw, set_fs (snd r) (snd sw))).

(** [class PowershellScriptExecutor]: [for index in range(count)]. *)
Fixpoint powershell_loop (n : nat) (script_path : string) : M unit :=
  match n with
  | O => ret tt
  | S n' =>
      module_name <- uuid4 ;;
      zipped_ps_module <- utils_zip_file script_path (module_name ++ ".psm1") ;;
      upload_powershell_module module_name zipped_ps_module ;;
      powershell_loop n' script_path
  end.

Record PowershellScriptExecutor : Type := mkPowershellScriptExecutor {
  ps_script_path : string
}.

(** [PowershellScriptExecutor.execute_script(count)] *)
Definition powershell_execute_script (ex : PowershellScriptExecutor) (count : Z)
  : M unit :=
  powershell_loop (Z.to_nat count) (ps_script_path ex).

(** [class PythonScriptExecutor] *)
Record PythonScriptExecutor : Type := mkPythonScriptExecutor {
  script_path : string;
  requirements_file : option string
}.

Definition PIP_PACKAGE_NAME : string := "pip".
Definition UPLOAD_STATE_CHECK_INTERVAL_SECONDS : Z := 20.
(** [os.path.join] is [posixpath.join] here. *)
Definition CUSTOM_PIP_PATH : string :=
  posixpath_join (RESOURCES_DIRECTORY E) [PIP_PACKAGE_NAME].
Definition DUMMY_WHL_PATH : string :=
  posixpath_join (RESOURCES_DIRECTORY E) ["random_whl-0.0.1-py3-none-any.whl"].

(** [self._delete_pip_if_exists()] *)
Definition _delete_pip_if_exists : M unit :=
  pip_package <- get_python_package PIP_PACKAGE_NAME ;;
  if truthy pip_package
  then delete_python_package PIP_PACKAGE_NAME
  else ret tt.

(** The [while time.time() < end_time: ... else: raise ...] of
    [_wait_for_package_upload], on fuel. *)
Fixpoint wait_loop (fuel : nat) (package_name : string) (end_time : Z)
  : M unit :=
  match fuel with
  | O => fun sw => (OutOfFuel, sw)
  | S fuel' =>
      t <- time_time ;;
      if t <? end_time then
        package_data <- get_python_package package_name ;;
        if negb (truthy package_data)
        then raise (CloudMinerException (UploadFlowNotStarted package_name))
        else
          properties <- getitem package_data "properties" ;;
          upload_state <- getitem properties "provisioningState" ;;
          if json_eq_member upload_state SUCCEEDED then ret tt
          else if json_eq_member upload_state FAILED then
            properties <- getitem package_data "properties" ;;
            err <- getitem properties "error" ;;
            error <- getitem err "message" ;;
            raise (CloudMinerException (PackageUploadFailed error))
          else
            time_sleep (seconds UPLOAD_STATE_CHECK_INTERVAL_SECONDS) ;;
            wait_loop fuel' package_name end_time
      else raise (CloudMinerException PackageUploadTimeout)
  end.

(** [self._wait_for_package_upload(package_name, timeout_seconds)], the
    loop on [fuel]. *)
Definition wait_for_package_upload_fuel (fuel : nat) (package_name : string)
    (timeout_seconds : Z) : M unit :=
  start_time <- time_time ;;
  let end_time := start_time + seconds timeout_seconds in
  wait_loop fuel package_name end_time.

(** Loop tests a wait of [timeout_seconds] can need: every turn that goes
    on sleeps the whole check interval. *)
Definition poll_fuel (timeout_seconds : Z) : nat :=
  S (S (Z.to_nat (seconds timeout_seconds
                  / seconds UPLOAD_STATE_CHECK_INTERVAL_SECONDS))).

(** The method, with the fuel its loop can need. *)
Definition _wait_for_package_upload (package_name : string)
    (timeout_seconds : Z) : M unit :=
  wait_for_package_upload_fuel (poll_fuel timeout_seconds) package_name
    timeout_seconds.

(** The lines of [_wrap_script]: before, for the requirements, after. *)
Definition wrap_header : list string :=
  ["# CloudMiner 自动添加";
   "######################################################################################"].

Definition wrap_footer : list string :=
  ["def _main():" ++ nl ++ tab ++ "pass";
   "######################################################################################" ++ nl].

Definition install_requirements_code (requirements : list string)
  : list string :=
  ["import requests, subprocess, sys, os, tempfile";
   "tmp_folder = tempfile.gettempdir()";
   "sys.path.append(tmp_folder)";
   "tmp_pip = requests.get('https://bootstrap.pypa.io/get-pip.py').content";
   "open(os.path.join(tmp_folder, 'tmp_pip.py'), 'wb+').write(tmp_pip)";
   "subprocess.run(f'{sys.executable} {os.path.join(tmp_folder, "
     ++ dquote ++ "tmp_pip.py" ++ dquote ++ ")} " ++ join " " requirements
     ++ " --target {tmp_folder}', shell=True)"].

(** [open(path, 'r').read()]: the bytes of the file as text of the
    default encoding, with the line ends of text mode. *)
Definition read_text (path : string) : M string :=
  data <- read_file path ;;
  match decode E data with
  | Some text => ret (universal_newlines text)
  | None => raise UnicodeDecodeError
  end.

(** [open(path, 'w').write(text)]: opening empties the file; the text is
    encoded as a whole before any of it is written. *)
Definition write_text (path text : string) : M unit :=
  write_file path "" ;;
  match encode E text with
  | Some data => write_file path data
  | None => raise UnicodeEncodeError
  end.

(** [self._wrap_script()] *)
Definition _wrap_script (ex : PythonScriptExecutor) : M string :=
  INSTALL_REQUIREMENTS_CODE <-
    match requirements_file ex with
    | Some f =>
        if negb (f =? "")%string then
          text <- read_text f ;;
          ret (install_requirements_code (map remove_newlines (readlines text)))
        else ret []
    | None => ret []
    end ;;
  ret (join nl (wrap_header ++ INSTALL_REQUIREMENTS_CODE ++ wrap_footer)).

Definition main_file_path : string :=
  posixpath_join CUSTOM_PIP_PATH ["src"; PIP_PACKAGE_NAME; "main.py"].

(** [self._create_whl_for_upload()] *)
Definition _create_whl_for_upload (ex : PythonScriptExecutor) : M string :=
  copyfile (script_path ex) main_file_path ;;
  raw_main_file <- read_text main_file_path ;;
  wrapper <- _wrap_script ex ;;
  let wrapped_main_file := wrapper ++ raw_main_file in
  write_text main_file_path wrapped_main_file ;;
  utils_package_to_whl CUSTOM_PIP_PATH.

(** The [for index in range(count)] of the Python executor. *)
Fixpoint python_loop (n : nat) : M unit :=
  match n with
  | O => ret tt
  | S n' =>
      package_name <- uuid4 ;;
      upload_python_package package_name DUMMY_WHL_PATH ;;
      python_loop n'
  end.

(** [PythonScriptExecutor.execute_script(count)] *)
Definition python_execute_script (ex : PythonScriptExecutor) (count : Z)
  : M unit :=
  _delete_pip_if_exists ;;
  whl_path <- _create_whl_for_upload ex ;;
  upload_python_package PIP_PACKAGE_NAME whl_path ;;
  _wait_for_package_upload PIP_PACKAGE_NAME UPLOAD_TIMEOUT ;;
  python_loop (Z.to_nat count).

(** [class ScriptExecutor(ABC)]: the two executors, and the method each
    of them gives for the abstract [execute_script]. *)
Inductive ScriptExecutor : Type :=
| Powershell (ex : PowershellScriptExecutor)
| Python (ex : PythonScriptExecutor).

Definition execute_script (executor : ScriptExecutor) (count : Z) : M unit :=
  match executor with
  | Powershell ex => powershell_execute_script ex count
  | Python ex => python_execute_script ex count
  end.

(** ** [cloud_miner.py] *)

(** The [argparse.Namespace] of [parse_args()]: [args.path], [args.id],
    [args.count], [args.token], [args.requirements], [args.verbose]; an
    option that was not given is [None]. *)
Record Namespace : Type := mkNamespace {
  arg_path : string;
  arg_id : string;
  arg_count : Z;
  arg_token : option string;
  arg_requirements : option string;
  arg_verbose : bool
}.

(** [utils.run_command(argv)] *)
Definition utils_run_command (argv : list string) : St world process :=
  fun w =>
    match run_command E argv with
    | Some p => (Return p, log (EvCommand argv) w)
    | None => (Raise (FileNotFoundError "az"), log (EvCommand argv) w)
    end.

(** The text of a token: a string is itself; any other value goes
    through [str()] when the header is formatted. *)
Definition token_text (j : json) : string :=
  match j with
  | JStr t => t
  | _ => py_str E j
  end.

(** [get_access_token_from_cli()] *)
Definition get_access_token_from_cli : St world string :=
  process <-
    try_except
      (process <- utils_run_command ["az"; "account"; "show"] ;;
       if negb (returncode process =? 0)
       then raise (CloudMinerException CliNotLoggedIn)
       else
         process <- utils_run_command ["az"; "account"; "get-access-token"] ;;
         if negb (returncode process =? 0)
         then raise (CloudMinerException (CliTokenFailed (stderr process)))
         else ret process)
      (fun e =>
         match e with
         | FileNotFoundError _ => Some (raise (CloudMinerException CliNotInstalled))
         | _ => None
         end) ;;
  match json_loads E (stdout process) with
  | None => raise JSONDecodeError
  | Some (JObj members) =>
      match assoc "accessToken" members with
      | Some v => ret (token_text v)
      | None => raise (KeyError "accessToken")
      end
  | Some _ => raise TypeError
  end.

(** A method of an executor, run on the session object the executor
    holds. *)
Definition with_session {A : Type} (s : session) (m : M A) : St world A :=
  fun w => let r := m (s, w) in (fst r, snd (snd r)).

(** [PowershellScriptExecutor.EXTENSION] and
    [PythonScriptExecutor.EXTENSION]. *)
Definition POWERSHELL_EXTENSION : string := ".ps1".
Definition PYTHON_EXTENSION : string := ".py".

(** [main()], from the arguments parsed. [args.token or ...] takes the
    CLI for a token that is [None] or empty. *)
Definition main (args : Namespace) : St world unit :=
  w <- get ;;
  if negb (path_exists (arg_path args) w)
  then raise (CloudMinerException (ScriptPathMissing (arg_path args)))
  else
  if match arg_requirements args with
     | Some r => andb (negb (r =? "")%string) (negb (path_exists r w))
     | None => false
     end
  then raise (CloudMinerException
                (RequirementsPathMissing
                   (match arg_requirements args with Some r => r | None => "" end)))
  else
  access_token <-
    match arg_token args with
    | Some t => if negb (t =? "")%string then ret t else get_access_token_from_cli
    | None => get_access_token_from_cli
    end ;;
  automation_session <- AzureAutomationSession (arg_id args) access_token ;;
  let file_extension := lower (get_file_extension E (arg_path args)) in
  executor <-
    (if (file_extension =? POWERSHELL_EXTENSION)%string then
       ret (Powershell (mkPowershellScriptExecutor (arg_path args)))
     else if (file_extension =? PYTHON_EXTENSION)%string then
       ret (Python (mkPythonScriptExecutor (arg_path args)
                      (arg_requirements args)))
     else raise (CloudMinerException (UnsupportedExtension file_extension))) ;;
  with_session automation_session (execute_script executor (arg_count args)).

(** * The vocabulary of the properties *)

(** Every run of [m] takes a state to one related to it by [R]. *)
Definition respects {S A : Type} (R : S -> S -> Prop) (m : St S A) : Prop :=
  forall st, R st (snd (m st)).

(** The state only moves forward: the account and the token stay, the
    clock and the counters do not go back, the trace grows at its end. *)
Definition evolves (a b : session * world) : Prop :=
  __account_id (fst b) = __account_id (fst a)
  /\ __access_token (fst b) = __access_token (fst a)
  /\ clock (snd a) <= clock (snd b)
  /\ (sent (snd a) <= sent (snd b))%nat
  /\ (uuid_ix (snd a) <= uuid_ix (snd b))%nat
  /\ exists l, trace (snd b) = (trace (snd a) ++ l)%list.

(** A method that only moves the state forward. *)
Definition forward {A : Type} (m : M A) : Prop := respects evolves m.

(** What [__wait_for_next_request] does to the world. *)
Definition waited (s : session) (w : world) : world :=
  if 0 <? __next_request_time s - clock w
  then sleep_w (__next_request_time s - clock w) w
  else w.

(** The headers the helper sends. *)
Definition request_headers (s : session)
    (headers : option (list (string * string))) (add_auth_info : bool)
  : list (string * string) :=
  let headers := match headers with None => [] | Some h => h end in
  if add_auth_info
  then dict_set "Authorization" ("Bearer " ++ __access_token s) headers
  else headers.

(** The exception [__init__] raises for the [HTTPError] of a response. *)
Definition init_error (acct : string) (r : response) : exn :=
  if status_code r =? 401 then CloudMinerException InvalidAccessToken
  else if status_code r =? 400 then CloudMinerException (InvalidAccountId acct)
  else if status_code r =? 404 then CloudMinerException (AccountDoesNotExist acct)
  else HTTPError r.

(** The operations of a session and of the executors that hold it. *)
Inductive operation : Type :=
| Op_wait_for_next_request
| Op_http_request (http_method : string) (url : json)
    (headers : option (list (string * string))) (add_auth_info : bool)
    (retries timeout : Z) (b : body)
| Op_upload_file_to_temp_storage (file_path : string)
| Op_upload_powershell_module (module_name zipped_ps_module : string)
| Op_upload_python_package (package_name whl_path : string)
| Op_get_python_package (package_name : string)
| Op_delete_python_package (package_name : string)
| Op_powershell_execute_script (ex : PowershellScriptExecutor) (count : Z)
| Op_delete_pip_if_exists
| Op_wait_for_package_upload (package_name : string) (timeout_seconds : Z)
| Op_wrap_script (ex : PythonScriptExecutor)
| Op_create_whl_for_upload (ex : PythonScriptExecutor)
| Op_python_execute_script (ex : PythonScriptExecutor) (count : Z).

(** The operation run for its effect, whatever it returns. *)
Definition done {A : Type} (m : M A) : M unit := m ;; ret tt.

(** What each operation runs. *)
Definition run_operation (op : operation) : M unit :=
  match op with
  | Op_wait_for_next_request => __wait_for_next_request
  | Op_http_request m url h a n t b => done (__http_request m url h a n t b)
  | Op_upload_file_to_temp_storage f => done (__upload_file_to_temp_storage f)
  | Op_upload_powershell_module a b => upload_powershell_module a b
  | Op_upload_python_package a b => upload_python_package a b
  | Op_get_python_package a => done (get_python_package a)
  | Op_delete_python_package a => delete_python_package a
  | Op_powershell_execute_script ex n => powershell_execute_script ex n
  | Op_delete_pip_if_exists => _delete_pip_if_exists
  | Op_wait_for_package_upload a n => _wait_for_package_upload a n
  | Op_wrap_script ex => done (_wrap_script ex)
  | Op_create_whl_for_upload ex => done (_create_whl_for_upload ex)
  | Op_python_execute_script ex n => python_execute_script ex n
  end.

(** The operations that upload a file: each upload records the URL of
    its temporary storage on the session. *)
Definition uploads (op : operation) : bool :=
  match op with
  | Op_upload_file_to_temp_storage _
  | Op_upload_powershell_module _ _
  | Op_upload_python_package _ _
  | Op_powershell_execute_script _ _
  | Op_python_execute_script _ _ => true
  | _ => false
  end.

(** The objects of a run live in a store, and an address is an index of
    it: the session objects, and the executor objects, whose attribute
    [automation_session] holds the address of the session it was given. *)
Inductive object : Type :=
| SessionObject (s : session)
| PowershellExecutorObject (automation_session : nat) (script_path : string)
| PythonExecutorObject (automation_session : nat) (script_path : string)
    (requirements_file : option string).

Definition store : Type := list object.

(** An assignment to an attribute of the object at [a] replaces the
    object there. *)
Fixpoint set_object (a : nat) (o : object) (h : store) : store :=
  match h, a with
  | [], _ => []
  | _ :: tl, O => o :: tl
  | x :: tl, S a' => x :: set_object a' o tl
  end.

(** [PowershellScriptExecutor(automation_session, script_path)] and
    [PythonScriptExecutor(automation_session, script_path,
    requirements_file)]: [ScriptExecutor.__init__] sets the first two
    attributes, the Python executor's own [__init__] the third. The new
    object has the next address. *)
Definition new_PowershellScriptExecutor (automation_session : nat)
    (script_path : string) (h : store) : nat * store :=
  (List.length h,
   (h ++ [PowershellExecutorObject automation_session script_path])%list).

Definition new_PythonScriptExecutor (automation_session : nat)
    (script_path : string) (requirements_file : option string) (h : store)
  : nat * store :=
  (List.length h,
   (h ++ [PythonExecutorObject automation_session script_path
            requirements_file])%list).

(** The methods of the executors. *)
Inductive method : Type :=
| Method_execute_script (count : Z)
| Method_delete_pip_if_exists
| Method_wait_for_package_upload (package_name : string) (timeout_seconds : Z)
| Method_wrap_script
| Method_create_whl_for_upload.

(** [self.automation_session] *)
Definition automation_session_of (o : object) : option nat :=
  match o with
  | SessionObject _ => None
  | PowershellExecutorObject a _ => Some a
  | PythonExecutorObject a _ _ => Some a
  end.

(** What a method of an executor object runs on the session: the method
    reads [self.script_path] and [self.requirements_file] off the object.
    The PowerShell executor has the one method. *)
Definition method_operation (o : object) (m : method) : option operation :=
  match o with
  | SessionObject _ => None
  | PowershellExecutorObject _ p =>
      match m with
      | Method_execute_script n =>
          Some (Op_powershell_execute_script (mkPowershellScriptExecutor p) n)
      | _ => None
      end
  | PythonExecutorObject _ p r =>
      let ex := mkPythonScriptExecutor p r in
      Some match m with
           | Method_execute_script n => Op_python_execute_script ex n
           | Method_delete_pip_if_exists => Op_delete_pip_if_exists
           | Method_wait_for_package_upload a n => Op_wait_for_package_upload a n
           | Method_wrap_script => Op_wrap_script ex
           | Method_create_whl_for_upload => Op_create_whl_for_upload ex
           end
  end.

(** An operation run on the session object at [a]: what it assigns to
    [self] is assigned to that object. *)
Definition call_session (a : nat) (op : operation) : St (store * world) unit :=
  fun hw =>
    match nth_error (fst hw) a with
    | Some (SessionObject s) =>
        let r := run_operation op (s, snd hw) in
        (fst r,
         (set_object a (SessionObject (fst (snd r))) (fst hw), snd (snd r)))
    | _ => (Raise (AttributeError "automation_session"), hw)
    end.

(** A method called on the executor object at [self]. *)
Definition call_executor (self : nat) (m : method) : St (store * world) unit :=
  fun hw =>
    match nth_error (fst hw) self with
    | Some o =>
        match automation_session_of o, method_operation o m with
        | Some a, Some op => call_session a op hw
        | _, _ => (Raise (AttributeError "method"), hw)
        end
    | None => (Raise (AttributeError "method"), hw)
    end.

Inductive call : Type :=
| SessionCall (self : nat) (op : operation)
| ExecutorCall (self : nat) (m : method).

Definition run_call (c : call) : St (store * world) unit :=
  match c with
  | SessionCall a op => call_session a op
  | ExecutorCall a m => call_executor a m
  end.

(** Calls one after the other, however each of them ends. *)
Fixpoint run_calls (cs : list call) (hw : store * world) : store * world :=
  match cs with
  | [] => hw
  | c :: tl => run_calls tl (snd (run_call c hw))
  end.

(** What one call leaves of the objects. *)
Definition kept (h h' : store) : Prop :=
  List.length h' = List.length h
  /\ forall a,
       match nth_error h a with
       | Some (SessionObject s) =>
           exists s', nth_error h' a = Some (SessionObject s')
                      /\ __account_id s' = __account_id s
                      /\ __access_token s' = __access_token s
       | o => nth_error h' a = o
       end.

(** The recorded URL of the temporary storage stays. *)
Definition same_url (a b : session * world) : Prop :=
  __current_temp_storage_url (fst b) = __current_temp_storage_url (fst a).




(** The request of a poll. *)
Definition poll_request (s : session) (package_name : string) : request :=
  mkRequest "GET" (__get_url s ("python3Packages/" ++ package_name))
    [("Authorization", "Bearer " ++ __access_token s)] HTTP_REQUEST_TIMEOUT
    NoBody.

(** The state a poll leaves: the session and the world after the one
    request. *)
Definition polled (s : session) (w : world) (package_name : string)
  : session * world :=
  (set_next_request_time (clock (waited s w) + TIME_BETWEEN_REQUESTS_MS) s,
   snd (send_w E (poll_request s package_name) (waited s w))).

(** A computation that ends by itself: it returns or raises. *)
Definition total {S A : Type} (m : St S A) : Prop :=
  forall st, fst (m st) <> OutOfFuel.




(** The account accepted no change. *)
Definition same_mutations (a b : session * world) : Prop :=
  mutations (trace (snd b)) = mutations (trace (snd a)).

(** No [uuid.uuid4()] was drawn. *)
Definition same_uuid (a b : session * world) : Prop :=
  uuid_ix (snd b) = uuid_ix (snd a).

(** Whether the account held a ['pip'] package when the run began. *)
Definition pip_existed (s : session) (w : world) : bool :=
  match fst (get_python_package PIP_PACKAGE_NAME (s, w)) with
  | Return pip_package => truthy pip_package
  | _ => false
  end.

(** The requests a loop of module uploads has answered: for each module
    the link of a temporary storage, the file put there, and the module
    put under the next UUID. *)
Fixpoint module_uploads (s : session) (ix : nat) (blobs : list string)
  : list (string * string) :=
  match blobs with
  | [] => []
  | u :: tl =>
      ("GET", URL_GET_STORAGE_BLOB (__account_id s))
      :: ("PUT", u)
      :: ("PUT", __get_url s ("modules/" ++ uuid_src E ix))
      :: module_uploads s (S ix) tl
  end.

(** The token [main] works with: the [--token] argument when it is given
    and not empty, the token of the Azure CLI otherwise. *)
Definition token_run (args : Namespace) (w : world) : result string * world :=
  match arg_token args with
  | Some t => if (t =? "")%string then get_access_token_from_cli w else (Return t, w)
  | None => get_access_token_from_cli w
  end.

(** The two checks [main] makes on its arguments before anything else. *)
Definition arguments_ok (args : Namespace) (w : world) : bool :=
  andb (path_exists (arg_path args) w)
       (negb match arg_requirements args with
             | Some r => andb (negb (r =? "")%string) (negb (path_exists r w))
             | None => false
             end).

(** What [main] does once it holds the session. *)
Definition executor_run (args : Namespace) (sess : session) (w : world)
  : result unit * world :=
  let ext := lower (get_file_extension E (arg_path args)) in
  if (ext =? ".ps1")%string then
    with_session sess
      (powershell_execute_script (mkPowershellScriptExecutor (arg_path args))
         (arg_count args)) w
  else if (ext =? ".py")%string then
    with_session sess
      (python_execute_script
         (mkPythonScriptExecutor (arg_path args) (arg_requirements args))
         (arg_count args)) w
  else (Raise (CloudMinerException (UnsupportedExtension ext)), w).

(** The changes a run of the Python executor that returns makes to the
    account, in order: the old ['pip'] deleted when there was one, the new
    one put, then a package for each execution. *)
Definition python_changes (s : session) (w : world) (count : Z)
  : list (string * string) :=
  ((if pip_existed s w
    then [("DELETE", __get_url s ("python3Packages/" ++ PIP_PACKAGE_NAME))]
    else [])
   ++ ("PUT", __get_url s ("python3Packages/" ++ PIP_PACKAGE_NAME))
      :: map (fun i => ("PUT", __get_url s ("python3Packages/"
                                           ++ uuid_src E (uuid_ix w + i))))
           (seq 0 (Z.to_nat count)))%list.

(** The same for the PowerShell executor: a module for each execution. *)
Definition module_changes (s : session) (w : world) (count : Z)
  : list (string * string) :=
  map (fun i => ("PUT", __get_url s ("modules/" ++ uuid_src E (uuid_ix w + i))))
    (seq 0 (Z.to_nat count)).




(** The last character of a string. *)
Fixpoint last_char (s : string) : option ascii :=
  match s with
  | EmptyString => None
  | String c EmptyString => Some c
  | String _ tl => last_char tl
  end.

(** The requests of an upload: a [PUT], or the [GET] of the link of a
    temporary storage. *)
Definition upload_request (r : request) : Prop :=
  req_method r = "PUT"
  \/ (req_method r = "GET" /\ exists a, req_url r = URL_GET_STORAGE_BLOB a).

(** The requests sent from one state to another all satisfy [P]. *)
Definition sends_only (P : request -> Prop) (a b : session * world) : Prop :=
  exists l,
    requests (trace (snd b)) = (requests (trace (snd a)) ++ l)%list
    /\ Forall P l.





(** * Properties *)

(** The laws of [bind] the proofs rewrite with. *)
Lemma bind_eq {S A B : Type} (m : St S A) (k : A -> St S B) st :
  bind m k st
  = match m st with
    | (Return a, st') => k a st'
    | (Raise e, st') => (Raise e, st')
    | (OutOfFuel, st') => (OutOfFuel, st')
    end.
Proof. reflexivity. Qed.


(** ** The upload-state enum *)

Lemma UPLOAD_STATE_members_complete (m : UPLOAD_STATE) :
  In m UPLOAD_STATE_members.
Proof. destruct m; simpl; tauto. Qed.

(** ** How a computation moves the state *)

Section Respects.

Variable S : Type.
Variable R : S -> S -> Prop.
Hypothesis R_refl : forall st, R st st.
Hypothesis R_trans : forall a b c, R a b -> R b c -> R a c.

Lemma respects_ret {A : Type} (a : A) : respects R (ret a).
Proof. intro st. apply R_refl. Qed.

Lemma respects_raise {A : Type} (e : exn) : respects R (@raise S A e).
Proof. intro st. apply R_refl. Qed.

Lemma respects_get : respects R (@get S).
Proof. intro st. apply R_refl. Qed.

Lemma respects_bind {A B : Type} (m : St S A) (k : A -> St S B) :
  respects R m -> (forall a, respects R (k a)) -> respects R (bind m k).
Proof.
  intros Hm Hk st. unfold bind.
  specialize (Hm st). destruct (m st) as [[a | e | ] st']; simpl in *; auto.
  eapply R_trans; [exact Hm | apply Hk].
Qed.

Lemma respects_try_except {A : Type} (m : St S A) (h : exn -> option (St S A)) :
  respects R m -> (forall e k, h e = Some k -> respects R k) ->
  respects R (try_except m h).
Proof.
  intros Hm Hh st. unfold try_except.
  specialize (Hm st). destruct (m st) as [[a | e | ] st']; simpl in *; auto.
  destruct (h e) as [k | ] eqn:He; simpl; auto.
  eapply R_trans; [exact Hm | eapply Hh; eauto].
Qed.

End Respects.

(** *** Relations the methods keep *)

(** [R] relates a state to a later one; the hypotheses say that the
    primitive steps keep it, [P] being the requests that may be sent.
    The lemmas then give it for the methods built from those steps. *)

Section Stable.

Variable R : session * world -> session * world -> Prop.
Variable P : request -> Prop.

Hypothesis R_refl : forall st, R st st.
Hypothesis R_trans : forall a b c, R a b -> R b c -> R a c.
Hypothesis R_sleep : forall d s w, 0 <= d -> R (s, w) (s, sleep_w d w).
Hypothesis R_next : forall t s w, R (s, w) (set_next_request_time t s, w).
Hypothesis R_url :
  forall u s w, R (s, w) (set_current_temp_storage_url u s, w).
Hypothesis R_send : forall r s w, P r -> R (s, w) (s, snd (send_w E r w)).
Hypothesis R_fs : forall f s w, R (s, w) (s, set_fs f w).
Hypothesis R_uuid : forall s w, R (s, w) (s, snd (uuid4_w E w)).

Hypothesis P_get : forall u h t, P (mkRequest "GET" u h t NoBody).
Hypothesis P_delete : forall u h t, P (mkRequest "DELETE" u h t NoBody).
Hypothesis P_put_data : forall u h t d, P (mkRequest "PUT" u h t (Data d)).
Hypothesis P_put_json : forall u h t j, P (mkRequest "PUT" u h t (Json j)).
Hypothesis P_storage :
  forall a h t, P (mkRequest "GET" (URL_GET_STORAGE_BLOB a) h t NoBody).

Local Abbreviation stable := (respects R).

Lemma stable_ret {A : Type} (a : A) : stable (ret a).
Proof. intro st. apply R_refl. Qed.

Lemma stable_raise {A : Type} (e : exn) : stable (@raise _ A e).
Proof. intro st. apply R_refl. Qed.

Lemma stable_bind {A B : Type} (m : M A) (k : A -> M B) :
  stable m -> (forall a, stable (k a)) -> stable (bind m k).
Proof. intros Hm Hk. exact (respects_bind _ R R_trans m k Hm Hk). Qed.

Lemma stable_try_except {A : Type} (m : M A) (h : exn -> option (M A)) :
  stable m -> (forall e k, h e = Some k -> stable k) ->
  stable (try_except m h).
Proof. intros Hm Hh. exact (respects_try_except _ R R_trans m h Hm Hh). Qed.

Lemma stable_self : stable self.
Proof. intro st. apply R_refl. Qed.

Lemma stable_time_time : stable time_time.
Proof. intros [s w]. apply R_refl. Qed.

Lemma stable_time_sleep d : 0 <= d -> stable (time_sleep d).
Proof. intros Hd [s w]. apply R_sleep, Hd. Qed.

Lemma stable_set_next_request_time t :
  stable (on_self (set_next_request_time t)).
Proof. intros [s w]. apply R_next. Qed.

Lemma stable_set_current_temp_storage_url u :
  stable (on_self (set_current_temp_storage_url u)).
Proof. intros [s w]. apply R_url. Qed.

Lemma stable_send r : P r -> stable (on_world (send_w E r)).
Proof. intros Hr [s w]. apply R_send, Hr. Qed.

Lemma stable_read_file f : stable (read_file f).
Proof.
  intros [s w]. unfold read_file; simpl.
  destruct (assoc f (fs w)) as [[d | ] | ]; apply R_refl.
Qed.

Lemma stable_write_file f data : stable (write_file f data).
Proof.
  intros [s w]. unfold write_file; simpl.
  destruct (assoc f (fs w)) as [[d | ] | ];
    first [apply R_fs | apply R_refl].
Qed.

Lemma stable_copyfile src dst : stable (copyfile src dst).
Proof.
  intros [s w]. unfold copyfile.
  destruct (andb _ _); [apply R_refl | ].
  apply stable_bind; [apply stable_read_file | intros data].
  apply stable_write_file.
Qed.

Lemma stable_read_text f : stable (read_text f).
Proof.
  unfold read_text. apply stable_bind; [apply stable_read_file | intros data].
  destruct (decode E data); [apply stable_ret | apply stable_raise].
Qed.

Lemma stable_write_text f text : stable (write_text f text).
Proof.
  unfold write_text. apply stable_bind; [apply stable_write_file | intros _].
  destruct (encode E text); [apply stable_write_file | apply stable_raise].
Qed.

Lemma stable_uuid4 : stable uuid4.
Proof. intros [s w]. apply R_uuid. Qed.

Lemma stable_utils_zip_file a b : stable (utils_zip_file a b).
Proof. intros [s w]. apply R_fs. Qed.

Lemma stable_utils_package_to_whl a : stable (utils_package_to_whl a).
Proof. intros [s w]. apply R_fs. Qed.

Lemma stable_response_json r : stable (response_json r).
Proof.
  unfold response_json. destruct (json_body r);
    [apply stable_ret | apply stable_raise].
Qed.

Lemma stable_raise_for_status r : stable (raise_for_status r).
Proof.
  unfold raise_for_status.
  destruct (andb _ _); [apply stable_raise | apply stable_ret].
Qed.

Lemma stable_getitem obj key : stable (getitem obj key).
Proof.
  unfold getitem. destruct obj; try apply stable_raise.
  destruct (assoc key members); [apply stable_ret | apply stable_raise].
Qed.

(** One step of a proof that a method keeps [R]. *)
Ltac stable_step :=
  match goal with
  | |- stable (bind _ _) => apply stable_bind; [ | intros ? ]
  | |- stable (try_except _ _) =>
      apply stable_try_except;
      [ | let e := fresh "e" in let k := fresh "k" in let H := fresh "H" in
          intros e k H; destruct e; inversion H; subst; clear H ]
  | |- stable (ret _) => apply stable_ret
  | |- stable (raise _) => apply stable_raise
  | |- stable self => apply stable_self
  | |- stable time_time => apply stable_time_time
  | |- stable (time_sleep _) => apply stable_time_sleep; unfold seconds; lia
  | |- stable (on_self (set_next_request_time _)) =>
      apply stable_set_next_request_time
  | |- stable (on_self (set_current_temp_storage_url _)) =>
      apply stable_set_current_temp_storage_url
  | |- stable (read_file _) => apply stable_read_file
  | |- stable (write_file _ _) => apply stable_write_file
  | |- stable (copyfile _ _) => apply stable_copyfile
  | |- stable (read_text _) => apply stable_read_text
  | |- stable (write_text _ _) => apply stable_write_text
  | |- stable uuid4 => apply stable_uuid4
  | |- stable (utils_zip_file _ _) => apply stable_utils_zip_file
  | |- stable (utils_package_to_whl _) => apply stable_utils_package_to_whl
  | |- stable (response_json _) => apply stable_response_json
  | |- stable (raise_for_status _) => apply stable_raise_for_status
  | |- stable (getitem _ _) => apply stable_getitem
  | |- stable (if ?c then _ else _) => destruct c
  | |- stable (match ?x with _ => _ end) => destruct x
  end.

Lemma stable_wait_for_next_request : stable __wait_for_next_request.
Proof.
  unfold __wait_for_next_request.
  apply stable_bind; [apply stable_time_time | intros current_time].
  apply stable_bind; [apply stable_self | intros s].
  apply stable_bind; [ | intros _; repeat stable_step ].
  destruct (0 <? __next_request_time s - current_time) eqn:Hgap.
  - apply stable_time_sleep. apply Z.ltb_lt in Hgap. lia.
  - apply stable_ret.
Qed.

Lemma stable_try_request m url h t b :
  (forall u, P (mkRequest m u h t b)) -> stable (try_request m url h t b).
Proof.
  intros HP. unfold try_request. destruct url; try apply stable_raise.
  apply stable_bind; [apply stable_send, HP | intros o].
  repeat stable_step.
Qed.

Lemma stable_retry_loop n m url h t b :
  (forall u, P (mkRequest m u h t b)) -> stable (retry_loop n m url h t b).
Proof.
  intros HP. induction n as [ | n IH]; simpl.
  - apply stable_raise.
  - apply stable_bind; [apply stable_try_request, HP | intros resp].
    destruct (must_retry resp).
    + apply stable_bind; [ | intros _; exact IH].
      apply stable_time_sleep. unfold seconds, SLEEP_BETWEEN_ERROR_SECONDS. lia.
    + repeat stable_step.
Qed.

Lemma stable_http_request m url h a n t b :
  (forall u hh, P (mkRequest m u hh t b)) ->
  stable (__http_request m url h a n t b).
Proof.
  intros HP. unfold __http_request.
  apply stable_bind; [apply stable_wait_for_next_request | intros _].
  apply stable_bind; [apply stable_self | intros s].
  apply stable_retry_loop. intros u. apply HP.
Qed.

(** The same for a request to one URL. *)
Lemma stable_try_request_at m u h t b :
  P (mkRequest m u h t b) -> stable (try_request m (JStr u) h t b).
Proof.
  intros HP. unfold try_request.
  apply stable_bind; [apply stable_send, HP | intros o].
  repeat stable_step.
Qed.

Lemma stable_retry_loop_at n m u h t b :
  P (mkRequest m u h t b) -> stable (retry_loop n m (JStr u) h t b).
Proof.
  intros HP. induction n as [ | n IH]; simpl.
  - apply stable_raise.
  - apply stable_bind; [apply stable_try_request_at, HP | intros resp].
    destruct (must_retry resp).
    + apply stable_bind; [ | intros _; exact IH].
      apply stable_time_sleep. unfold seconds, SLEEP_BETWEEN_ERROR_SECONDS. lia.
    + repeat stable_step.
Qed.

Lemma stable_http_request_at m u h a n t b :
  (forall hh, P (mkRequest m u hh t b)) ->
  stable (__http_request m (JStr u) h a n t b).
Proof.
  intros HP. unfold __http_request.
  apply stable_bind; [apply stable_wait_for_next_request | intros _].
  apply stable_bind; [apply stable_self | intros s].
  apply stable_retry_loop_at. apply HP.
Qed.

Lemma stable_http_get url : stable (http_request_default "GET" url NoBody).
Proof. apply stable_http_request. intros. apply P_get. Qed.

Lemma stable_http_delete url :
  stable (http_request_default "DELETE" url NoBody).
Proof. apply stable_http_request. intros. apply P_delete. Qed.

Lemma stable_http_put_json url j :
  stable (http_request_default "PUT" url (Json j)).
Proof. apply stable_http_request. intros. apply P_put_json. Qed.

Lemma stable_init acct : stable (__init__ acct).
Proof.
  unfold __init__, init_handler.
  apply stable_try_except.
  - apply stable_bind; [apply stable_self | intros s; apply stable_http_get].
  - intros e k H. destruct e; inversion H; subst. repeat stable_step.
Qed.

Lemma stable_upload_file_to_temp_storage f :
  stable (__upload_file_to_temp_storage f).
Proof.
  unfold __upload_file_to_temp_storage.
  apply stable_bind; [apply stable_self | intros s].
  apply stable_bind;
    [apply stable_http_request_at; intros; apply P_storage | intros r].
  apply stable_bind; [apply stable_response_json | intros j].
  apply stable_bind; [apply stable_set_current_temp_storage_url | intros _].
  apply stable_bind; [apply stable_read_file | intros file_data].
  apply stable_bind; [apply stable_self | intros s1].
  destruct (__current_temp_storage_url s1); [ | apply stable_raise].
  apply stable_bind;
    [apply stable_http_request; intros; apply P_put_data | intros _].
  repeat stable_step.
Qed.

Lemma stable_upload_powershell_module a b :
  stable (upload_powershell_module a b).
Proof.
  unfold upload_powershell_module.
  apply stable_bind; [apply stable_upload_file_to_temp_storage | intros u].
  apply stable_bind; [apply stable_self | intros s].
  apply stable_bind; [apply stable_http_put_json | intros _; apply stable_ret].
Qed.

Lemma stable_upload_python_package a b :
  stable (upload_python_package a b).
Proof.
  unfold upload_python_package.
  apply stable_bind; [apply stable_upload_file_to_temp_storage | intros u].
  apply stable_bind; [apply stable_self | intros s].
  apply stable_bind; [apply stable_http_put_json | intros _; apply stable_ret].
Qed.

Lemma stable_get_python_package a : stable (get_python_package a).
Proof.
  unfold get_python_package.
  apply stable_bind; [apply stable_self | intros s].
  apply stable_try_except.
  - apply stable_bind; [apply stable_http_get | intros r].
    apply stable_response_json.
  - intros e k H. destruct e; inversion H; subst. repeat stable_step.
Qed.

Lemma stable_delete_python_package a : stable (delete_python_package a).
Proof.
  unfold delete_python_package.
  apply stable_bind; [apply stable_self | intros s].
  apply stable_try_except.
  - apply stable_bind; [apply stable_http_delete | intros r; apply stable_ret].
  - intros e k H. destruct e; inversion H; subst. repeat stable_step.
Qed.

Lemma stable_delete_pip_if_exists : stable _delete_pip_if_exists.
Proof.
  unfold _delete_pip_if_exists.
  apply stable_bind; [apply stable_get_python_package | intros pkg].
  destruct (truthy pkg);
    [apply stable_delete_python_package | apply stable_ret].
Qed.

Lemma stable_wait_loop fuel name end_time :
  stable (wait_loop fuel name end_time).
Proof.
  induction fuel as [ | fuel IH]; simpl.
  - intro st. apply R_refl.
  - apply stable_bind; [apply stable_time_time | intros now].
    destruct (now <? end_time); [ | apply stable_raise].
    apply stable_bind; [apply stable_get_python_package | intros pkg].
    destruct (negb (truthy pkg)); [apply stable_raise | ].
    apply stable_bind; [apply stable_getitem | intros props].
    apply stable_bind; [apply stable_getitem | intros st].
    destruct (json_eq_member st SUCCEEDED); [apply stable_ret | ].
    destruct (json_eq_member st FAILED).
    + repeat stable_step.
    + apply stable_bind; [ | intros _; exact IH].
      apply stable_time_sleep.
      unfold seconds, UPLOAD_STATE_CHECK_INTERVAL_SECONDS. lia.
Qed.

Lemma stable_wait_for_package_upload name timeout :
  stable (_wait_for_package_upload name timeout).
Proof.
  unfold _wait_for_package_upload, wait_for_package_upload_fuel.
  apply stable_bind; [apply stable_time_time | intros start].
  apply stable_wait_loop.
Qed.

Lemma stable_wrap_script ex : stable (_wrap_script ex).
Proof. unfold _wrap_script. repeat stable_step. Qed.

Lemma stable_create_whl_for_upload ex : stable (_create_whl_for_upload ex).
Proof.
  unfold _create_whl_for_upload.
  apply stable_bind; [apply stable_copyfile | intros _].
  apply stable_bind; [apply stable_read_text | intros raw].
  apply stable_bind; [apply stable_wrap_script | intros wrapper].
  apply stable_bind; [apply stable_write_text | intros _].
  apply stable_utils_package_to_whl.
Qed.

Lemma stable_powershell_loop n f : stable (powershell_loop n f).
Proof.
  induction n as [ | n IH]; simpl; [apply stable_ret | ].
  apply stable_bind; [apply stable_uuid4 | intros name].
  apply stable_bind; [apply stable_utils_zip_file | intros z].
  apply stable_bind; [apply stable_upload_powershell_module | intros _].
  exact IH.
Qed.

Lemma stable_python_loop n : stable (python_loop n).
Proof.
  induction n as [ | n IH]; simpl; [apply stable_ret | ].
  apply stable_bind; [apply stable_uuid4 | intros name].
  apply stable_bind; [apply stable_upload_python_package | intros _].
  exact IH.
Qed.

Lemma stable_powershell_execute_script ex n :
  stable (powershell_execute_script ex n).
Proof. apply stable_powershell_loop. Qed.

Lemma stable_python_execute_script ex n :
  stable (python_execute_script ex n).
Proof.
  unfold python_execute_script.
  apply stable_bind; [apply stable_delete_pip_if_exists | intros _].
  apply stable_bind; [apply stable_create_whl_for_upload | intros whl].
  apply stable_bind; [apply stable_upload_python_package | intros _].
  apply stable_bind; [apply stable_wait_for_package_upload | intros _].
  apply stable_python_loop.
Qed.

End Stable.

Lemma evolves_refl st : evolves st st.
Proof.
  unfold evolves. repeat split; try lia.
  exists []. now rewrite app_nil_r.
Qed.

Lemma evolves_trans a b c : evolves a b -> evolves b c -> evolves a c.
Proof.
  unfold evolves.
  intros (H1 & H2 & H3 & H4 & H5 & l & H6) (K1 & K2 & K3 & K4 & K5 & l' & K6).
  repeat split; try congruence; try lia.
  exists (l ++ l')%list. rewrite K6, H6. now rewrite app_assoc.
Qed.

Lemma evolves_sleep d s w : 0 <= d -> evolves (s, w) (s, sleep_w d w).
Proof.
  intros Hd. unfold evolves; simpl. repeat split; try lia.
  now exists [EvSleep d].
Qed.

Lemma evolves_next t s w : evolves (s, w) (set_next_request_time t s, w).
Proof.
  unfold evolves; simpl. repeat split; try lia.
  exists []. now rewrite app_nil_r.
Qed.

Lemma evolves_url u s w :
  evolves (s, w) (set_current_temp_storage_url u s, w).
Proof.
  unfold evolves; simpl. repeat split; try lia.
  exists []. now rewrite app_nil_r.
Qed.

Lemma evolves_send r s w : True -> evolves (s, w) (s, snd (send_w E r w)).
Proof.
  intros _. unfold evolves, send_w; simpl.
  destruct (net E (sent w)) as [o d]; simpl. repeat split; try lia.
  now eexists.
Qed.

Lemma evolves_fs f s w : evolves (s, w) (s, set_fs f w).
Proof.
  unfold evolves; simpl. repeat split; try lia.
  exists []. now rewrite app_nil_r.
Qed.

Lemma evolves_uuid s w : evolves (s, w) (s, snd (uuid4_w E w)).
Proof.
  unfold evolves; simpl. repeat split; try lia.
  exists []. now rewrite app_nil_r.
Qed.

(** Closes an instance of a lemma of [Stable] for [evolves]. *)
Ltac forward_by lem :=
  unfold forward;
  first [ apply (lem evolves (fun _ => True)) | apply (lem evolves) ];
  first [ exact evolves_refl | exact evolves_trans | exact evolves_sleep
        | exact evolves_next | exact evolves_url | exact evolves_send
        | exact evolves_fs | exact evolves_uuid | intros; exact I ].

Lemma forward_retry_loop n m url h t b : forward (retry_loop n m url h t b).
Proof. forward_by stable_retry_loop. Qed.

Lemma forward_http_request m url h a n t b :
  forward (__http_request m url h a n t b).
Proof. forward_by stable_http_request. Qed.

Lemma forward_http_request_default m url b :
  forward (http_request_default m url b).
Proof. apply forward_http_request. Qed.

Lemma forward_get_python_package a : forward (get_python_package a).
Proof. forward_by stable_get_python_package. Qed.

Lemma forward_upload_python_package a b :
  forward (upload_python_package a b).
Proof. forward_by stable_upload_python_package. Qed.

Lemma forward_upload_powershell_module a b :
  forward (upload_powershell_module a b).
Proof. forward_by stable_upload_powershell_module. Qed.

(** ** The retry loop of [__http_request] *)

Lemma retried_status_codes_spec c :
  status_in c retried_status_codes = true <-> c = 429 \/ c = 503 \/ c = 504.
Proof.
  unfold status_in, retried_status_codes; simpl.
  unfold HTTPStatus.TOO_MANY_REQUESTS, HTTPStatus.GATEWAY_TIMEOUT,
    HTTPStatus.SERVICE_UNAVAILABLE.
  rewrite !orb_true_iff, !Z.eqb_eq. intuition discriminate.
Qed.

Lemma caught_spec e :
  caught e = true <->
  e = ReadTimeout \/ e = ChunkedEncodingError \/ e = ConnectionError.
Proof.
  destruct e; simpl; split; intros H; auto;
    try discriminate; intuition discriminate.
Qed.

Lemma try_request_eq m u h t b s w :
  try_request m (JStr u) h t b (s, w) =
  let w1 := snd (send_w E (mkRequest m u h t b) w) in
  match fst (net E (sent w)) with
  | Responded r => (Return (Some r), (s, w1))
  | Errored e =>
      if caught e then (Return None, (s, w1))
      else (Raise (RequestError e), (s, w1))
  end.
Proof.
  unfold try_request, bind, on_world, send_w; cbn [fst snd].
  destruct (net E (sent w)) as [o d]; cbn [fst snd].
  destruct o as [r | e]; [reflexivity | ].
  destruct (caught e); reflexivity.
Qed.

(** One turn of the loop, by what the network answers. *)
Lemma retry_loop_step n m u h t b s w :
  retry_loop (S n) m (JStr u) h t b (s, w) =
  let w1 := snd (send_w E (mkRequest m u h t b) w) in
  if transient (fst (net E (sent w))) then
    retry_loop n m (JStr u) h t b
      (s, sleep_w (seconds SLEEP_BETWEEN_ERROR_SECONDS) w1)
  else
    match fst (net E (sent w)) with
    | Errored e => (Raise (RequestError e), (s, w1))
    | Responded r =>
        if andb (400 <=? status_code r) (status_code r <? 600)
        then (Raise (HTTPError r), (s, w1))
        else (Return r, (s, w1))
    end.
Proof.
  cbn [retry_loop]. unfold bind at 1. rewrite try_request_eq. cbv zeta.
  destruct (fst (net E (sent w))) as [r | e]; cbn [transient must_retry].
  - destruct (status_in (status_code r) retried_status_codes); [reflexivity | ].
    unfold bind, raise_for_status.
    destruct (andb (400 <=? status_code r) (status_code r <? 600)); reflexivity.
  - destruct (caught e); reflexivity.
Qed.

Lemma retry_loop_bad_url n m url h t b s w :
  (forall u, url <> JStr u) ->
  retry_loop (S n) m url h t b (s, w) = (Raise (RequestError InvalidURL), (s, w)).
Proof.
  intros Hu. simpl. unfold bind, try_request.
  destruct url; try reflexivity. now destruct (Hu s0).
Qed.

Lemma transient_spec o :
  transient o = true <->
  (exists e, o = Errored e
             /\ (e = ReadTimeout \/ e = ChunkedEncodingError \/ e = ConnectionError))
  \/ (exists r, o = Responded r
                /\ (status_code r = 429 \/ status_code r = 503 \/ status_code r = 504)).
Proof.
  destruct o as [r | e]; cbn [transient].
  - rewrite retried_status_codes_spec. split.
    + intros H. right. now exists r.
    + intros [(e & He & _) | (r' & Hr & H)]; [discriminate | ].
      now inversion Hr; subst.
  - rewrite caught_spec. split.
    + intros H. left. now exists e.
    + intros [(e' & He & H) | (r & Hr & _)]; [ | discriminate].
      now inversion He; subst.
Qed.

Lemma retry_loop_clock n m url h t b st :
  clock (snd st) <= clock (snd (snd (retry_loop n m url h t b st))).
Proof. apply (forward_retry_loop n m url h t b st). Qed.

(** An error status outside the list ends the loop at once. *)
Lemma retry_loop_error_status n m u h t b s w r :
  fst (net E (sent w)) = Responded r ->
  400 <= status_code r < 600 ->
  status_code r <> 429 -> status_code r <> 503 -> status_code r <> 504 ->
  retry_loop (S n) m (JStr u) h t b (s, w)
  = (Raise (HTTPError r), (s, snd (send_w E (mkRequest m u h t b) w))).
Proof.
  intros Ho Hrange H429 H503 H504. rewrite retry_loop_step. cbv zeta.
  rewrite Ho.
  assert (Ht : transient (Responded r) = false).
  { destruct (transient (Responded r)) eqn:Ht; [ | reflexivity ].
    apply transient_spec in Ht.
    destruct Ht as [(e & He & _) | (r' & Hr & H)]; [discriminate | ].
    inversion Hr; subst. lia. }
  rewrite Ht.
  replace (andb (400 <=? status_code r) (status_code r <? 600)) with true;
    [reflexivity | ].
  symmetry. apply andb_true_iff. split; [apply Z.leb_le | apply Z.ltb_lt]; lia.
Qed.

(** C1 (as amended): at every turn of the loop of [__http_request] the
    helper sleeps the fixed ten seconds and goes on to the next turn
    exactly when the attempt raised one of the exceptions the [except]
    clause names ([ReadTimeout], [ChunkedEncodingError],
    [ConnectionError]) or the response has status 429, 503 or 504; on any
    other error status (400 to 599) it raises [HTTPError] at once, with
    nothing more sent and no sleep. *)
Theorem http_request_retries_exactly_when n m u h t b s w :
  let o := fst (net E (sent w)) in
  let w1 := snd (send_w E (mkRequest m u h t b) w) in
  let run := retry_loop (S n) m (JStr u) h t b (s, w) in
  let again :=
    retry_loop n m (JStr u) h t b
      (s, sleep_w (seconds SLEEP_BETWEEN_ERROR_SECONDS) w1) in
  (run = again <->
   ((exists e, o = Errored e
               /\ (e = ReadTimeout \/ e = ChunkedEncodingError
                   \/ e = ConnectionError))
    \/ (exists r, o = Responded r
                  /\ (status_code r = 429 \/ status_code r = 503
                      \/ status_code r = 504))))
  /\ (forall r, o = Responded r ->
                400 <= status_code r < 600 ->
                status_code r <> 429 -> status_code r <> 503 ->
                status_code r <> 504 ->
                run = (Raise (HTTPError r), (s, w1))).
Proof.
  intros o w1 run again. split.
  - rewrite <- transient_spec. subst run. rewrite retry_loop_step.
    fold o. cbv zeta. fold w1. fold again.
    destruct (transient o) eqn:Ht; [tauto | ].
    split; [ | discriminate ]. intros Heq. exfalso.
    assert (Hw : snd (snd again) = w1).
    { rewrite <- Heq. destruct o as [r | e]; [ | reflexivity ].
      destruct (andb _ _); reflexivity. }
    pose proof (retry_loop_clock n m (JStr u) h t b
                  (s, sleep_w (seconds SLEEP_BETWEEN_ERROR_SECONDS) w1)) as Hc.
    fold again in Hc. rewrite Hw in Hc. simpl in Hc.
    unfold seconds, SLEEP_BETWEEN_ERROR_SECONDS in Hc. lia.
  - intros r Ho Hrange H429 H503 H504.
    apply retry_loop_error_status; assumption.
Qed.

(** ** The retry loop is bounded *)

Lemma retry_loop_sent_bound n m url h t b s w :
  (sent (snd (snd (retry_loop n m url h t b (s, w)))) <= sent w + n)%nat.
Proof.
  revert s w. induction n as [ | n IH]; intros s w.
  - simpl. lia.
  - destruct url; try (rewrite retry_loop_bad_url by discriminate; simpl; lia).
    rewrite retry_loop_step. cbv zeta.
    assert (Hs : sent (snd (send_w E (mkRequest m s0 h t b) w)) = S (sent w)).
    { unfold send_w. destruct (net E (sent w)); reflexivity. }
    destruct (transient (fst (net E (sent w)))).
    + eapply Nat.le_trans; [apply IH | ]. simpl. rewrite Hs. lia.
    + destruct (fst (net E (sent w))) as [r | e]; [destruct (andb _ _) | ];
        simpl; rewrite Hs; lia.
Qed.

Lemma retry_loop_returns_or_raises n m url h t b st :
  (exists r, fst (retry_loop n m url h t b st) = Return r)
  \/ (exists e, fst (retry_loop n m url h t b st) = Raise e).
Proof.
  revert st. induction n as [ | n IH]; intros [s w].
  - right. eexists. reflexivity.
  - destruct url; try (rewrite retry_loop_bad_url by discriminate; right;
                       eexists; reflexivity).
    rewrite retry_loop_step. cbv zeta.
    destruct (transient (fst (net E (sent w)))); [apply IH | ].
    destruct (fst (net E (sent w))) as [r | e]; [destruct (andb _ _) | ];
      [right | left | right]; eexists; reflexivity.
Qed.

Lemma retry_loop_all_transient n m u h t b s w :
  (forall i, (i < n)%nat -> transient (fst (net E (sent w + i))) = true) ->
  fst (retry_loop n m (JStr u) h t b (s, w))
  = Raise (CloudMinerException (MaxRetriesReached m (JStr u)))
  /\ sent (snd (snd (retry_loop n m (JStr u) h t b (s, w)))) = (sent w + n)%nat.
Proof.
  revert s w. induction n as [ | n IH]; intros s w Hall.
  - simpl. split; [reflexivity | lia].
  - rewrite retry_loop_step. cbv zeta.
    pose proof (Hall 0%nat ltac:(lia)) as H0. rewrite Nat.add_0_r in H0.
    rewrite H0.
    set (w' := sleep_w (seconds SLEEP_BETWEEN_ERROR_SECONDS)
                 (snd (send_w E (mkRequest m u h t b) w))).
    assert (Hs : sent w' = S (sent w)).
    { unfold w', send_w. destruct (net E (sent w)); reflexivity. }
    destruct (IH s w') as [IH1 IH2].
    + intros i Hi. rewrite Hs.
      replace (S (sent w) + i)%nat with (sent w + S i)%nat by lia.
      apply Hall. lia.
    + split; [exact IH1 | rewrite IH2, Hs; lia].
Qed.

Lemma wait_for_next_request_eq s w :
  __wait_for_next_request (s, w) =
  (Return tt,
   (set_next_request_time (clock (waited s w) + TIME_BETWEEN_REQUESTS_MS) s,
    waited s w)).
Proof.
  unfold __wait_for_next_request, waited, bind, time_time, self, on_world;
    cbn [fst snd].
  destruct (0 <? __next_request_time s - clock w); reflexivity.
Qed.

Lemma sent_waited s w : sent (waited s w) = sent w.
Proof. unfold waited. destruct (0 <? _); reflexivity. Qed.

Lemma http_request_eq m url h a n t b s w :
  __http_request m url h a n t b (s, w) =
  retry_loop (Z.to_nat n) m url (request_headers s h a) t b
    (set_next_request_time (clock (waited s w) + TIME_BETWEEN_REQUESTS_MS) s,
     waited s w).
Proof.
  unfold __http_request. unfold bind at 1. rewrite wait_for_next_request_eq.
  reflexivity.
Qed.

(** C2: the loop of [__http_request] makes at most [retries] attempts
    (five with the defaults); the helper always ends, returning a
    response or raising; and when every attempt ends in a transient
    failure it has made exactly [retries] attempts and raises the
    [CloudMinerException] of the maximal retry count. *)
Theorem http_request_bounded m url h a retries t b s w :
  let run := __http_request m url h a retries t b (s, w) in
  (sent (snd (snd run)) <= sent w + Z.to_nat retries)%nat
  /\ (sent (snd (snd (http_request_default m url b (s, w)))) <= sent w + 5)%nat
  /\ ((exists r, fst run = Return r) \/ (exists e, fst run = Raise e))
  /\ (forall u, url = JStr u ->
       (forall i, (i < Z.to_nat retries)%nat ->
                  transient (fst (net E (sent w + i))) = true) ->
       fst run = Raise (CloudMinerException (MaxRetriesReached m url))
       /\ sent (snd (snd run)) = (sent w + Z.to_nat retries)%nat).
Proof.
  intros run. subst run. unfold http_request_default.
  rewrite !http_request_eq. repeat split.
  - eapply Nat.le_trans; [apply retry_loop_sent_bound | ].
    simpl. rewrite sent_waited. lia.
  - eapply Nat.le_trans; [apply retry_loop_sent_bound | ].
    simpl. rewrite sent_waited. lia.
  - apply retry_loop_returns_or_raises.
  - subst url. apply retry_loop_all_transient.
    simpl. rewrite sent_waited. assumption.
  - subst url.
    match goal with |- sent (snd (snd (retry_loop ?n _ _ ?hh _ _ (?s', ?w')))) = _ =>
      destruct (retry_loop_all_transient n m u hh t b s' w') as [_ Hs] end.
    + simpl. rewrite sent_waited. assumption.
    + rewrite Hs. simpl. rewrite sent_waited. reflexivity.
Qed.

(** ** The spacing of requests *)

Lemma clock_waited s w :
  clock (waited s w) = Z.max (clock w) (__next_request_time s).
Proof.
  unfold waited. destruct (0 <? __next_request_time s - clock w) eqn:H.
  - apply Z.ltb_lt in H. simpl. lia.
  - apply Z.ltb_ge in H. lia.
Qed.

Lemma retry_loop_first_request n m u h t b s w :
  exists l,
    trace (snd (snd (retry_loop (S n) m (JStr u) h t b (s, w))))
    = (trace w ++ EvRequest (clock w) (mkRequest m u h t b)
                    (fst (net E (sent w))) :: l)%list.
Proof.
  set (w1 := snd (send_w E (mkRequest m u h t b) w)).
  assert (H1 : trace w1 = (trace w ++ [EvRequest (clock w) (mkRequest m u h t b)
                                         (fst (net E (sent w)))])%list).
  { unfold w1, send_w. destruct (net E (sent w)); reflexivity. }
  assert (Hgoal : exists l,
             trace (snd (snd (retry_loop (S n) m (JStr u) h t b (s, w))))
             = (trace w1 ++ l)%list).
  { rewrite retry_loop_step. cbv zeta. fold w1.
    destruct (transient (fst (net E (sent w)))).
    - destruct (forward_retry_loop n m (JStr u) h t b
                  (s, sleep_w (seconds SLEEP_BETWEEN_ERROR_SECONDS) w1))
        as (_ & _ & _ & _ & _ & l & Hl).
      rewrite Hl. simpl. exists (EvSleep (seconds SLEEP_BETWEEN_ERROR_SECONDS) :: l).
      now rewrite <- app_assoc.
    - exists []. rewrite app_nil_r.
      destruct (fst (net E (sent w))); [destruct (andb _ _) | ]; reflexivity. }
  destruct Hgoal as [l Hl]. exists l. rewrite Hl, H1.
  now rewrite <- app_assoc.
Qed.

(** C8 (as amended): a call of the helper that starts when the clock
    shows [clock w] sends its first request at [t1], the later of
    [clock w] and the recorded next-request time, so never before that
    time; it records [t1] plus the spacing (500 ms) as the next-request
    time before it sends, once for the call, and the retry attempts do not
    move it; hence the first request of the following call, made on a
    session that still holds that time, leaves at [t1 + 500] or later
    whenever the call starts. *)
Theorem request_spacing_between_calls m u h a retries t b s w :
  let run := __http_request m (JStr u) h a retries t b (s, w) in
  let s' := fst (snd run) in
  let t1 := clock (waited s w) in
  __next_request_time s <= t1
  /\ t1 = Z.max (clock w) (__next_request_time s)
  /\ (0 < retries ->
      exists l,
        trace (snd (snd run))
        = (trace (waited s w)
           ++ EvRequest t1 (mkRequest m u (request_headers s h a) t b)
                (fst (net E (sent w))) :: l)%list)
  /\ __next_request_time s' = t1 + TIME_BETWEEN_REQUESTS_MS
  /\ (forall s2 w2,
        __next_request_time s2 = __next_request_time s' ->
        t1 + TIME_BETWEEN_REQUESTS_MS <= clock (waited s2 w2))
  /\ (forall m2 u2 h2 a2 retries2 t2 b2 s2 w2,
        0 < retries2 ->
        exists l,
          trace (snd (snd (__http_request m2 (JStr u2) h2 a2 retries2 t2 b2
                             (s2, w2))))
          = (trace (waited s2 w2)
             ++ EvRequest (clock (waited s2 w2))
                  (mkRequest m2 u2 (request_headers s2 h2 a2) t2 b2)
                  (fst (net E (sent w2))) :: l)%list).
Proof.
  intros run s' t1.
  assert (Hnext : __next_request_time s' = t1 + TIME_BETWEEN_REQUESTS_MS).
  { (* The loop never touches the session. *)
    subst s' run. rewrite http_request_eq.
    generalize (waited s w) at 2 as w0.
    generalize (request_headers s h a) as hh.
    induction (Z.to_nat retries) as [ | n IH]; intros hh w0; [reflexivity | ].
    rewrite retry_loop_step. cbv zeta.
    destruct (transient (fst (net E (sent w0)))); [apply IH | ].
    destruct (fst (net E (sent w0))); [destruct (andb _ _) | ]; reflexivity. }
  assert (Hfirst : forall m2 u2 h2 a2 retries2 t2 b2 s2 w2,
             0 < retries2 ->
             exists l,
               trace (snd (snd (__http_request m2 (JStr u2) h2 a2 retries2 t2 b2
                                  (s2, w2))))
               = (trace (waited s2 w2)
                  ++ EvRequest (clock (waited s2 w2))
                       (mkRequest m2 u2 (request_headers s2 h2 a2) t2 b2)
                       (fst (net E (sent w2))) :: l)%list).
  { intros m2 u2 h2 a2 retries2 t2 b2 s2 w2 Hpos.
    rewrite http_request_eq.
    destruct (Z.to_nat retries2) as [ | n] eqn:Hn; [lia | ].
    rewrite <- (sent_waited s2 w2). apply retry_loop_first_request. }
  repeat split.
  - subst t1. rewrite clock_waited. lia.
  - apply clock_waited.
  - intros Hpos. apply Hfirst; assumption.
  - exact Hnext.
  - intros s2 w2 Hs2. rewrite clock_waited, Hs2, Hnext. lia.
  - intros. apply Hfirst; assumption.
Qed.

(** ** The enum has its seven values *)

(** C6: [UPLOAD_STATE] has exactly seven members, with the seven string
    values of the source, all different, and a member compares equal to a
    string exactly when the string is its value. *)
Theorem UPLOAD_STATE_seven_values :
  List.length UPLOAD_STATE_members = 7%nat
  /\ map value UPLOAD_STATE_members
     = ["Failed"; "Creating"; "Succeeded"; "ContentValidated";
        "ContentDownloaded"; "ConnectionTypeImported";
        "RunningImportModuleRunbook"]
  /\ (forall m : UPLOAD_STATE, In m UPLOAD_STATE_members)
  /\ NoDup (map value UPLOAD_STATE_members)
  /\ (forall m : UPLOAD_STATE, member_eq_str m (value m) = true)
  /\ (forall (m : UPLOAD_STATE) (s : string),
        member_eq_str m s = true <-> s = value m).
Proof.
  split; [reflexivity | ]. split; [reflexivity | ].
  split; [apply UPLOAD_STATE_members_complete | ].
  split.
  - simpl. repeat constructor; simpl; intuition discriminate.
  - split.
    + intros m. unfold member_eq_str. apply String.eqb_refl.
    + intros m s. unfold member_eq_str. rewrite String.eqb_eq.
      split; congruence.
Qed.

(** ** What the constructor does with an HTTP error *)

Lemma try_except_raise {S A : Type} (m : St S A) (h : exn -> option (St S A))
    st e st' :
  m st = (Raise e, st') ->
  try_except m h st = match h e with Some k => k st' | None => (Raise e, st') end.
Proof. intros H. unfold try_except. now rewrite H. Qed.

Lemma try_except_return {S A : Type} (m : St S A) (h : exn -> option (St S A))
    st a st' :
  m st = (Return a, st') -> try_except m h st = (Return a, st').
Proof. intros H. unfold try_except. now rewrite H. Qed.

Lemma requests_app tr1 tr2 :
  requests (tr1 ++ tr2) = (requests tr1 ++ requests tr2)%list.
Proof.
  induction tr1 as [ | [t r o | d | argv] tr1 IH]; simpl; congruence.
Qed.

(** The loop sends the one request, again and again. *)
Lemma retry_loop_requests n m u h t b s w :
  exists k, (k <= n)%nat /\
    requests (trace (snd (snd (retry_loop n m (JStr u) h t b (s, w)))))
    = (requests (trace w) ++ repeat (mkRequest m u h t b) k)%list.
Proof.
  revert s w. induction n as [ | n IH]; intros s w.
  - exists 0%nat. simpl. split; [lia | now rewrite app_nil_r].
  - rewrite retry_loop_step. cbv zeta.
    set (w1 := snd (send_w E (mkRequest m u h t b) w)).
    assert (H1 : requests (trace w1)
                 = (requests (trace w) ++ [mkRequest m u h t b])%list).
    { unfold w1, send_w. destruct (net E (sent w)); simpl.
      now rewrite requests_app. }
    destruct (transient (fst (net E (sent w)))).
    + destruct (IH s (sleep_w (seconds SLEEP_BETWEEN_ERROR_SECONDS) w1))
        as (k & Hk & Hreq).
      exists (S k). split; [lia | ]. rewrite Hreq. simpl.
      rewrite requests_app, H1. simpl. rewrite app_nil_r, <- app_assoc.
      reflexivity.
    + exists 1%nat. split; [lia | ].
      destruct (fst (net E (sent w))); [destruct (andb _ _) | ]; simpl;
        exact H1.
Qed.

Lemma requests_waited s w : requests (trace (waited s w)) = requests (trace w).
Proof.
  unfold waited. destruct (0 <? _); [ | reflexivity].
  simpl. rewrite requests_app. simpl. now rewrite app_nil_r.
Qed.

(** C4: the constructor sends one request, again at each retry, the
    [GET] of the account's URL with the token; the [HTTPError] of a 401
    becomes the [CloudMinerException] of an invalid token, that of a 400
    the one of an invalid account ID, that of a 404 the one of an account
    that does not exist, and the [HTTPError] of any other status, like any
    other exception, goes up as it is; without an exception the session
    holds the account ID and the token. *)
Theorem init_error_mapping acct tok w :
  let s0 := mkSession acct tok 0 None in
  let validation :=
    mkRequest "GET" (__get_url s0 "") [("Authorization", "Bearer " ++ tok)]
      HTTP_REQUEST_TIMEOUT NoBody in
  let inner :=
    http_request_default "GET" (JStr (__get_url s0 "")) NoBody (s0, w) in
  let run := AzureAutomationSession acct tok w in
  (exists k, (k <= 5)%nat
             /\ requests (trace (snd run))
                = (requests (trace w) ++ repeat validation k)%list)
  /\ (forall r, fst inner = Raise (HTTPError r) ->
        fst run = Raise (init_error acct r)
        /\ (status_code r = 401 ->
            fst run = Raise (CloudMinerException InvalidAccessToken))
        /\ (status_code r = 400 ->
            fst run = Raise (CloudMinerException (InvalidAccountId acct)))
        /\ (status_code r = 404 ->
            fst run = Raise (CloudMinerException (AccountDoesNotExist acct)))
        /\ (status_code r <> 401 -> status_code r <> 400 ->
            status_code r <> 404 -> fst run = Raise (HTTPError r)))
  /\ (forall r, fst (net E (sent w)) = Responded r ->
        400 <= status_code r < 600 ->
        status_code r <> 429 -> status_code r <> 503 -> status_code r <> 504 ->
        fst run = Raise (init_error acct r))
  /\ (forall e, fst inner = Raise e -> (forall r, e <> HTTPError r) ->
        fst run = Raise e)
  /\ (forall r, fst inner = Return r ->
        exists s, fst run = Return s
                  /\ __account_id s = acct /\ __access_token s = tok).
Proof.
  intros s0 validation inner run.
  assert (Hinner : __init__ acct (s0, w)
                   = try_except (fun st => inner) (init_handler acct) (s0, w)).
  { reflexivity. }
  assert (Hrun : forall r, fst inner = Raise (HTTPError r) ->
                           fst run = Raise (init_error acct r)).
  { intros r Hr. subst run. unfold AzureAutomationSession.
    fold s0. rewrite Hinner.
    destruct inner as [res [s1 w1]] eqn:Hi. simpl in Hr. subst res.
    erewrite try_except_raise by reflexivity. simpl. unfold init_error.
    unfold HTTPStatus.UNAUTHORIZED, HTTPStatus.BAD_REQUEST, HTTPStatus.NOT_FOUND.
    destruct (status_code r =? 401); [reflexivity | ].
    destruct (status_code r =? 400); [reflexivity | ].
    destruct (status_code r =? 404); reflexivity. }
  split; [ | split; [ | split; [ | split ] ] ].
  - assert (Hw : snd run = snd (snd inner)).
    { subst run. unfold AzureAutomationSession. fold s0. rewrite Hinner.
      unfold try_except.
      destruct inner as [[r | e | ] [s1 w1]]; simpl; try reflexivity.
      unfold init_handler. destruct e; simpl; try reflexivity.
      destruct (_ =? _); [reflexivity | ].
      destruct (_ =? _); [reflexivity | ].
      destruct (_ =? _); reflexivity. }
    rewrite Hw. subst inner. unfold http_request_default.
    rewrite http_request_eq.
    match goal with |- context [retry_loop ?n ?m (JStr ?u) ?h ?t ?b (?s, ?w')] =>
      destruct (retry_loop_requests n m u h t b s w') as (k & Hk & Hreq) end.
    exists k. split; [exact Hk | ]. rewrite Hreq, requests_waited. reflexivity.
  - intros r Hr. split; [apply Hrun; assumption | ].
    rewrite (Hrun r Hr). unfold init_error. repeat split.
    + intros H. rewrite H. reflexivity.
    + intros H. rewrite H. reflexivity.
    + intros H. rewrite H. reflexivity.
    + intros H1 H2 H3.
      apply Z.eqb_neq in H1, H2, H3. now rewrite H1, H2, H3.
  - intros r Hr Hrange H429 H503 H504. apply Hrun.
    subst inner. unfold http_request_default. rewrite http_request_eq.
    change (Z.to_nat 5) with 5%nat.
    rewrite <- (sent_waited s0 w) in Hr.
    rewrite (retry_loop_error_status 4 _ _ _ _ _ _ _ r Hr Hrange H429 H503 H504).
    reflexivity.
  - intros e He Hne. subst run. unfold AzureAutomationSession. fold s0.
    rewrite Hinner. destruct inner as [res [s1 w1]] eqn:Hi. simpl in He.
    subst res. erewrite try_except_raise by reflexivity.
    destruct e; try reflexivity. now destruct (Hne r).
  - intros r Hr. subst run. unfold AzureAutomationSession. fold s0.
    rewrite Hinner. destruct inner as [res [s1 w1]] eqn:Hi. simpl in Hr.
    subst res. erewrite try_except_return by reflexivity.
    exists s1. split; [reflexivity | ].
    pose proof (forward_http_request_default "GET" (JStr (__get_url s0 ""))
                  NoBody (s0, w)) as (Ha & Ht & _).
    fold inner in Ha, Ht. rewrite Hi in Ha, Ht. simpl in Ha, Ht. auto.
Qed.

(** ** What the operations leave as it is *)

Lemma respects_done {A : Type} R (m : M A) :
  (forall st, R st st) ->
  (forall a b c : session * world, R a b -> R b c -> R a c) ->
  respects R m -> respects R (done m).
Proof.
  intros Hrefl Htrans Hm. unfold done.
  apply (respects_bind _ R Htrans); [exact Hm | ].
  intros a st. apply Hrefl.
Qed.

Lemma forward_run_operation op : forward (run_operation op).
Proof.
  destruct op; simpl;
    try (apply respects_done; [exact evolves_refl | exact evolves_trans | ]).
  - forward_by stable_wait_for_next_request.
  - apply forward_http_request.
  - forward_by stable_upload_file_to_temp_storage.
  - apply forward_upload_powershell_module.
  - apply forward_upload_python_package.
  - apply forward_get_python_package.
  - forward_by stable_delete_python_package.
  - forward_by stable_powershell_execute_script.
  - forward_by stable_delete_pip_if_exists.
  - forward_by stable_wait_for_package_upload.
  - forward_by stable_wrap_script.
  - forward_by stable_create_whl_for_upload.
  - forward_by stable_python_execute_script.
Qed.

Ltac same_url_by lem :=
  first [ apply (lem same_url (fun _ => True)) | apply (lem same_url) ];
  first [ intros; exact I | unfold same_url; intros; simpl; congruence ].

Lemma same_url_run_operation op :
  uploads op = false -> respects same_url (run_operation op).
Proof.
  destruct op; simpl; try discriminate; intros _;
    try (apply respects_done;
         [unfold same_url; congruence | unfold same_url; congruence | ]).
  - same_url_by stable_wait_for_next_request.
  - same_url_by stable_http_request.
  - same_url_by stable_get_python_package.
  - same_url_by stable_delete_python_package.
  - same_url_by stable_delete_pip_if_exists.
  - same_url_by stable_wait_for_package_upload.
  - same_url_by stable_wrap_script.
  - same_url_by stable_create_whl_for_upload.
Qed.

Lemma same_url_http_request m url h a n t b :
  respects same_url (__http_request m url h a n t b).
Proof. same_url_by stable_http_request. Qed.

(** When an upload assigns the URL of the temporary storage. *)
Lemma upload_file_to_temp_storage_url f s w :
  __current_temp_storage_url
    (fst (snd (__upload_file_to_temp_storage f (s, w))))
  = match fst (http_request_default "GET"
                 (JStr (URL_GET_STORAGE_BLOB (__account_id s))) NoBody (s, w))
    with
    | Return r =>
        match json_body r with
        | Some j => Some j
        | None => __current_temp_storage_url s
        end
    | _ => __current_temp_storage_url s
    end.
Proof.
  unfold __upload_file_to_temp_storage. rewrite bind_eq. unfold self at 1.
  cbn [fst snd]. rewrite bind_eq. unfold http_request_default.
  pose proof (same_url_http_request "GET"
                (JStr (URL_GET_STORAGE_BLOB (__account_id s))) None true 5
                HTTP_REQUEST_TIMEOUT NoBody (s, w)) as Hget.
  unfold same_url in Hget. cbn [fst] in Hget.
  destruct (__http_request "GET" _ None true 5 HTTP_REQUEST_TIMEOUT NoBody
              (s, w)) as [[r | e | ] [s1 w1]]; cbn [fst snd] in Hget |- *;
    try exact Hget.
  rewrite bind_eq. unfold response_json.
  destruct (json_body r) as [j | ]; [ | exact Hget].
  unfold ret at 1. rewrite bind_eq. unfold on_self at 1. cbn [fst snd].
  rewrite bind_eq. unfold read_file at 1. cbn [fst snd].
  destruct (assoc f (fs w1)) as [[file_data | ] | ]; try reflexivity.
  rewrite bind_eq. unfold self at 1. cbn [fst snd].
  cbn [__current_temp_storage_url set_current_temp_storage_url].
  rewrite bind_eq.
  pose proof (same_url_http_request "PUT" j
                (Some [("x-ms-blob-type", "BlockBlob")]) false 5
                HTTP_REQUEST_TIMEOUT (Data file_data)
                (set_current_temp_storage_url j s1, w1)) as Hput.
  unfold same_url in Hput. cbn [fst] in Hput.
  destruct (__http_request "PUT" j _ false 5 HTTP_REQUEST_TIMEOUT
              (Data file_data) (set_current_temp_storage_url j s1, w1))
    as [[r2 | e2 | ] [s2 w2]]; cbn [fst snd] in Hput |- *; try exact Hput.
  rewrite bind_eq. unfold self at 1. cbn [fst snd].
  transitivity (__current_temp_storage_url s2); [ | exact Hput].
  destruct (__current_temp_storage_url s2) eqn:Hu; exact Hu.
Qed.

(** The [PUT] of the content link, which ends both uploads, assigns
    nothing. *)
Lemma upload_content_link_url (k : string -> string) f s w :
  __current_temp_storage_url
    (fst (snd ((temp_storage_url <- __upload_file_to_temp_storage f ;;
                s <- self ;;
                http_request_default "PUT" (JStr (k (__account_id s)))
                  (Json (content_link temp_storage_url)) ;;
                ret tt) (s, w))))
  = __current_temp_storage_url
      (fst (snd (__upload_file_to_temp_storage f (s, w)))).
Proof.
  rewrite bind_eq.
  destruct (__upload_file_to_temp_storage f (s, w)) as [[u | e | ] [s1 w1]];
    try reflexivity.
  rewrite bind_eq. unfold self at 1. cbn [fst snd]. rewrite bind_eq.
  unfold http_request_default.
  pose proof (same_url_http_request "PUT" (JStr (k (__account_id s1))) None
                true 5 HTTP_REQUEST_TIMEOUT (Json (content_link u)) (s1, w1))
    as Hput.
  unfold same_url in Hput. cbn [fst] in Hput.
  destruct (__http_request "PUT" _ None true 5 HTTP_REQUEST_TIMEOUT _ (s1, w1))
    as [[r | e | ] [s2 w2]]; exact Hput.
Qed.

Lemma length_set_object a o h :
  List.length (set_object a o h) = List.length h.
Proof.
  revert a. induction h as [ | x h IH]; intros [ | a]; cbn; auto.
Qed.

Lemma nth_error_set_object a o h x :
  nth_error h a = Some x -> nth_error (set_object a o h) a = Some o.
Proof.
  revert a. induction h as [ | y h IH]; intros [ | a]; cbn; try discriminate;
    auto.
Qed.

Lemma nth_error_set_object_other a b o h :
  a <> b -> nth_error (set_object a o h) b = nth_error h b.
Proof.
  revert a b. induction h as [ | y h IH]; intros [ | a] [ | b] Hab; cbn;
    try reflexivity; [contradiction | ].
  apply IH. congruence.
Qed.

Lemma kept_refl h : kept h h.
Proof.
  split; [reflexivity | ]. intros a.
  destruct (nth_error h a) as [[s | sa p | sa p r] | ]; try reflexivity.
  exists s. auto.
Qed.

Lemma kept_trans h1 h2 h3 : kept h1 h2 -> kept h2 h3 -> kept h1 h3.
Proof.
  intros [L1 K1] [L2 K2]. split; [congruence | ]. intros a.
  specialize (K1 a). specialize (K2 a).
  destruct (nth_error h1 a) as [[s | sa p | sa p r] | ].
  - destruct K1 as (s2 & H2 & Ha & Ht). rewrite H2 in K2.
    destruct K2 as (s3 & H3 & Ha' & Ht'). exists s3.
    repeat split; [exact H3 | congruence | congruence].
  - rewrite K1 in K2. exact K2.
  - rewrite K1 in K2. exact K2.
  - rewrite K1 in K2. exact K2.
Qed.

Lemma kept_call_session a op h w :
  kept h (fst (snd (call_session a op (h, w)))).
Proof.
  unfold call_session. cbn [fst snd].
  destruct (nth_error h a) as [[s | sa p | sa p r] | ] eqn:Ha;
    try apply kept_refl.
  cbn [fst snd]. split; [apply length_set_object | ]. intros b.
  destruct (Nat.eq_dec a b) as [<- | Hab].
  - rewrite Ha. eexists. split; [exact (nth_error_set_object _ _ _ _ Ha) | ].
    destruct (forward_run_operation op (s, w)) as (Hacct & Htok & _).
    split; [exact Hacct | exact Htok].
  - rewrite (nth_error_set_object_other a b _ h Hab).
    destruct (nth_error h b) as [[s' | sa p | sa p r] | ]; try reflexivity.
    exists s'. auto.
Qed.

Lemma kept_run_call c h w : kept h (fst (snd (run_call c (h, w)))).
Proof.
  destruct c as [a op | a m]; cbn [run_call]; [apply kept_call_session | ].
  unfold call_executor. cbn [fst snd].
  destruct (nth_error h a) as [o | ]; [ | apply kept_refl].
  destruct (automation_session_of o) as [sa | ]; [ | apply kept_refl].
  destruct (method_operation o m) as [op | ]; [ | apply kept_refl].
  apply kept_call_session.
Qed.

Lemma kept_run_calls cs : forall h w, kept h (fst (run_calls cs (h, w))).
Proof.
  induction cs as [ | c cs IH]; intros h w; [apply kept_refl | ].
  cbn [run_calls].
  destruct (run_call c (h, w)) as [res [h1 w1]] eqn:Hc.
  apply (kept_trans h h1); [ | apply IH].
  pose proof (kept_run_call c h w) as H. rewrite Hc in H. exact H.
Qed.

(** C7 (as amended): whatever the operation of the session or of an
    executor, and however it ends, the account ID and the access token
    that the constructor set are the ones the session still holds; the
    recorded URL of the temporary storage is assigned by no operation that
    uploads no file, and an upload of a file assigns it once, when its
    [GET] of the storage link has returned a response with a JSON body,
    and leaves it as it was when that [GET] raised or brought no JSON; the
    [PUT] of the content link that ends the upload of a module or of a
    package assigns nothing. Whatever the calls made on the objects of a
    store, one after the other and however each ends, every executor
    object holds the attributes its constructor set, the session it
    refers to, the script path and the requirements file, no object
    appears or disappears, and every session object holds its account ID
    and its token. *)
Theorem operations_keep_account_and_token op s w :
  let s' := fst (snd (run_operation op (s, w))) in
  __account_id s' = __account_id s
  /\ __access_token s' = __access_token s
  /\ (uploads op = false ->
      __current_temp_storage_url s' = __current_temp_storage_url s)
  /\ (forall f,
        __current_temp_storage_url
          (fst (snd (__upload_file_to_temp_storage f (s, w))))
        = match fst (http_request_default "GET"
                       (JStr (URL_GET_STORAGE_BLOB (__account_id s))) NoBody
                       (s, w))
          with
          | Return r =>
              match json_body r with
              | Some j => Some j
              | None => __current_temp_storage_url s
              end
          | _ => __current_temp_storage_url s
          end)
  /\ (forall name f,
        __current_temp_storage_url
          (fst (snd (upload_python_package name f (s, w))))
        = __current_temp_storage_url
            (fst (snd (__upload_file_to_temp_storage f (s, w))))
        /\ __current_temp_storage_url
             (fst (snd (upload_powershell_module name f (s, w))))
           = __current_temp_storage_url
               (fst (snd (__upload_file_to_temp_storage f (s, w)))))
  /\ (forall cs h a,
        let h' := fst (run_calls cs (h, w)) in
        List.length h' = List.length h
        /\ (forall automation_session script_path,
              nth_error h a
              = Some (PowershellExecutorObject automation_session script_path) ->
              nth_error h' a
              = Some (PowershellExecutorObject automation_session script_path))
        /\ (forall automation_session script_path requirements_file,
              nth_error h a
              = Some (PythonExecutorObject automation_session script_path
                        requirements_file) ->
              nth_error h' a
              = Some (PythonExecutorObject automation_session script_path
                        requirements_file))
        /\ (forall s0,
              nth_error h a = Some (SessionObject s0) ->
              exists s1,
                nth_error h' a = Some (SessionObject s1)
                /\ __account_id s1 = __account_id s0
                /\ __access_token s1 = __access_token s0))
  /\ (forall h automation_session script_path requirements_file cs,
        let made :=
          new_PythonScriptExecutor automation_session script_path
            requirements_file h in
        let made' :=
          new_PowershellScriptExecutor automation_session script_path h in
        nth_error (fst (run_calls cs (snd made, w))) (fst made)
        = Some (PythonExecutorObject automation_session script_path
                  requirements_file)
        /\ nth_error (fst (run_calls cs (snd made', w))) (fst made')
           = Some (PowershellExecutorObject automation_session script_path)).
Proof.
  intros s'. destruct (forward_run_operation op (s, w)) as (Ha & Ht & _).
  split; [exact Ha | ]. split; [exact Ht | ].
  split; [intros Hu; exact (same_url_run_operation op Hu (s, w)) | ].
  split; [intros f; apply upload_file_to_temp_storage_url | ].
  split.
  { intros name f. split.
    - exact (upload_content_link_url
               (fun acct => __get_url (mkSession acct "" 0 None)
                              ("python3Packages/" ++ name)) f s w).
    - exact (upload_content_link_url
               (fun acct => __get_url (mkSession acct "" 0 None)
                              ("modules/" ++ name)) f s w). }
  split.
  { intros cs h a h'. destruct (kept_run_calls cs h w) as [Hlen Hkept].
    fold h' in Hlen, Hkept. split; [exact Hlen | ]. specialize (Hkept a).
    split; [ | split].
    - intros sa p Hobj. rewrite Hobj in Hkept. exact Hkept.
    - intros sa p r Hobj. rewrite Hobj in Hkept. exact Hkept.
    - intros s0 Hobj. rewrite Hobj in Hkept. exact Hkept. }
  intros h sa p r cs made made'. split.
  - destruct (kept_run_calls cs (snd made) w) as [_ Hkept].
    specialize (Hkept (fst made)). unfold made in Hkept at 1 2.
    cbn [new_PythonScriptExecutor fst snd] in Hkept.
    rewrite nth_error_app2, Nat.sub_diag in Hkept by apply Nat.le_refl.
    exact Hkept.
  - destruct (kept_run_calls cs (snd made') w) as [_ Hkept].
    specialize (Hkept (fst made')). unfold made' in Hkept at 1 2.
    cbn [new_PowershellScriptExecutor fst snd] in Hkept.
    rewrite nth_error_app2, Nat.sub_diag in Hkept by apply Nat.le_refl.
    exact Hkept.
Qed.

(** ** [get_python_package] *)

(** C9 (as amended): [get_python_package] returns [None] when the
    helper raises the [HTTPError] of a 404, so when the server answers
    404; when the helper returns a response it returns its JSON, which is
    [None] only for the JSON [null]; and the [HTTPError] of any other
    status goes up as it is. *)
Theorem get_python_package_spec name s w :
  let url := JStr (__get_url s ("python3Packages/" ++ name)) in
  let inner := http_request_default "GET" url NoBody (s, w) in
  let run := get_python_package name (s, w) in
  (forall r, fst inner = Raise (HTTPError r) -> status_code r = 404 ->
             run = (Return JNull, snd inner))
  /\ (forall r j, fst inner = Return r -> json_body r = Some j ->
                  run = (Return j, snd inner))
  /\ (forall r, fst inner = Raise (HTTPError r) -> status_code r <> 404 ->
                run = (Raise (HTTPError r), snd inner))
  /\ (fst run = Return JNull <->
      (exists r, fst inner = Raise (HTTPError r) /\ status_code r = 404)
      \/ (exists r, fst inner = Return r /\ json_body r = Some JNull))
  /\ (forall r, fst (net E (sent w)) = Responded r -> status_code r = 404 ->
                fst run = Return JNull).
Proof.
  intros url inner run.
  assert (Hrun : run =
            match fst inner with
            | Return r =>
                match json_body r with
                | Some j => (Return j, snd inner)
                | None => (Raise JSONDecodeError, snd inner)
                end
            | Raise e =>
                match e with
                | HTTPError r =>
                    if status_code r =? 404 then (Return JNull, snd inner)
                    else (Raise e, snd inner)
                | _ => (Raise e, snd inner)
                end
            | OutOfFuel => (OutOfFuel, snd inner)
            end).
  { subst run. unfold get_python_package, bind at 1, self. cbn [fst snd].
    unfold try_except, bind. fold url. fold inner.
    destruct inner as [[r | e | ] st]; cbn [fst snd]; try reflexivity.
    - unfold response_json. destruct (json_body r); reflexivity.
    - destruct e; try reflexivity.
      unfold HTTPStatus.NOT_FOUND. destruct (status_code r =? 404); reflexivity. }
  assert (H404 : forall r, fst inner = Raise (HTTPError r) ->
                           status_code r = 404 ->
                           run = (Return JNull, snd inner)).
  { intros r Hi Hs. rewrite Hrun. destruct inner as [res st]. simpl in Hi.
    subst res. cbn [fst snd]. rewrite Hs. reflexivity. }
  split; [exact H404 | ]. split; [ | split; [ | split ] ].
  - intros r j Hi Hj. rewrite Hrun. destruct inner as [res st]. simpl in Hi.
    subst res. cbn [fst snd]. rewrite Hj. reflexivity.
  - intros r Hi Hs. rewrite Hrun. destruct inner as [res st]. simpl in Hi.
    subst res. cbn [fst snd]. apply Z.eqb_neq in Hs. rewrite Hs. reflexivity.
  - rewrite Hrun. destruct inner as [[r | e | ] st]; cbn [fst snd].
    + destruct (json_body r) as [j | ] eqn:Hj; cbn [fst snd]; split.
      * intros H. inversion H; subst. right. exists r. now split.
      * intros [(r' & H & _) | (r' & H & Hn)]; [discriminate | ].
        inversion H; subst. rewrite Hj in Hn. congruence.
      * discriminate.
      * intros [(r' & H & _) | (r' & H & Hn)]; [discriminate | ].
        inversion H; subst. rewrite Hj in Hn. discriminate.
    + destruct e; cbn [fst snd];
        try (split; [discriminate
                    | intros [(r' & H & _) | (r' & H & _)]; discriminate]).
      destruct (status_code r =? 404) eqn:Hs; cbn [fst snd]; split.
      * intros _. left. exists r. apply Z.eqb_eq in Hs. now split.
      * reflexivity.
      * discriminate.
      * intros [(r' & H & Hn) | (r' & H & _)]; [ | discriminate].
        inversion H; subst. apply Z.eqb_neq in Hs. contradiction.
    + split; [discriminate
             | intros [(r' & H & _) | (r' & H & _)]; discriminate].
  - intros r Hr Hs. rewrite (H404 r); [reflexivity | | exact Hs].
    subst inner url. unfold http_request_default. rewrite http_request_eq.
    change (Z.to_nat 5) with 5%nat.
    rewrite <- (sent_waited s w) in Hr.
    rewrite (retry_loop_error_status 4 _ _ _ _ _ _ _ r Hr); try lia.
    reflexivity.
Qed.

(** ** Waiting for a package *)

Lemma accepted_not_transient o : accepted o = true -> transient o = false.
Proof.
  destruct o as [r | e]; simpl; [ | discriminate].
  intros H. apply andb_true_iff in H. destruct H as [H _].
  now apply negb_true_iff in H.
Qed.

Lemma accepted_no_error r :
  accepted (Responded r) = true ->
  andb (400 <=? status_code r) (status_code r <? 600) = false.
Proof.
  simpl. intros H. apply andb_true_iff in H. destruct H as [_ H].
  now apply negb_true_iff in H.
Qed.

(** The helper, when the first answer is accepted. *)
Lemma http_request_accepted m u h a n t b s w r :
  0 < n ->
  fst (net E (sent w)) = Responded r ->
  accepted (Responded r) = true ->
  __http_request m (JStr u) h a n t b (s, w)
  = (Return r,
     (set_next_request_time (clock (waited s w) + TIME_BETWEEN_REQUESTS_MS) s,
      snd (send_w E (mkRequest m u (request_headers s h a) t b) (waited s w)))).
Proof.
  intros Hn Hr Hacc. rewrite http_request_eq.
  destruct (Z.to_nat n) as [ | k] eqn:Hk; [lia | ].
  rewrite retry_loop_step. cbv zeta. rewrite sent_waited, Hr.
  rewrite (accepted_not_transient _ Hacc), (accepted_no_error _ Hacc).
  reflexivity.
Qed.



Lemma wait_loop_timeout fuel name end_time s w :
  end_time <= clock w ->
  wait_loop (S fuel) name end_time (s, w)
  = (Raise (CloudMinerException PackageUploadTimeout), (s, w)).
Proof.
  intros H. cbn [wait_loop]. unfold bind at 1, time_time, on_world.
  cbn [fst snd]. apply Z.ltb_ge in H. rewrite H. reflexivity.
Qed.



Lemma request_times_app tr1 tr2 :
  request_times (tr1 ++ tr2) = (request_times tr1 ++ request_times tr2)%list.
Proof.
  induction tr1 as [ | [t r o | d | argv] tr1 IH]; simpl; congruence.
Qed.

Lemma request_times_waited s w :
  request_times (trace (waited s w)) = request_times (trace w).
Proof.
  unfold waited. destruct (0 <? _); [ | reflexivity].
  simpl. rewrite request_times_app. simpl. now rewrite app_nil_r.
Qed.

(** What one poll and the sleep after it do to the state. *)
Lemma polled_facts s w name :
  let st := polled s w name in
  let t := Z.max (clock w) (__next_request_time s) in
  __account_id (fst st) = __account_id s
  /\ __access_token (fst st) = __access_token s
  /\ __next_request_time (fst st) = t + TIME_BETWEEN_REQUESTS_MS
  /\ sent (snd st) = S (sent w)
  /\ clock (snd st) = t + Z.of_N (snd (net E (sent w)))
  /\ requests (trace (snd st))
     = (requests (trace w) ++ [poll_request s name])%list
  /\ request_times (trace (snd st)) = (request_times (trace w) ++ [t])%list.
Proof.
  unfold polled. cbn [fst snd]. unfold send_w.
  rewrite sent_waited. destruct (net E (sent w)) as [o d]. cbn [fst snd].
  cbn [__account_id __access_token __next_request_time set_next_request_time
       sent clock trace].
  rewrite requests_app, request_times_app, requests_waited,
    request_times_waited, clock_waited.
  repeat split; reflexivity.
Qed.

(** *** The wait never runs out of fuel *)


Lemma total_raise {S A : Type} (e : exn) : total (@raise S A e).
Proof. intros st. discriminate. Qed.

Lemma total_bind {S A B : Type} (m : St S A) (k : A -> St S B) :
  total m -> (forall a, total (k a)) -> total (bind m k).
Proof.
  intros Hm Hk st. unfold bind. specialize (Hm st).
  destruct (m st) as [[a | e | ] st']; simpl in *;
    [apply Hk | discriminate | contradiction].
Qed.

Lemma total_try_except {S A : Type} (m : St S A) (h : exn -> option (St S A)) :
  total m -> (forall e k, h e = Some k -> total k) -> total (try_except m h).
Proof.
  intros Hm Hh st. unfold try_except. specialize (Hm st).
  destruct (m st) as [[a | e | ] st']; simpl in *;
    [discriminate | | contradiction].
  destruct (h e) as [k | ] eqn:He; [eapply Hh; eauto | discriminate].
Qed.


Lemma total_http_request m url h a n t b : total (__http_request m url h a n t b).
Proof.
  intros [s w]. rewrite http_request_eq.
  match goal with |- fst (retry_loop ?n ?m ?url ?h ?t ?b ?st) <> _ =>
    destruct (retry_loop_returns_or_raises n m url h t b st) as [[r Hr] | [e He]]
  end; congruence.
Qed.



Lemma getitem_state obj key st : snd (getitem obj key st) = st.
Proof.
  unfold getitem. destruct obj; try reflexivity.
  destruct (assoc key members); reflexivity.
Qed.






(** *** The three ways the wait ends *)













(** ** The order of the uploads *)

Lemma mutations_app tr1 tr2 :
  mutations (tr1 ++ tr2) = (mutations tr1 ++ mutations tr2)%list.
Proof.
  induction tr1 as [ | [t r o | d | argv] tr1 IH]; simpl; try congruence.
  destruct (andb (is_mutation r) (accepted o)); simpl; congruence.
Qed.

Lemma same_mutations_send r s w :
  is_mutation r = false -> same_mutations (s, w) (s, snd (send_w E r w)).
Proof.
  intros Hr. unfold same_mutations, send_w.
  destruct (net E (sent w)) as [o d]. cbn [fst snd trace].
  rewrite mutations_app. cbn [mutations]. rewrite Hr. cbn [andb].
  now rewrite app_nil_r.
Qed.

Lemma same_mutations_sleep d s w :
  0 <= d -> same_mutations (s, w) (s, sleep_w d w).
Proof.
  intros _. unfold same_mutations. cbn [snd sleep_w log set_clock trace].
  rewrite mutations_app. cbn [mutations]. now rewrite app_nil_r.
Qed.

Ltac quiet_by lem :=
  first [ apply (lem same_mutations (fun r => is_mutation r = false))
        | apply (lem same_mutations) ];
  first [ exact same_mutations_send | exact same_mutations_sleep
        | intros; reflexivity
        | unfold same_mutations; intros; simpl; congruence ].

Lemma quiet_get_python_package name :
  respects same_mutations (get_python_package name).
Proof. quiet_by stable_get_python_package. Qed.

Lemma quiet_upload_file_to_temp_storage f :
  respects same_mutations (__upload_file_to_temp_storage f).
Proof. quiet_by stable_upload_file_to_temp_storage. Qed.

Lemma quiet_wait_for_package_upload name timeout :
  respects same_mutations (_wait_for_package_upload name timeout).
Proof. quiet_by stable_wait_for_package_upload. Qed.

Lemma quiet_create_whl_for_upload ex :
  respects same_mutations (_create_whl_for_upload ex).
Proof. quiet_by stable_create_whl_for_upload. Qed.

Lemma same_uuid_send r s w : True -> same_uuid (s, w) (s, snd (send_w E r w)).
Proof.
  intros _. unfold same_uuid, send_w. now destruct (net E (sent w)).
Qed.

Ltac same_uuid_by lem :=
  first [ apply (lem same_uuid (fun _ => True)) | apply (lem same_uuid) ];
  first [ exact same_uuid_send | intros; exact I
        | unfold same_uuid; intros; simpl; congruence ].

Lemma same_uuid_upload_python_package a b :
  respects same_uuid (upload_python_package a b).
Proof. same_uuid_by stable_upload_python_package. Qed.

Lemma same_uuid_upload_powershell_module a b :
  respects same_uuid (upload_powershell_module a b).
Proof. same_uuid_by stable_upload_powershell_module. Qed.

Lemma same_uuid_delete_pip_if_exists :
  respects same_uuid _delete_pip_if_exists.
Proof. same_uuid_by stable_delete_pip_if_exists. Qed.

Lemma same_uuid_create_whl_for_upload ex :
  respects same_uuid (_create_whl_for_upload ex).
Proof. same_uuid_by stable_create_whl_for_upload. Qed.

Lemma same_uuid_wait_for_package_upload name timeout :
  respects same_uuid (_wait_for_package_upload name timeout).
Proof. same_uuid_by stable_wait_for_package_upload. Qed.

Lemma bind_return {S A B : Type} (m : St S A) (k : A -> St S B) st b st'' :
  bind m k st = (Return b, st'') ->
  exists a st', m st = (Return a, st') /\ k a st' = (Return b, st'').
Proof.
  unfold bind. destruct (m st) as [[a | e | ] st']; try discriminate.
  intros H. now exists a, st'.
Qed.

(** A request that changes the account is counted once, when the helper
    returns its response, and not at all when the helper raises. *)
Lemma retry_loop_mutation n m u h t b s w :
  is_mutation (mkRequest m u h t b) = true ->
  mutations (trace (snd (snd (retry_loop n m (JStr u) h t b (s, w)))))
  = (mutations (trace w)
     ++ match fst (retry_loop n m (JStr u) h t b (s, w)) with
        | Return _ => [(m, u)]
        | _ => []
        end)%list.
Proof.
  intros Hm. revert s w. induction n as [ | n IH]; intros s w.
  - simpl. now rewrite app_nil_r.
  - rewrite retry_loop_step. cbv zeta.
    assert (Hsend : mutations (trace (snd (send_w E (mkRequest m u h t b) w)))
                    = (mutations (trace w)
                       ++ if accepted (fst (net E (sent w)))
                          then [(m, u)] else [])%list).
    { unfold send_w. destruct (net E (sent w)) as [o d]. cbn [fst snd trace].
      rewrite mutations_app. cbn [mutations]. rewrite Hm. cbn [andb].
      destruct (accepted o); reflexivity. }
    destruct (transient (fst (net E (sent w)))) eqn:Htr.
    + rewrite IH. cbn [sleep_w log set_clock trace]. rewrite mutations_app.
      cbn [mutations]. rewrite app_nil_r, Hsend.
      replace (accepted (fst (net E (sent w)))) with false;
        [now rewrite app_nil_r | ].
      destruct (accepted (fst (net E (sent w)))) eqn:Hacc; [ | reflexivity].
      apply accepted_not_transient in Hacc. congruence.
    + destruct (fst (net E (sent w))) as [r | e] eqn:Ho.
      * cbn [transient] in Htr.
        destruct (andb (400 <=? status_code r) (status_code r <? 600)) eqn:Herr;
          cbn [fst snd]; rewrite Hsend; cbn [accepted]; rewrite Htr, Herr;
          reflexivity.
      * cbn [fst snd]. rewrite Hsend. reflexivity.
Qed.

Lemma mutations_waited s w : mutations (trace (waited s w)) = mutations (trace w).
Proof.
  unfold waited. destruct (0 <? _); [ | reflexivity].
  simpl. rewrite mutations_app. simpl. now rewrite app_nil_r.
Qed.

Lemma http_request_mutation m u b s w r st :
  is_mutation (mkRequest m u [] 0 b) = true ->
  http_request_default m (JStr u) b (s, w) = (Return r, st) ->
  mutations (trace (snd st)) = (mutations (trace w) ++ [(m, u)])%list.
Proof.
  intros Hm Hrun. unfold http_request_default in Hrun.
  rewrite http_request_eq in Hrun.
  match type of Hrun with retry_loop ?n _ _ ?hh ?t _ (?s1, ?w1) = _ =>
    pose proof (retry_loop_mutation n m u hh t b s1 w1 Hm) as H end.
  rewrite Hrun in H. cbn [fst snd] in H. rewrite H, mutations_waited.
  reflexivity.
Qed.

Lemma get_url_same s s' p :
  __account_id s' = __account_id s -> __get_url s' p = __get_url s p.
Proof. intros H. unfold __get_url. now rewrite H. Qed.

Lemma forward_upload_file_to_temp_storage f :
  forward (__upload_file_to_temp_storage f).
Proof. forward_by stable_upload_file_to_temp_storage. Qed.

(** An upload that returns started exactly one import, under the name
    it was given. *)
Lemma upload_python_package_returns name whl s w st' :
  upload_python_package name whl (s, w) = (Return tt, st') ->
  mutations (trace (snd st'))
  = (mutations (trace w)
     ++ [("PUT", __get_url s ("python3Packages/" ++ name))])%list
  /\ uuid_ix (snd st') = uuid_ix w
  /\ __account_id (fst st') = __account_id s.
Proof.
  intros Hrun.
  pose proof (same_uuid_upload_python_package name whl (s, w)) as Hu.
  pose proof (forward_upload_python_package name whl (s, w)) as (Ha & _).
  rewrite Hrun in Hu, Ha. unfold same_uuid in Hu. cbn [fst snd] in Hu, Ha.
  split; [ | now split].
  unfold upload_python_package in Hrun.
  apply bind_return in Hrun. destruct Hrun as (temp & [s1 w1] & Hup & Hrun).
  unfold bind at 1, self in Hrun. cbn [fst snd] in Hrun.
  apply bind_return in Hrun. destruct Hrun as (r & st2 & Hput & Hret).
  inversion Hret; subst st2.
  pose proof (quiet_upload_file_to_temp_storage whl (s, w)) as Hq.
  pose proof (forward_upload_file_to_temp_storage whl (s, w)) as (Ha1 & _).
  rewrite Hup in Hq, Ha1. unfold same_mutations in Hq. cbn [fst snd] in Hq, Ha1.
  rewrite (http_request_mutation "PUT" _ (Json (content_link temp)) _ _ _ _
             eq_refl Hput), Hq.
  now rewrite (get_url_same s s1).
Qed.

Lemma upload_powershell_module_returns name zipped s w st' :
  upload_powershell_module name zipped (s, w) = (Return tt, st') ->
  mutations (trace (snd st'))
  = (mutations (trace w) ++ [("PUT", __get_url s ("modules/" ++ name))])%list
  /\ uuid_ix (snd st') = uuid_ix w
  /\ __account_id (fst st') = __account_id s.
Proof.
  intros Hrun.
  pose proof (same_uuid_upload_powershell_module name zipped (s, w)) as Hu.
  pose proof (forward_upload_powershell_module name zipped (s, w)) as (Ha & _).
  rewrite Hrun in Hu, Ha. unfold same_uuid in Hu. cbn [fst snd] in Hu, Ha.
  split; [ | now split].
  unfold upload_powershell_module in Hrun.
  apply bind_return in Hrun. destruct Hrun as (temp & [s1 w1] & Hup & Hrun).
  unfold bind at 1, self in Hrun. cbn [fst snd] in Hrun.
  apply bind_return in Hrun. destruct Hrun as (r & st2 & Hput & Hret).
  inversion Hret; subst st2.
  pose proof (quiet_upload_file_to_temp_storage zipped (s, w)) as Hq.
  pose proof (forward_upload_file_to_temp_storage zipped (s, w)) as (Ha1 & _).
  rewrite Hup in Hq, Ha1. unfold same_mutations in Hq. cbn [fst snd] in Hq, Ha1.
  rewrite (http_request_mutation "PUT" _ (Json (content_link temp)) _ _ _ _
             eq_refl Hput), Hq.
  now rewrite (get_url_same s s1).
Qed.

Lemma delete_python_package_returns name s w st' :
  delete_python_package name (s, w) = (Return tt, st') ->
  mutations (trace (snd st'))
  = (mutations (trace w)
     ++ [("DELETE", __get_url s ("python3Packages/" ++ name))])%list.
Proof.
  intros Hrun. unfold delete_python_package in Hrun.
  unfold bind at 1, self in Hrun. cbn [fst snd] in Hrun.
  unfold try_except in Hrun.
  match type of Hrun with context [bind ?m ?k (s, w)] =>
    destruct (bind m k (s, w)) as [[[] | e | ] st1] eqn:Hin end.
  - inversion Hrun; subst st1.
    apply bind_return in Hin. destruct Hin as (r & st2 & Hdel & Hret).
    inversion Hret; subst st2.
    exact (http_request_mutation "DELETE" _ NoBody _ _ _ _ eq_refl Hdel).
  - destruct e; try discriminate.
    destruct (status_code r =? HTTPStatus.NOT_FOUND); discriminate.
  - discriminate.
Qed.

Lemma delete_pip_if_exists_returns s w st' :
  _delete_pip_if_exists (s, w) = (Return tt, st') ->
  mutations (trace (snd st'))
  = (mutations (trace w)
     ++ if pip_existed s w
        then [("DELETE", __get_url s ("python3Packages/" ++ PIP_PACKAGE_NAME))]
        else [])%list
  /\ uuid_ix (snd st') = uuid_ix w
  /\ __account_id (fst st') = __account_id s.
Proof.
  intros Hrun.
  pose proof (same_uuid_delete_pip_if_exists (s, w)) as Hu.
  assert (Hfw : forward _delete_pip_if_exists)
    by (forward_by stable_delete_pip_if_exists).
  destruct (Hfw (s, w)) as (Ha & _).
  rewrite Hrun in Hu, Ha. unfold same_uuid in Hu. cbn [fst snd] in Hu, Ha.
  split; [ | now split].
  unfold _delete_pip_if_exists in Hrun.
  apply bind_return in Hrun. destruct Hrun as (pkg & [s1 w1] & Hget & Hrun).
  pose proof (quiet_get_python_package PIP_PACKAGE_NAME (s, w)) as Hq.
  pose proof (forward_get_python_package PIP_PACKAGE_NAME (s, w)) as (Ha1 & _).
  rewrite Hget in Hq, Ha1. unfold same_mutations in Hq. cbn [fst snd] in Hq, Ha1.
  unfold pip_existed. rewrite Hget. cbn [fst].
  destruct (truthy pkg).
  - rewrite (delete_python_package_returns _ _ _ _ Hrun), Hq.
    now rewrite (get_url_same s s1).
  - inversion Hrun; subst. cbn [snd]. now rewrite app_nil_r.
Qed.

Lemma map_seq_S {A : Type} (f : nat -> A) n :
  map f (seq 0 (S n)) = f 0%nat :: map (fun i => f (S i)) (seq 0 n).
Proof. cbn [seq map]. now rewrite <- seq_shift, map_map. Qed.

(** The dummy uploads of a loop that returns: one import for each turn,
    under the UUIDs drawn in turn. *)
Lemma python_loop_returns n :
  forall s w st',
    python_loop n (s, w) = (Return tt, st') ->
    mutations (trace (snd st'))
    = (mutations (trace w)
       ++ map (fun i => ("PUT", __get_url s ("python3Packages/"
                                            ++ uuid_src E (uuid_ix w + i))))
            (seq 0 n))%list
    /\ uuid_ix (snd st') = (uuid_ix w + n)%nat.
Proof.
  induction n as [ | n IH]; intros s w st' Hrun.
  - inversion Hrun; subst. cbn [snd seq map]. rewrite app_nil_r. split; [easy | lia].
  - cbn [python_loop] in Hrun. unfold bind at 1, uuid4, on_world in Hrun.
    cbn [fst snd uuid4_w] in Hrun.
    apply bind_return in Hrun. destruct Hrun as ([] & [s1 w1] & Hup & Hrun).
    apply upload_python_package_returns in Hup.
    cbn [fst snd uuid_ix trace] in Hup. destruct Hup as (Hm & Hu & Ha).
    apply IH in Hrun. destruct Hrun as (Hm' & Hu').
    rewrite Hu in Hu', Hm'. split; [ | lia].
    rewrite Hm', Hm, map_seq_S, <- app_assoc. cbn [app].
    rewrite Nat.add_0_r. do 2 f_equal.
    apply map_ext. intros i. rewrite (get_url_same s s1) by exact Ha.
    now replace (S (uuid_ix w) + i)%nat with (uuid_ix w + S i)%nat by lia.
Qed.


Lemma assoc_dict_set {A : Type} k (v : A) l : assoc k (dict_set k v l) = Some v.
Proof.
  induction l as [ | [k' v'] l IH]; simpl.
  - now rewrite String.eqb_refl.
  - destruct (k =? k')%string eqn:Hk; simpl.
    + now rewrite String.eqb_refl.
    + now rewrite Hk.
Qed.

Lemma read_file_returns f st data st' :
  read_file f st = (Return data, st') ->
  st' = st /\ assoc f (fs (snd st)) = Some (File data).
Proof.
  unfold read_file. destruct (assoc f (fs (snd st))) as [[d | ] | ];
    try discriminate.
  intros H. inversion H; subst. now split.
Qed.

Lemma write_file_returns f data st st' :
  write_file f data st = (Return tt, st') ->
  st' = (fst st, set_fs (dict_set f (File data) (fs (snd st))) (snd st))
  /\ assoc f (fs (snd st)) <> Some Directory.
Proof.
  unfold write_file. destruct (assoc f (fs (snd st))) as [[d | ] | ];
    try discriminate; intros H; inversion H; subst; split;
    try reflexivity; discriminate.
Qed.

Lemma write_file_state f data st :
  fst (snd (write_file f data st)) = fst st.
Proof.
  unfold write_file. destruct (assoc f (fs (snd st))) as [[d | ] | ];
    reflexivity.
Qed.

Lemma copyfile_returns src dst st st' :
  copyfile src dst st = (Return tt, st') ->
  exists data,
    assoc src (fs (snd st)) = Some (File data)
    /\ src <> dst
    /\ assoc dst (fs (snd st)) <> Some Directory
    /\ st' = (fst st, set_fs (dict_set dst (File data) (fs (snd st))) (snd st)).
Proof.
  unfold copyfile. destruct (String.eqb_spec src dst) as [Heq | Hne];
    cbn [andb].
  - unfold path_exists. destruct (assoc src (fs (snd st))) eqn:Hs;
      [discriminate | ].
    intros Hrun. apply bind_return in Hrun.
    destruct Hrun as (data & st1 & Hread & _).
    apply read_file_returns in Hread. destruct Hread as [_ Hread].
    congruence.
  - intros Hrun. apply bind_return in Hrun.
    destruct Hrun as (data & st1 & Hread & Hwrite).
    apply read_file_returns in Hread. destruct Hread as [-> Hread].
    apply write_file_returns in Hwrite. destruct Hwrite as [-> Hdir].
    exists data. repeat split; assumption.
Qed.

Lemma read_text_returns f st text st' :
  read_text f st = (Return text, st') ->
  st' = st
  /\ exists data decoded,
       assoc f (fs (snd st)) = Some (File data)
       /\ decode E data = Some decoded
       /\ text = universal_newlines decoded.
Proof.
  unfold read_text. intros Hrun. apply bind_return in Hrun.
  destruct Hrun as (data & st1 & Hread & Hrun).
  apply read_file_returns in Hread. destruct Hread as [-> Hread].
  destruct (decode E data) as [decoded | ] eqn:Hd; [ | discriminate].
  inversion Hrun; subst. split; [reflexivity | ].
  exists data, decoded. repeat split; assumption.
Qed.

Lemma read_text_state f st : snd (read_text f st) = st.
Proof.
  unfold read_text, bind, read_file.
  destruct (assoc f (fs (snd st))) as [[d | ] | ]; try reflexivity.
  destruct (decode E d); reflexivity.
Qed.

Lemma dict_set_twice {A : Type} k (v v' : A) l :
  dict_set k v (dict_set k v' l) = dict_set k v l.
Proof.
  induction l as [ | [k0 v0] l IH]; cbn [dict_set].
  - rewrite String.eqb_refl. reflexivity.
  - destruct (k =? k0)%string eqn:Hk; cbn [dict_set].
    + rewrite String.eqb_refl. reflexivity.
    + rewrite Hk, IH. reflexivity.
Qed.

Lemma write_text_returns f text st st' :
  write_text f text st = (Return tt, st') ->
  exists data,
    encode E text = Some data
    /\ assoc f (fs (snd st)) <> Some Directory
    /\ st' = (fst st, set_fs (dict_set f (File data) (fs (snd st))) (snd st)).
Proof.
  unfold write_text. intros Hrun. apply bind_return in Hrun.
  destruct Hrun as ([] & st1 & Hopen & Hrun).
  apply write_file_returns in Hopen. destruct Hopen as [-> Hdir].
  destruct (encode E text) as [data | ] eqn:He; [ | discriminate].
  apply write_file_returns in Hrun. destruct Hrun as [-> _].
  exists data. cbn [fst snd set_fs fs]. rewrite dict_set_twice.
  repeat split; assumption.
Qed.

Lemma wrap_script_state ex st : snd (_wrap_script ex st) = st.
Proof.
  unfold _wrap_script. unfold bind at 1.
  destruct (requirements_file ex) as [f | ]; [ | reflexivity].
  destruct (negb (f =? "")%string); [ | reflexivity].
  unfold bind at 1. pose proof (read_text_state f st) as Hst.
  destruct (read_text f st) as [[text | e | ] st1]; cbn [snd] in Hst;
    subst st1; reflexivity.
Qed.

(** The wheel is packed from the files in which [main.py] holds the
    bytes of the wrapper followed by the text of the script. *)
Lemma create_whl_for_upload_returns ex s w whl st' :
  _create_whl_for_upload ex (s, w) = (Return whl, st') ->
  exists script text wrapper data,
    assoc (script_path ex) (fs w) = Some (File script)
    /\ script_path ex <> main_file_path
    /\ decode E script = Some text
    /\ fst (_wrap_script ex
              (s, set_fs (dict_set main_file_path (File script) (fs w)) w))
       = Return wrapper
    /\ encode E (wrapper ++ universal_newlines text) = Some data
    /\ package_to_whl E CUSTOM_PIP_PATH
         (dict_set main_file_path (File data) (fs w))
       = (Return whl, fs (snd st')).
Proof.
  intros Hrun. unfold _create_whl_for_upload in Hrun.
  apply bind_return in Hrun. destruct Hrun as ([] & st1 & Hcopy & Hrun).
  apply copyfile_returns in Hcopy.
  destruct Hcopy as (script & Hscript & Hne & _ & ->).
  cbn [fst snd] in Hscript, Hrun |- *.
  apply bind_return in Hrun. destruct Hrun as (raw & st2 & Hread & Hrun).
  apply read_text_returns in Hread.
  destruct Hread as [-> (data0 & text & Hraw & Hdec & ->)].
  cbn [snd set_fs fs] in Hraw. rewrite assoc_dict_set in Hraw.
  inversion Hraw; subst data0.
  apply bind_return in Hrun. destruct Hrun as (wrapper & st3 & Hwrap & Hrun).
  pose proof (wrap_script_state ex
                (s, set_fs (dict_set main_file_path (File script) (fs w)) w))
    as Hst.
  rewrite Hwrap in Hst. cbn [snd] in Hst. subst st3.
  apply bind_return in Hrun. destruct Hrun as ([] & st4 & Hwrite & Hrun).
  apply write_text_returns in Hwrite. destruct Hwrite as (data & Henc & _ & ->).
  cbn [fst snd set_fs fs] in Hrun. rewrite dict_set_twice in Hrun.
  unfold utils_package_to_whl in Hrun. cbn [fst snd set_fs fs] in Hrun.
  exists script, text, wrapper, data. rewrite Hwrap.
  repeat split; try assumption.
  inversion Hrun as [[Hres Hst']]. cbn [snd set_fs fs].
  now destruct (package_to_whl E CUSTOM_PIP_PATH _).
Qed.

(** The steps of a run of the Python executor that returns, in their
    order, and what the account accepted at each. *)
Lemma python_execute_script_returns ex count s w st' :
  python_execute_script ex count (s, w) = (Return tt, st') ->
  let n := Z.to_nat count in
  let pip_url := __get_url s ("python3Packages/" ++ PIP_PACKAGE_NAME) in
  let dummy i :=
    ("PUT", __get_url s ("python3Packages/" ++ uuid_src E (uuid_ix w + i))) in
  exists st_deleted whl st_built st_uploaded st_waited,
    _delete_pip_if_exists (s, w) = (Return tt, st_deleted)
    /\ _create_whl_for_upload ex st_deleted = (Return whl, st_built)
    /\ upload_python_package PIP_PACKAGE_NAME whl st_built
       = (Return tt, st_uploaded)
    /\ _wait_for_package_upload PIP_PACKAGE_NAME UPLOAD_TIMEOUT st_uploaded
       = (Return tt, st_waited)
    /\ python_loop n st_waited = (Return tt, st')
    /\ mutations (trace (snd st_deleted))
       = (mutations (trace w)
          ++ if pip_existed s w then [("DELETE", pip_url)] else [])%list
    /\ mutations (trace (snd st_uploaded))
       = (mutations (trace (snd st_deleted)) ++ [("PUT", pip_url)])%list
    /\ mutations (trace (snd st_waited)) = mutations (trace (snd st_uploaded))
    /\ mutations (trace (snd st'))
       = (mutations (trace (snd st_waited)) ++ map dummy (seq 0 n))%list
    /\ uuid_ix (snd st') = (uuid_ix w + n)%nat
    /\ exists script text wrapper data,
         assoc (script_path ex) (fs (snd st_deleted)) = Some (File script)
         /\ decode E script = Some text
         /\ fst (_wrap_script ex
                   (fst st_deleted,
                    set_fs (dict_set main_file_path (File script)
                              (fs (snd st_deleted))) (snd st_deleted)))
            = Return wrapper
         /\ encode E (wrapper ++ universal_newlines text) = Some data
         /\ package_to_whl E CUSTOM_PIP_PATH
              (dict_set main_file_path (File data) (fs (snd st_deleted)))
            = (Return whl, fs (snd st_built)).
Proof.
  intros Hrun n pip_url dummy.
  unfold python_execute_script in Hrun.
  apply bind_return in Hrun. destruct Hrun as ([] & [sd wd] & Hdel & Hrun).
  apply bind_return in Hrun. destruct Hrun as (whl & [sb wb] & Hwhl & Hrun).
  apply bind_return in Hrun. destruct Hrun as ([] & [su wu] & Hup & Hrun).
  apply bind_return in Hrun. destruct Hrun as ([] & [sw ww] & Hwait & Hloop).
  exists (sd, wd), whl, (sb, wb), (su, wu), (sw, ww).
  fold n in Hloop.
  destruct (delete_pip_if_exists_returns _ _ _ Hdel) as (Hm1 & Hu1 & Ha1).
  destruct (upload_python_package_returns _ _ _ _ _ Hup) as (Hm3 & Hu3 & Ha3).
  pose proof (quiet_create_whl_for_upload ex (sd, wd)) as Hm2.
  pose proof (same_uuid_create_whl_for_upload ex (sd, wd)) as Hu2.
  assert (Hfw2 : forward (_create_whl_for_upload ex))
    by (forward_by stable_create_whl_for_upload).
  destruct (Hfw2 (sd, wd)) as (Ha2 & _).
  rewrite Hwhl in Hm2, Hu2, Ha2.
  pose proof (quiet_wait_for_package_upload PIP_PACKAGE_NAME UPLOAD_TIMEOUT
                (su, wu)) as Hm4.
  pose proof (same_uuid_wait_for_package_upload PIP_PACKAGE_NAME
                UPLOAD_TIMEOUT (su, wu)) as Hu4.
  assert (Hfw4 : forward (_wait_for_package_upload PIP_PACKAGE_NAME
                            UPLOAD_TIMEOUT))
    by (forward_by stable_wait_for_package_upload).
  destruct (Hfw4 (su, wu)) as (Ha4 & _).
  rewrite Hwait in Hm4, Hu4, Ha4.
  unfold same_mutations, same_uuid in *. cbn [fst snd] in *.
  destruct (python_loop_returns n _ _ _ Hloop) as (Hm5 & Hu5).
  destruct (create_whl_for_upload_returns _ _ _ _ _ Hwhl)
    as (script & text & wrapper & data & Hs & _ & Hdec & Hwrap & Henc & Hp).
  assert (Hacc : __account_id sw = __account_id s) by congruence.
  assert (Haccb : __account_id sb = __account_id s) by congruence.
  repeat split; auto.
  + rewrite Hm3, Hm2. unfold pip_url. now rewrite (get_url_same s sb).
  + rewrite Hm5. f_equal. apply map_ext. intros i. unfold dummy.
    rewrite (get_url_same s sw) by exact Hacc.
    do 4 f_equal. congruence.
  + rewrite Hu5. congruence.
  + exists script, text, wrapper, data. repeat split; assumption.
Qed.









(** ** The flow of [main] *)

Lemma answered_app tr1 tr2 :
  answered (tr1 ++ tr2) = (answered tr1 ++ answered tr2)%list.
Proof.
  induction tr1 as [ | [t r o | d | argv] tr1 IH]; simpl; try congruence.
  destruct (accepted o); simpl; congruence.
Qed.

Lemma answered_waited s w : answered (trace (waited s w)) = answered (trace w).
Proof.
  unfold waited. destruct (0 <? _); [ | reflexivity].
  simpl. rewrite answered_app. simpl. now rewrite app_nil_r.
Qed.

(** The helper returns the one accepted response of its call. *)
Lemma retry_loop_answered n m u h t b s w :
  answered (trace (snd (snd (retry_loop n m (JStr u) h t b (s, w)))))
  = (answered (trace w)
     ++ match fst (retry_loop n m (JStr u) h t b (s, w)) with
        | Return _ => [(m, u)]
        | _ => []
        end)%list.
Proof.
  revert s w. induction n as [ | n IH]; intros s w.
  - simpl. now rewrite app_nil_r.
  - rewrite retry_loop_step. cbv zeta.
    assert (Hsend : answered (trace (snd (send_w E (mkRequest m u h t b) w)))
                    = (answered (trace w)
                       ++ if accepted (fst (net E (sent w)))
                          then [(m, u)] else [])%list).
    { unfold send_w. destruct (net E (sent w)) as [o d]. cbn [fst snd trace].
      rewrite answered_app. cbn [answered].
      destruct (accepted o); reflexivity. }
    destruct (transient (fst (net E (sent w)))) eqn:Htr.
    + rewrite IH. cbn [sleep_w log set_clock trace]. rewrite answered_app.
      cbn [answered]. rewrite app_nil_r, Hsend.
      replace (accepted (fst (net E (sent w)))) with false;
        [now rewrite app_nil_r | ].
      destruct (accepted (fst (net E (sent w)))) eqn:Hacc; [ | reflexivity].
      apply accepted_not_transient in Hacc. congruence.
    + destruct (fst (net E (sent w))) as [r | e] eqn:Ho.
      * cbn [transient] in Htr.
        destruct (andb (400 <=? status_code r) (status_code r <? 600)) eqn:Herr;
          cbn [fst snd]; rewrite Hsend; cbn [accepted]; rewrite Htr, Herr;
          reflexivity.
      * cbn [fst snd]. rewrite Hsend. reflexivity.
Qed.

Lemma http_request_answered m url h a n t b s w r st :
  __http_request m url h a n t b (s, w) = (Return r, st) ->
  exists u, url = JStr u
            /\ answered (trace (snd st)) = (answered (trace w) ++ [(m, u)])%list.
Proof.
  intros Hrun. rewrite http_request_eq in Hrun.
  destruct url as [ | | | u | | ];
    try (destruct (Z.to_nat n);
         [discriminate | rewrite retry_loop_bad_url in Hrun by discriminate;
                         discriminate]).
  exists u. split; [reflexivity | ].
  match type of Hrun with retry_loop ?n _ _ ?hh ?t _ (?s1, ?w1) = _ =>
    pose proof (retry_loop_answered n m u hh t b s1 w1) as H end.
  rewrite Hrun in H. cbn [fst snd] in H. rewrite H, answered_waited.
  reflexivity.
Qed.

Lemma upload_file_to_temp_storage_answered f s w temp st :
  __upload_file_to_temp_storage f (s, w) = (Return temp, st) ->
  exists u, temp = JStr u
            /\ answered (trace (snd st))
               = (answered (trace w)
                  ++ [("GET", URL_GET_STORAGE_BLOB (__account_id s));
                      ("PUT", u)])%list.
Proof.
  intros Hrun. unfold __upload_file_to_temp_storage in Hrun.
  unfold bind at 1, self in Hrun. cbn [fst snd] in Hrun.
  apply bind_return in Hrun. destruct Hrun as (r & [s1 w1] & Hget & Hrun).
  apply http_request_answered in Hget. destruct Hget as (u0 & Hu0 & Hans1).
  inversion Hu0; subst u0. cbn [snd] in Hans1.
  apply bind_return in Hrun. destruct Hrun as (j & st2 & Hjson & Hrun).
  assert (st2 = (s1, w1)).
  { unfold response_json in Hjson. destruct (json_body r); inversion Hjson.
    reflexivity. }
  subst st2.
  unfold bind at 1, on_self in Hrun. cbn [fst snd] in Hrun.
  apply bind_return in Hrun. destruct Hrun as (data & st3 & Hread & Hrun).
  apply read_file_returns in Hread. destruct Hread as [-> _].
  unfold bind at 1, self in Hrun.
  cbn [fst snd set_current_temp_storage_url __current_temp_storage_url] in Hrun.
  apply bind_return in Hrun. destruct Hrun as (r2 & [s4 w4] & Hput & Hrun).
  assert (Hurl : __current_temp_storage_url s4 = Some j).
  { assert (Hsu : respects same_url
                    (__http_request "PUT" j
                       (Some [("x-ms-blob-type", "BlockBlob")]) false 5
                       HTTP_REQUEST_TIMEOUT (Data data)))
      by (same_url_by stable_http_request).
    match type of Hput with _ ?st0 = _ => specialize (Hsu st0) end.
    rewrite Hput in Hsu. exact Hsu. }
  apply http_request_answered in Hput. destruct Hput as (u & Hu & Hans2).
  cbn [snd] in Hans2. subst j.
  unfold bind at 1, self in Hrun. cbn [fst snd] in Hrun. rewrite Hurl in Hrun.
  inversion Hrun; subst. exists u. split; [reflexivity | ].
  cbn [snd]. rewrite Hans2, Hans1, <- app_assoc. reflexivity.
Qed.

Lemma module_uploads_same s s' ix blobs :
  __account_id s' = __account_id s ->
  module_uploads s' ix blobs = module_uploads s ix blobs.
Proof.
  intros H. revert ix. induction blobs as [ | u tl IH]; intros ix; simpl.
  - reflexivity.
  - now rewrite IH, H, (get_url_same s s').
Qed.

Lemma upload_powershell_module_answered name zipped s w st' :
  upload_powershell_module name zipped (s, w) = (Return tt, st') ->
  exists u,
    answered (trace (snd st'))
    = (answered (trace w)
       ++ [("GET", URL_GET_STORAGE_BLOB (__account_id s)); ("PUT", u);
           ("PUT", __get_url s ("modules/" ++ name))])%list.
Proof.
  intros Hrun. unfold upload_powershell_module in Hrun.
  apply bind_return in Hrun. destruct Hrun as (temp & [s1 w1] & Hup & Hrun).
  pose proof (forward_upload_file_to_temp_storage zipped (s, w)) as (Ha1 & _).
  rewrite Hup in Ha1. cbn [fst snd] in Ha1.
  apply upload_file_to_temp_storage_answered in Hup.
  destruct Hup as (u & _ & Hans1). cbn [snd] in Hans1.
  unfold bind at 1, self in Hrun. cbn [fst snd] in Hrun.
  apply bind_return in Hrun. destruct Hrun as (r & st2 & Hput & Hret).
  inversion Hret; subst st2.
  apply http_request_answered in Hput. destruct Hput as (u' & Hu' & Hans2).
  inversion Hu'; subst u'.
  exists u. rewrite Hans2, Hans1, <- app_assoc.
  now rewrite (get_url_same s s1).
Qed.

Lemma powershell_loop_answered n script :
  forall s w st',
    powershell_loop n script (s, w) = (Return tt, st') ->
    exists blobs,
      List.length blobs = n
      /\ answered (trace (snd st'))
         = (answered (trace w) ++ module_uploads s (uuid_ix w) blobs)%list.
Proof.
  induction n as [ | n IH]; intros s w st' Hrun.
  - inversion Hrun; subst. exists []. cbn [snd module_uploads].
    now rewrite app_nil_r.
  - cbn [powershell_loop] in Hrun. unfold bind at 1, uuid4, on_world in Hrun.
    cbn [fst snd uuid4_w] in Hrun.
    apply bind_return in Hrun. destruct Hrun as (zipped & [s0 w0] & Hzip & Hrun).
    unfold utils_zip_file in Hzip. cbn [fst snd] in Hzip.
    inversion Hzip as [[Hz Hs0 Hw0]]. subst s0.
    apply bind_return in Hrun. destruct Hrun as ([] & [s1 w1] & Hup & Hrun).
    pose proof (upload_powershell_module_returns _ _ _ _ _ Hup) as (_ & Hu & Ha).
    apply upload_powershell_module_answered in Hup.
    destruct Hup as (u & Hans).
    rewrite <- Hw0 in Hans, Hu. cbn [fst snd uuid_ix trace set_fs] in Hans, Hu, Ha.
    apply IH in Hrun. destruct Hrun as (blobs & Hlen & Hans').
    exists (u :: blobs). split; [simpl; now rewrite Hlen | ].
    rewrite Hans', Hans, Hu, <- app_assoc. cbn [module_uploads app].
    now rewrite (module_uploads_same s s1).
Qed.

(** What the constructor leaves when it returns the session. *)
Lemma session_constructed acct tok w sess w2 :
  AzureAutomationSession acct tok w = (Return sess, w2) ->
  __account_id sess = acct
  /\ __access_token sess = tok
  /\ answered (trace w2) = (answered (trace w) ++ [("GET", __get_url sess "")])%list.
Proof.
  intros Hrun. unfold AzureAutomationSession in Hrun.
  destruct (__init__ acct (mkSession acct tok 0 None, w))
    as [[r | e | ] [s1 w1]] eqn:Hinit; inversion Hrun; subst s1 w1.
  pose proof (stable_init evolves (fun _ => True) evolves_refl evolves_trans
                evolves_sleep evolves_next evolves_send (fun _ _ _ => I) acct
                (mkSession acct tok 0 None, w)) as (Ha & Ht & _).
  rewrite Hinit in Ha, Ht. cbn [fst snd __account_id __access_token] in Ha, Ht.
  repeat split; [exact Ha | exact Ht | ].
  unfold __init__, try_except in Hinit.
  match type of Hinit with context [bind ?m ?k ?st] =>
    destruct (bind m k st) as [[r' | e | ] st1] eqn:Hin end.
  - inversion Hinit; subst r' st1.
    unfold bind at 1, self in Hin. cbn [fst snd] in Hin.
    apply http_request_answered in Hin. destruct Hin as (u & Hu & Hans).
    inversion Hu; subst u. cbn [snd] in Hans. rewrite Hans.
    now rewrite (get_url_same (mkSession acct tok 0 None) sess).
  - unfold init_handler in Hinit. destruct e; try discriminate.
    destruct (_ =? _); [discriminate | ].
    destruct (_ =? _); [discriminate | ].
    destruct (_ =? _); discriminate.
  - discriminate.
Qed.

Lemma main_eq args w :
  arguments_ok args w = true ->
  main args w
  = match token_run args w with
    | (Return tok, w1) =>
        match AzureAutomationSession (arg_id args) tok w1 with
        | (Return sess, w2) => executor_run args sess w2
        | (Raise e, w2) => (Raise e, w2)
        | (OutOfFuel, w2) => (OutOfFuel, w2)
        end
    | (Raise e, w1) => (Raise e, w1)
    | (OutOfFuel, w1) => (OutOfFuel, w1)
    end.
Proof.
  intros Hok. unfold arguments_ok in Hok. apply andb_true_iff in Hok.
  destruct Hok as [Hp Hr]. apply negb_true_iff in Hr.
  unfold main. unfold bind at 1, get. rewrite Hp. cbn [negb]. rewrite Hr.
  assert (Hdispatch : forall r (w1 : world),
             match r with
             | Return tok =>
                 bind (AzureAutomationSession (arg_id args) tok)
                   (fun automation_session =>
                      bind
                        (if (lower (get_file_extension E (arg_path args))
                             =? ".ps1")%string
                         then
                           ret (Powershell
                                  (mkPowershellScriptExecutor (arg_path args)))
                         else if (lower (get_file_extension E (arg_path args))
                                  =? ".py")%string
                         then
                           ret (Python
                                  (mkPythonScriptExecutor (arg_path args)
                                     (arg_requirements args)))
                         else
                           raise (CloudMinerException
                                    (UnsupportedExtension
                                       (lower (get_file_extension E
                                                 (arg_path args))))))
                        (fun executor =>
                           with_session automation_session
                             (execute_script executor (arg_count args)))) w1
             | Raise e => (Raise e, w1)
             | OutOfFuel => (OutOfFuel, w1)
             end
             = match r with
               | Return tok =>
                   match AzureAutomationSession (arg_id args) tok w1 with
                   | (Return sess, w2) => executor_run args sess w2
                   | (Raise e, w2) => (Raise e, w2)
                   | (OutOfFuel, w2) => (OutOfFuel, w2)
                   end
               | Raise e => (Raise e, w1)
               | OutOfFuel => (OutOfFuel, w1)
               end).
  { intros [tok | e | ] w1; try reflexivity. unfold bind at 1, executor_run.
    destruct (AzureAutomationSession (arg_id args) tok w1) as [[sess | e | ] w2];
      try reflexivity.
    destruct (_ =? ".ps1")%string; [reflexivity | ].
    destruct (_ =? ".py")%string; reflexivity. }
  unfold token_run, POWERSHELL_EXTENSION, PYTHON_EXTENSION.
  destruct (arg_token args) as [t | ].
  - destruct (t =? "")%string; cbn [negb].
    + unfold bind at 1.
      destruct (get_access_token_from_cli w) as [r w1]. apply Hdispatch.
    + unfold bind at 1, ret. apply (Hdispatch (Return t) w).
  - unfold bind at 1.
    destruct (get_access_token_from_cli w) as [r w1]. apply Hdispatch.
Qed.

Lemma main_guarded args w :
  arguments_ok args w = false ->
  exists m, main args w = (Raise (CloudMinerException m), w).
Proof.
  intros Hok. unfold arguments_ok in Hok. unfold main.
  unfold bind at 1, get.
  destruct (path_exists (arg_path args) w); cbn [negb andb] in *.
  - apply negb_false_iff in Hok. rewrite Hok. eexists. reflexivity.
  - eexists. reflexivity.
Qed.

(** The run of the CLI: the two commands, and nothing sent. *)
Lemma cli_run w :
  let run := get_access_token_from_cli w in
  fst run <> OutOfFuel
  /\ requests (trace (snd run)) = requests (trace w)
  /\ mutations (trace (snd run)) = mutations (trace w)
  /\ answered (trace (snd run)) = answered (trace w)
  /\ (forall tok, fst run = Return tok ->
        trace (snd run)
        = (trace w ++ [EvCommand ["az"; "account"; "show"];
                       EvCommand ["az"; "account"; "get-access-token"]])%list).
Proof.
  unfold get_access_token_from_cli, bind, try_except, utils_run_command,
    raise, ret.
  repeat (match goal with
          | |- context [run_command E ?a] => destruct (run_command E a)
          | |- context [returncode ?p =? 0] => destruct (returncode p =? 0)
          | |- context [json_loads E ?x] =>
              destruct (json_loads E x) as [[ | | | | | ?] | ]
          | |- context [assoc "accessToken" ?m] =>
              destruct (assoc "accessToken" m)
          end; cbn [negb fst snd]);
    cbn [negb fst snd log trace];
    rewrite ?requests_app, ?mutations_app, ?answered_app, <- ?app_assoc;
    cbn [requests mutations answered app]; rewrite ?app_nil_r;
    repeat split; try discriminate; auto.
Qed.

Lemma quiet_init acct : respects same_mutations (__init__ acct).
Proof. quiet_by stable_init. Qed.

Lemma session_mutations acct tok w :
  mutations (trace (snd (AzureAutomationSession acct tok w)))
  = mutations (trace w).
Proof.
  pose proof (quiet_init acct (mkSession acct tok 0 None, w)) as H.
  unfold same_mutations in H. cbn [snd] in H.
  unfold AzureAutomationSession.
  destruct (__init__ acct (mkSession acct tok 0 None, w))
    as [[r | e | ] [s1 w1]]; exact H.
Qed.

Lemma total_init acct : total (__init__ acct).
Proof.
  unfold __init__. apply total_try_except.
  - apply total_bind; [intros st; discriminate | intros s].
    apply total_http_request.
  - intros e k H. unfold init_handler in H. destruct e; inversion H; subst.
    destruct (_ =? _); [apply total_raise | ].
    destruct (_ =? _); [apply total_raise | ].
    destruct (_ =? _); apply total_raise.
Qed.

Lemma session_total acct tok w :
  fst (AzureAutomationSession acct tok w) <> OutOfFuel.
Proof.
  pose proof (total_init acct (mkSession acct tok 0 None, w)) as H.
  unfold AzureAutomationSession.
  destruct (__init__ acct (mkSession acct tok 0 None, w))
    as [[r | e | ] [s1 w1]]; cbn [fst] in *; congruence.
Qed.

Lemma token_run_facts args w :
  fst (token_run args w) <> OutOfFuel
  /\ requests (trace (snd (token_run args w))) = requests (trace w)
  /\ mutations (trace (snd (token_run args w))) = mutations (trace w)
  /\ answered (trace (snd (token_run args w))) = answered (trace w).
Proof.
  destruct (cli_run w) as (H1 & H2 & H3 & H4 & _).
  unfold token_run. destruct (arg_token args) as [t | ]; [ | now repeat split].
  destruct (t =? "")%string; [now repeat split | ].
  repeat split; discriminate.
Qed.

Lemma with_session_returns {A : Type} sess (m : M A) w a w' :
  with_session sess m w = (Return a, w') ->
  exists s', m (sess, w) = (Return a, (s', w')).
Proof.
  unfold with_session. destruct (m (sess, w)) as [res [s' w'']].
  cbn [fst snd]. intros H. inversion H; subst. now exists s'.
Qed.

(** * Further properties: edges, failures and what is sent *)

(** ** The URLs of [__get_url] *)

Lemma append_assoc (a b c : string) : ((a ++ b) ++ c = a ++ (b ++ c))%string.
Proof. induction a as [ | x a IH]; simpl; [reflexivity | now rewrite IH]. Qed.

Lemma append_not_empty a b : b <> "" -> (a ++ b)%string <> "".
Proof. destruct a; simpl; [auto | discriminate]. Qed.

Lemma endswith_slash_app a b :
  b <> "" -> endswith_slash (a ++ b) = endswith_slash b.
Proof.
  intros Hb. induction a as [ | c a IH]; [reflexivity | ].
  change (String c a ++ b)%string with (String c (a ++ b)).
  pose proof (append_not_empty a b Hb) as Hne.
  cbn [endswith_slash]. destruct (a ++ b)%string eqn:Hab; [contradiction | ].
  exact IH.
Qed.

Lemma append_eqb_empty a b : a <> "" -> ((a ++ b) =? "")%string = false.
Proof. destruct a; [contradiction | reflexivity]. Qed.

(** The URL of a path in the account: the management URL, the account ID
    without its first character (whatever that character is), the path,
    the API version. With an empty path the URL ends in a slash before the
    query. *)
Theorem get_url_shape s path :
  drop_first (__account_id s) <> "" ->
  startswith_slash (drop_first (__account_id s)) = false ->
  endswith_slash (drop_first (__account_id s)) = false ->
  startswith_slash path = false ->
  __get_url s path
  = "https://management.azure.com/" ++ drop_first (__account_id s) ++ "/"
    ++ path ++ "?api-version=2018-06-30".
Proof.
  intros Hne Hs He Hp. unfold __get_url, posixpath_join.
  cbn [fold_left]. unfold posix_join_step at 2. rewrite Hs.
  change (orb (AZURE_MANAGEMENT_URL =? "")%string
            (endswith_slash AZURE_MANAGEMENT_URL)) with false. cbv iota.
  unfold posix_join_step. rewrite Hp.
  rewrite append_eqb_empty by discriminate.
  rewrite endswith_slash_app by (apply append_not_empty; exact Hne).
  rewrite endswith_slash_app by exact Hne. rewrite He. cbn [orb].
  unfold AZURE_MANAGEMENT_URL, DEFAULT_API_VERSION.
  rewrite !append_assoc. reflexivity.
Qed.

(** An account ID whose second character is a slash makes the join start
    over: the URL no longer names the management host. *)
Theorem get_url_without_host s path :
  startswith_slash (drop_first (__account_id s)) = true ->
  startswith_slash path = false ->
  __get_url s path
  = drop_first (__account_id s)
    ++ (if endswith_slash (drop_first (__account_id s)) then "" else "/")
    ++ path ++ "?api-version=2018-06-30".
Proof.
  intros Hs Hp. unfold __get_url, posixpath_join. cbn [fold_left].
  unfold posix_join_step at 2. rewrite Hs. unfold posix_join_step. rewrite Hp.
  destruct (drop_first (__account_id s)) as [ | c tl] eqn:Hd; [discriminate | ].
  cbn [String.eqb orb].
  destruct (endswith_slash (String c tl)); unfold DEFAULT_API_VERSION;
    rewrite ?append_assoc; reflexivity.
Qed.

(** ** The ends of [__http_request] *)

Lemma sleeps_app tr1 tr2 : sleeps (tr1 ++ tr2) = (sleeps tr1 ++ sleeps tr2)%list.
Proof.
  induction tr1 as [ | e tr1 IH]; [reflexivity | ].
  destruct e; cbn [sleeps app]; rewrite IH; reflexivity.
Qed.

Lemma sleeps_sent r w : sleeps (trace (snd (send_w E r w))) = sleeps (trace w).
Proof.
  unfold send_w. destruct (net E (sent w)) as [o d]. cbn [snd trace].
  rewrite sleeps_app. cbn [sleeps]. apply app_nil_r.
Qed.

Lemma sent_sent r w : sent (snd (send_w E r w)) = S (sent w).
Proof. unfold send_w. destruct (net E (sent w)) as [o d]. reflexivity. Qed.

Lemma trace_sent r w :
  trace (snd (send_w E r w))
  = (trace w ++ [EvRequest (clock w) r (fst (net E (sent w)))])%list.
Proof. unfold send_w. destruct (net E (sent w)) as [o d]. reflexivity. Qed.

Lemma sleeps_waited s w :
  sleeps (trace (waited s w))
  = (sleeps (trace w)
     ++ if 0 <? __next_request_time s - clock w
        then [__next_request_time s - clock w] else [])%list.
Proof.
  unfold waited. destruct (0 <? _).
  - cbn [sleep_w log set_clock trace]. rewrite sleeps_app. reflexivity.
  - symmetry. apply app_nil_r.
Qed.

Lemma dict_set_other {A : Type} k k' (v : A) l :
  k' <> k -> assoc k' (dict_set k v l) = assoc k' l.
Proof.
  intros Hk. apply String.eqb_neq in Hk.
  induction l as [ | [k0 v0] l IH]; cbn [dict_set assoc].
  - rewrite Hk. reflexivity.
  - destruct (String.eqb_spec k k0) as [<- | Hk0]; cbn [assoc].
    + rewrite Hk. reflexivity.
    + rewrite IH. reflexivity.
Qed.

Lemma retry_loop_outcome n m url hs t b s w :
  match fst (retry_loop n m url hs t b (s, w)) with
  | Return r =>
      accepted (Responded r) = true
      /\ exists l t0 q,
           trace (snd (snd (retry_loop n m url hs t b (s, w))))
           = (l ++ [EvRequest t0 q (Responded r)])%list
  | Raise (HTTPError r) =>
      400 <= status_code r < 600
      /\ status_in (status_code r) retried_status_codes = false
      /\ exists l t0 q,
           trace (snd (snd (retry_loop n m url hs t b (s, w))))
           = (l ++ [EvRequest t0 q (Responded r)])%list
  | Raise (RequestError e) => caught e = false
  | Raise (CloudMinerException c) => c = MaxRetriesReached m url
  | Raise _ => False
  | OutOfFuel => False
  end.
Proof.
  revert w. induction n as [ | k IH]; intros w; [reflexivity | ].
  destruct url as [ | | | u | | ];
    try (rewrite retry_loop_bad_url by (intros u; discriminate); reflexivity).
  rewrite retry_loop_step. cbv zeta.
  destruct (transient (fst (net E (sent w)))) eqn:Htr; [apply IH | ].
  destruct (fst (net E (sent w))) as [r | e] eqn:Ho; cbn [transient] in Htr.
  - destruct (andb (400 <=? status_code r) (status_code r <? 600)) eqn:Hrange;
      cbn [fst snd].
    + apply andb_prop in Hrange. destruct Hrange as [H1 H2].
      apply Z.leb_le in H1. apply Z.ltb_lt in H2.
      split; [lia | ]. split; [exact Htr | ].
      rewrite trace_sent, Ho. eauto.
    + split.
      * unfold accepted. rewrite Htr, Hrange. reflexivity.
      * rewrite trace_sent, Ho. eauto.
  - exact Htr.
Qed.

Lemma http_request_outcome m url h a n t b st :
  match fst (__http_request m url h a n t b st) with
  | Return r =>
      accepted (Responded r) = true
      /\ exists l t0 q,
           trace (snd (snd (__http_request m url h a n t b st)))
           = (l ++ [EvRequest t0 q (Responded r)])%list
  | Raise (HTTPError r) =>
      400 <= status_code r < 600
      /\ status_in (status_code r) retried_status_codes = false
      /\ exists l t0 q,
           trace (snd (snd (__http_request m url h a n t b st)))
           = (l ++ [EvRequest t0 q (Responded r)])%list
  | Raise (RequestError e) => caught e = false
  | Raise (CloudMinerException c) => c = MaxRetriesReached m url
  | Raise _ => False
  | OutOfFuel => False
  end.
Proof.
  destruct st as [s w]. rewrite http_request_eq. apply retry_loop_outcome.
Qed.

(** With [retries] at zero or below the helper sends nothing: it serves
    the wait for the spacing, moves the time of the next request, and
    raises the exception of the exhausted retries. *)
Theorem http_request_no_retries m url h a n t b s w :
  n <= 0 ->
  __http_request m url h a n t b (s, w)
  = (Raise (CloudMinerException (MaxRetriesReached m url)),
     (set_next_request_time
        (Z.max (clock w) (__next_request_time s) + TIME_BETWEEN_REQUESTS_MS) s,
      waited s w))
  /\ requests (trace (waited s w)) = requests (trace w)
  /\ sent (waited s w) = sent w.
Proof.
  intros Hn. rewrite http_request_eq, clock_waited.
  replace (Z.to_nat n) with 0%nat by lia.
  split; [reflexivity | ]. split; [apply requests_waited | apply sent_waited].
Qed.

(** Every request of one call is the same request. With [add_auth_info]
    its [Authorization] header is the bearer token of the session, also
    when the caller passed an [Authorization] header of their own, and the
    other headers are the caller's; without it the headers are the caller's
    and the token is not added. *)
Theorem http_request_authorization m u h a n t b s w :
  exists k hs,
    (k <= Z.to_nat n)%nat
    /\ requests (trace (snd (snd (__http_request m (JStr u) h a n t b (s, w)))))
       = (requests (trace w) ++ repeat (mkRequest m u hs t b) k)%list
    /\ (if a
        then assoc "Authorization" hs = Some ("Bearer " ++ __access_token s)
             /\ forall key, key <> "Authorization" ->
                  assoc key hs
                  = assoc key (match h with Some l => l | None => [] end)
        else hs = match h with Some l => l | None => [] end).
Proof.
  rewrite http_request_eq.
  destruct (retry_loop_requests (Z.to_nat n) m u (request_headers s h a) t b
              (set_next_request_time
                 (clock (waited s w) + TIME_BETWEEN_REQUESTS_MS) s)
              (waited s w)) as [k [Hk Hreq]].
  exists k, (request_headers s h a). split; [exact Hk | ].
  split; [rewrite Hreq, requests_waited; reflexivity | ].
  unfold request_headers. destruct a; [ | reflexivity].
  split; [apply assoc_dict_set | ]. intros key Hkey.
  apply dict_set_other. exact Hkey.
Qed.

Lemma retry_loop_sends n m u h t b s w :
  match fst (retry_loop n m (JStr u) h t b (s, w)) with
  | Raise (CloudMinerException _) => True
  | _ => (sent w < sent (snd (snd (retry_loop n m (JStr u) h t b (s, w)))))%nat
  end.
Proof.
  revert w. induction n as [ | n IH]; intros w; [exact I | ].
  rewrite retry_loop_step. cbv zeta.
  destruct (transient (fst (net E (sent w)))) eqn:Htr.
  - specialize (IH (sleep_w (seconds SLEEP_BETWEEN_ERROR_SECONDS)
                      (snd (send_w E (mkRequest m u h t b) w)))).
    cbn [sleep_w log set_clock sent] in IH. rewrite sent_sent in IH.
    destruct (fst (retry_loop n m (JStr u) h t b _))
      as [r | [ | c | | | | | | | | | | ] | ]; try exact I; lia.
  - destruct (fst (net E (sent w))) as [r | e];
      [destruct (andb _ _) | ]; cbn [fst snd]; rewrite sent_sent; lia.
Qed.

Lemma retry_loop_sleeps n m u h t b s w :
  sleeps (trace (snd (snd (retry_loop n m (JStr u) h t b (s, w)))))
  = (sleeps (trace w)
     ++ repeat (seconds SLEEP_BETWEEN_ERROR_SECONDS)
          (sent (snd (snd (retry_loop n m (JStr u) h t b (s, w)))) - sent w
           - match fst (retry_loop n m (JStr u) h t b (s, w)) with
             | Raise (CloudMinerException _) => 0
             | _ => 1
             end))%list.
Proof.
  revert w. induction n as [ | n IH]; intros w.
  - cbn [retry_loop raise fst snd]. rewrite Nat.sub_diag. symmetry.
    apply app_nil_r.
  - rewrite retry_loop_step. cbv zeta.
    destruct (transient (fst (net E (sent w)))) eqn:Htr.
    + rewrite IH.
      cbn [sleep_w log set_clock trace sent]. rewrite sleeps_app, sleeps_sent.
      cbn [sleeps]. rewrite <- app_assoc. f_equal.
      rewrite sent_sent.
      pose proof (forward_retry_loop n m (JStr u) h t b
                    (s, sleep_w (seconds SLEEP_BETWEEN_ERROR_SECONDS)
                          (snd (send_w E (mkRequest m u h t b) w)))) as Hf.
      set (run := retry_loop n m (JStr u) h t b _) in *.
      assert (Hle : (S (sent w) <= sent (snd (snd run)))%nat).
      { destruct Hf as [_ [_ [_ [Hs _]]]].
        cbn [snd sleep_w log set_clock sent] in Hs.
        rewrite sent_sent in Hs. exact Hs. }
      pose proof (retry_loop_sends n m u h t b s
                    (sleep_w (seconds SLEEP_BETWEEN_ERROR_SECONDS)
                       (snd (send_w E (mkRequest m u h t b) w)))) as Hsend.
      fold run in Hsend. cbn [sleep_w log set_clock sent] in Hsend.
      rewrite sent_sent in Hsend.
      destruct (fst run) as [r | [ | c | | | | | | | | | | ] | ];
        match goal with
        | |- ([?x] ++ repeat ?x ?a)%list = _ =>
            change ([x] ++ repeat x a)%list with (repeat x (S a))
        end; f_equal; lia.
    + destruct (fst (net E (sent w))) as [r | e];
        [destruct (andb _ _) | ]; cbn [fst snd];
        rewrite sleeps_sent, sent_sent;
        replace (S (sent w) - sent w - 1)%nat with 0%nat by lia;
        symmetry; apply app_nil_r.
Qed.

Lemma retry_loop_exhausted_sent n m u h t b s w c :
  fst (retry_loop n m (JStr u) h t b (s, w)) = Raise (CloudMinerException c) ->
  sent (snd (snd (retry_loop n m (JStr u) h t b (s, w)))) = (sent w + n)%nat.
Proof.
  revert w. induction n as [ | n IH]; intros w.
  - intros _. cbn [retry_loop raise snd]. lia.
  - rewrite retry_loop_step. cbv zeta.
    destruct (transient (fst (net E (sent w)))) eqn:Htr.
    + intros H. rewrite (IH _ H). cbn [sleep_w log set_clock sent].
      rewrite sent_sent. lia.
    + destruct (fst (net E (sent w))) as [r | e];
        [destruct (andb _ _) | ]; cbn [fst]; discriminate.
Qed.

(** The sleeps of one call: the wait for the spacing when the time of the
    next request lies ahead, then ten seconds after each attempt that is
    retried. The attempt that exhausts the retries is followed by its ten
    seconds as well: a call that gives up has made [retries] attempts and
    slept ten seconds after each of them. *)
Theorem http_request_sleeps m u h a n t b s w :
  sleeps (trace (snd (snd (__http_request m (JStr u) h a n t b (s, w)))))
  = (sleeps (trace w)
     ++ (if 0 <? __next_request_time s - clock w
         then [__next_request_time s - clock w] else [])
     ++ repeat 10000
          (sent (snd (snd (__http_request m (JStr u) h a n t b (s, w))))
           - sent w
           - match fst (__http_request m (JStr u) h a n t b (s, w)) with
             | Raise (CloudMinerException _) => 0
             | _ => 1
             end))%list
  /\ match fst (__http_request m (JStr u) h a n t b (s, w)) with
     | Raise (CloudMinerException _) =>
         sent (snd (snd (__http_request m (JStr u) h a n t b (s, w))))
         = (sent w + Z.to_nat n)%nat
     | _ => True
     end.
Proof.
  rewrite http_request_eq. split.
  - rewrite retry_loop_sleeps, sleeps_waited, sent_waited, <- app_assoc.
    reflexivity.
  - destruct (fst (retry_loop _ _ _ _ _ _ _))
      as [r | [ | c | | | | | | | | | | ] | ] eqn:Hrun; try exact I.
    rewrite (retry_loop_exhausted_sent _ _ _ _ _ _ _ _ _ Hrun), sent_waited.
    reflexivity.
Qed.

(** The helper ends in one of four ways, whatever the network does: it
    returns a response that is neither of a retried status nor an HTTP
    error, the answer to the last request sent; it raises the [HTTPError]
    of such an answer with a 4xx or 5xx status outside the retried ones;
    it raises an exception of the request that the loop does not catch; or
    it raises the exception of the exhausted retries. *)
Theorem http_request_ends m url h a n t b st :
  match fst (__http_request m url h a n t b st) with
  | Return r =>
      accepted (Responded r) = true
      /\ exists l t0 q,
           trace (snd (snd (__http_request m url h a n t b st)))
           = (l ++ [EvRequest t0 q (Responded r)])%list
  | Raise (HTTPError r) =>
      400 <= status_code r < 600
      /\ status_in (status_code r) retried_status_codes = false
      /\ exists l t0 q,
           trace (snd (snd (__http_request m url h a n t b st)))
           = (l ++ [EvRequest t0 q (Responded r)])%list
  | Raise (RequestError e) => caught e = false
  | Raise (CloudMinerException c) => c = MaxRetriesReached m url
  | Raise _ => False
  | OutOfFuel => False
  end.
Proof.
  destruct st as [s w]. rewrite http_request_eq.
  apply (retry_loop_outcome (Z.to_nat n) m url (request_headers s h a) t b).
Qed.

(** ** What the uploads send *)


Lemma fs_waited s w : fs (waited s w) = fs w.
Proof. unfold waited. destruct (0 <? _); reflexivity. Qed.





Lemma fs_sent r w : fs (snd (send_w E r w)) = fs w.
Proof. unfold send_w. destruct (net E (sent w)). reflexivity. Qed.

Lemma requests_sent r w :
  requests (trace (snd (send_w E r w))) = (requests (trace w) ++ [r])%list.
Proof. rewrite trace_sent, requests_app. reflexivity. Qed.

(** The file is read after the storage URL was asked for. When the file
    is missing the upload raises [FileNotFoundError] with one request
    sent, the [GET] of the storage URL, which the session has kept;
    nothing is put. *)
Theorem upload_missing_file f s w r j :
  fst (net E (sent w)) = Responded r ->
  accepted (Responded r) = true ->
  json_body r = Some j ->
  assoc f (fs w) = None ->
  fst (__upload_file_to_temp_storage f (s, w)) = Raise (FileNotFoundError f)
  /\ requests (trace (snd (snd (__upload_file_to_temp_storage f (s, w)))))
     = (requests (trace w)
        ++ [mkRequest "GET" (URL_GET_STORAGE_BLOB (__account_id s))
              [("Authorization", ("Bearer " ++ __access_token s)%string)] 5
              NoBody])%list
  /\ __current_temp_storage_url
       (fst (snd (__upload_file_to_temp_storage f (s, w)))) = Some j.
Proof.
  intros Ho Hacc Hbody Hfile.
  assert (Hrun :
    __upload_file_to_temp_storage f (s, w)
    = (Raise (FileNotFoundError f),
       (set_current_temp_storage_url j
          (set_next_request_time
             (clock (waited s w) + TIME_BETWEEN_REQUESTS_MS) s),
        snd (send_w E
               (mkRequest "GET" (URL_GET_STORAGE_BLOB (__account_id s))
                  (request_headers s None true) HTTP_REQUEST_TIMEOUT NoBody)
               (waited s w))))).
  { unfold __upload_file_to_temp_storage, http_request_default.
    unfold bind at 1, self. cbn [fst snd].
    unfold bind at 1.
    rewrite (http_request_accepted "GET" _ None true 5 _ NoBody s w r
               ltac:(lia) Ho Hacc).
    unfold bind at 1, response_json. rewrite Hbody. cbn [ret].
    unfold bind at 1, on_self. cbn [fst snd].
    unfold bind at 1, read_file. cbn [fst snd].
    rewrite fs_sent, fs_waited, Hfile. reflexivity. }
  rewrite Hrun. cbn [fst snd]. split; [reflexivity | ].
  split; [ | reflexivity].
  rewrite requests_sent, requests_waited. reflexivity.
Qed.

(** ** The ends of [delete_python_package] and [_delete_pip_if_exists] *)

(** The deletion never lets a 404 through as an [HTTPError]: the answer
    404 becomes the exception of the package that does not exist. It
    returns on an accepted answer only, and the other exceptions of the
    helper go up as they are. *)
Theorem delete_python_package_ends name s w :
  match fst (delete_python_package name (s, w)) with
  | Return _ =>
      exists l t0 q r,
        trace (snd (snd (delete_python_package name (s, w))))
        = (l ++ [EvRequest t0 q (Responded r)])%list
        /\ accepted (Responded r) = true
  | Raise (HTTPError r) =>
      400 <= status_code r < 600 /\ status_code r <> 404
      /\ status_in (status_code r) retried_status_codes = false
  | Raise (CloudMinerException c) =>
      c = MaxRetriesReached "DELETE"
            (JStr (__get_url s ("python3Packages/" ++ name)))
      \/ c = DeleteMissingPackage name
         /\ exists l t0 q r,
              trace (snd (snd (delete_python_package name (s, w))))
              = (l ++ [EvRequest t0 q (Responded r)])%list
              /\ status_code r = 404
  | Raise (RequestError e) => caught e = false
  | Raise _ => False
  | OutOfFuel => False
  end.
Proof.
  unfold delete_python_package. unfold bind at 1, self. cbn [fst snd].
  unfold try_except, bind, http_request_default.
  pose proof (http_request_outcome "DELETE"
                (JStr (__get_url s ("python3Packages/" ++ name))) None true 5
                HTTP_REQUEST_TIMEOUT NoBody (s, w)) as Hout.
  destruct (__http_request "DELETE" _ None true 5 HTTP_REQUEST_TIMEOUT NoBody
              (s, w)) as [[r | e | ] st1].
  - cbn [fst snd ret] in *. destruct Hout as [Hacc (l & t0 & q & Htr)].
    exists l, t0, q, r. split; assumption.
  - cbn [fst snd] in Hout. destruct e; try contradiction; cbn [fst snd].
    + destruct Hout as (Hrange & Hin & l & t0 & q & Htr).
      destruct (Z.eqb_spec (status_code r) HTTPStatus.NOT_FOUND) as [H404 | H404];
        cbn [raise fst snd].
      * right. split; [reflexivity | ]. exists l, t0, q, r.
        split; [exact Htr | exact H404].
      * repeat split; try lia; try exact Hin. exact H404.
    + left. exact Hout.
    + exact Hout.
  - contradiction.
Qed.

Lemma http_request_error m u h a n t b s w r :
  0 < n ->
  fst (net E (sent w)) = Responded r ->
  400 <= status_code r < 600 ->
  status_code r <> 429 -> status_code r <> 503 -> status_code r <> 504 ->
  __http_request m (JStr u) h a n t b (s, w)
  = (Raise (HTTPError r),
     (set_next_request_time (clock (waited s w) + TIME_BETWEEN_REQUESTS_MS) s,
      snd (send_w E (mkRequest m u (request_headers s h a) t b) (waited s w)))).
Proof.
  intros Hn Ho Hrange H1 H2 H3. rewrite http_request_eq.
  destruct (Z.to_nat n) as [ | k] eqn:Hk; [lia | ].
  apply retry_loop_error_status with (r := r); try assumption.
  rewrite sent_waited. exact Ho.
Qed.

Lemma get_python_package_missing name s w r :
  fst (net E (sent w)) = Responded r ->
  status_code r = 404 ->
  get_python_package name (s, w) = (Return JNull, polled s w name).
Proof.
  intros Ho H404. unfold get_python_package.
  unfold bind at 1, self. cbn [fst snd].
  unfold try_except, bind, http_request_default.
  rewrite (http_request_error "GET" _ None true 5 HTTP_REQUEST_TIMEOUT NoBody
             s w r ltac:(lia) Ho) by lia.
  rewrite H404. reflexivity.
Qed.

Lemma get_python_package_found name s w r j :
  fst (net E (sent w)) = Responded r ->
  accepted (Responded r) = true ->
  json_body r = Some j ->
  get_python_package name (s, w) = (Return j, polled s w name).
Proof.
  intros Ho Hacc Hbody. unfold get_python_package.
  unfold bind at 1, self. cbn [fst snd].
  unfold try_except, bind, http_request_default.
  rewrite (http_request_accepted "GET" _ None true 5 HTTP_REQUEST_TIMEOUT
             NoBody s w r ltac:(lia) Ho Hacc).
  unfold response_json. rewrite Hbody. reflexivity.
Qed.

(** When the account holds no ['pip'] package, the answer to the [GET]
    being 404, nothing is deleted: the method returns after that one
    request. *)
Theorem delete_pip_if_exists_absent s w r :
  fst (net E (sent w)) = Responded r ->
  status_code r = 404 ->
  fst (_delete_pip_if_exists (s, w)) = Return tt
  /\ requests (trace (snd (snd (_delete_pip_if_exists (s, w)))))
     = (requests (trace w) ++ [poll_request s PIP_PACKAGE_NAME])%list.
Proof.
  intros Ho H404. unfold _delete_pip_if_exists. unfold bind.
  rewrite (get_python_package_missing _ _ _ _ Ho H404). cbn [truthy ret fst snd].
  split; [reflexivity | ]. apply (polled_facts s w PIP_PACKAGE_NAME).
Qed.

(** The test and the deletion are two requests: a ['pip'] package that
    the [GET] shows and that is gone when the [DELETE] arrives, the answer
    being 404, ends the method with the exception of the package that
    does not exist. *)
Theorem delete_pip_if_exists_gone s w r j r' :
  fst (net E (sent w)) = Responded r ->
  accepted (Responded r) = true ->
  json_body r = Some j ->
  truthy j = true ->
  fst (net E (S (sent w))) = Responded r' ->
  status_code r' = 404 ->
  fst (_delete_pip_if_exists (s, w))
  = Raise (CloudMinerException (DeleteMissingPackage PIP_PACKAGE_NAME))
  /\ requests (trace (snd (snd (_delete_pip_if_exists (s, w)))))
     = (requests (trace w)
        ++ [poll_request s PIP_PACKAGE_NAME;
            mkRequest "DELETE"
              (__get_url s ("python3Packages/" ++ PIP_PACKAGE_NAME))
              [("Authorization", ("Bearer " ++ __access_token s)%string)] 5
              NoBody])%list.
Proof.
  intros Ho Hacc Hbody Htruthy Ho' H404.
  destruct (polled_facts s w PIP_PACKAGE_NAME)
    as (Hacct & Htok & _ & Hsent & _ & Hreq & _).
  destruct (polled s w PIP_PACKAGE_NAME) as [s1 w1] eqn:Hp.
  cbn [fst snd] in Hacct, Htok, Hsent, Hreq.
  rewrite <- Hsent in Ho'.
  assert (Hdel :
    delete_python_package PIP_PACKAGE_NAME (s1, w1)
    = (Raise (CloudMinerException (DeleteMissingPackage PIP_PACKAGE_NAME)),
       (set_next_request_time
          (clock (waited s1 w1) + TIME_BETWEEN_REQUESTS_MS) s1,
        snd (send_w E
               (mkRequest "DELETE"
                  (__get_url s1 ("python3Packages/" ++ PIP_PACKAGE_NAME))
                  (request_headers s1 None true) HTTP_REQUEST_TIMEOUT NoBody)
               (waited s1 w1))))).
  { unfold delete_python_package. unfold bind at 1, self. cbn [fst snd].
    unfold try_except, bind, http_request_default.
    rewrite (http_request_error "DELETE" _ None true 5 HTTP_REQUEST_TIMEOUT
               NoBody s1 w1 r' ltac:(lia) Ho') by lia.
    rewrite H404. reflexivity. }
  assert (Hrun : _delete_pip_if_exists (s, w)
                 = delete_python_package PIP_PACKAGE_NAME (s1, w1)).
  { unfold _delete_pip_if_exists. unfold bind at 1.
    rewrite (get_python_package_found _ _ _ _ _ Ho Hacc Hbody), Hp, Htruthy.
    reflexivity. }
  rewrite Hrun, Hdel. cbn [fst snd]. split; [reflexivity | ].
  rewrite requests_sent, requests_waited, Hreq, <- app_assoc.
  unfold request_headers. rewrite Htok, (get_url_same s s1) by exact Hacct.
  reflexivity.
Qed.

(** ** The edges of [_wait_for_package_upload] *)

Lemma wait_loop_poll fuel name end_time s w :
  clock w < end_time ->
  wait_loop (S fuel) name end_time (s, w)
  = (package_data <- get_python_package name ;;
     if negb (truthy package_data)
     then raise (CloudMinerException (UploadFlowNotStarted name))
     else
       properties <- getitem package_data "properties" ;;
       upload_state <- getitem properties "provisioningState" ;;
       if json_eq_member upload_state SUCCEEDED then ret tt
       else if json_eq_member upload_state FAILED then
         properties <- getitem package_data "properties" ;;
         err <- getitem properties "error" ;;
         error <- getitem err "message" ;;
         raise (CloudMinerException (PackageUploadFailed error))
       else
         time_sleep (seconds UPLOAD_STATE_CHECK_INTERVAL_SECONDS) ;;
         wait_loop fuel name end_time) (s, w).
Proof.
  intros H. cbn [wait_loop]. unfold bind at 1, time_time, on_world.
  cbn [fst snd]. apply Z.ltb_lt in H. rewrite H. reflexivity.
Qed.

Lemma wait_for_package_upload_poll name timeout_seconds s w :
  0 < timeout_seconds ->
  _wait_for_package_upload name timeout_seconds (s, w)
  = wait_loop (poll_fuel timeout_seconds) name
      (clock w + seconds timeout_seconds) (s, w)
  /\ clock w < clock w + seconds timeout_seconds.
Proof.
  intros H. split; [reflexivity | unfold seconds; lia].
Qed.

(** A first poll that shows no package, [get_python_package] returning
    [None] or any other value that counts as false, ends the wait at once
    with the exception of the upload that has not started: there is no
    sleep and no second poll. *)
Theorem wait_for_package_upload_not_started name timeout_seconds s w j st :
  0 < timeout_seconds ->
  get_python_package name (s, w) = (Return j, st) ->
  truthy j = false ->
  _wait_for_package_upload name timeout_seconds (s, w)
  = (Raise (CloudMinerException (UploadFlowNotStarted name)), st).
Proof.
  intros Ht Hget Hj.
  destruct (wait_for_package_upload_poll name timeout_seconds s w Ht)
    as [-> Hlt].
  unfold poll_fuel. rewrite (wait_loop_poll _ _ _ _ _ Hlt).
  unfold bind at 1. rewrite Hget, Hj. reflexivity.
Qed.

(** With a timeout of zero or less the wait does not poll: it raises the
    exception of the timeout and leaves the session and the world as they
    were. *)
Theorem wait_for_package_upload_no_time name timeout_seconds s w :
  timeout_seconds <= 0 ->
  _wait_for_package_upload name timeout_seconds (s, w)
  = (Raise (CloudMinerException PackageUploadTimeout), (s, w)).
Proof.
  intros Ht. unfold _wait_for_package_upload, wait_for_package_upload_fuel.
  unfold bind at 1, time_time, on_world. cbn [fst snd].
  unfold poll_fuel. apply wait_loop_timeout. unfold seconds. lia.
Qed.

(** A poll whose answer lacks a key the loop reads ends the wait with the
    [KeyError] of that key, which no clause catches: ["properties"],
    ["provisioningState"], and, for a failed upload, ["error"]. *)
Theorem wait_for_package_upload_missing_key name timeout_seconds s w members st :
  0 < timeout_seconds ->
  get_python_package name (s, w) = (Return (JObj members), st) ->
  members <> [] ->
  (assoc "properties" members = None ->
   _wait_for_package_upload name timeout_seconds (s, w)
   = (Raise (KeyError "properties"), st))
  /\ (forall properties,
        assoc "properties" members = Some (JObj properties) ->
        assoc "provisioningState" properties = None ->
        _wait_for_package_upload name timeout_seconds (s, w)
        = (Raise (KeyError "provisioningState"), st))
  /\ (forall properties,
        assoc "properties" members = Some (JObj properties) ->
        assoc "provisioningState" properties = Some (JStr (value FAILED)) ->
        assoc "error" properties = None ->
        _wait_for_package_upload name timeout_seconds (s, w)
        = (Raise (KeyError "error"), st)).
Proof.
  intros Ht Hget Hne.
  destruct (wait_for_package_upload_poll name timeout_seconds s w Ht)
    as [Hwait Hlt].
  assert (Htruthy : truthy (JObj members) = true)
    by (destruct members; [contradiction | reflexivity]).
  unfold poll_fuel in Hwait.
  rewrite (wait_loop_poll _ _ _ _ _ Hlt) in Hwait.
  unfold bind at 1 in Hwait. rewrite Hget, Htruthy in Hwait.
  cbn [negb] in Hwait. rewrite Hwait. clear Hwait.
  split; [ | split].
  - intros Hp. unfold bind at 1, getitem at 1. rewrite Hp. reflexivity.
  - intros properties Hp Hs. unfold bind at 1, getitem at 1. rewrite Hp.
    cbn [ret]. unfold bind at 1, getitem at 1. rewrite Hs. reflexivity.
  - intros properties Hp Hs He.
    assert (Hg1 : getitem (JObj members) "properties" = ret (JObj properties))
      by (unfold getitem; rewrite Hp; reflexivity).
    assert (Hg2 : getitem (JObj properties) "provisioningState"
                  = ret (JStr (value FAILED)))
      by (unfold getitem; rewrite Hs; reflexivity).
    assert (Hg3 : getitem (JObj properties) "error" = raise (KeyError "error"))
      by (unfold getitem; rewrite He; reflexivity).
    rewrite Hg1. unfold bind at 1. unfold ret at 1. rewrite Hg2.
    unfold bind at 1. unfold ret at 1.
    change (json_eq_member (JStr (value FAILED)) SUCCEEDED) with false.
    change (json_eq_member (JStr (value FAILED)) FAILED) with true.
    cbv iota. unfold bind at 1. unfold ret at 1. rewrite Hg3. reflexivity.
Qed.

Lemma get_python_package_state name s w :
  snd (get_python_package name (s, w))
  = snd (http_request_default "GET"
           (JStr (__get_url s ("python3Packages/" ++ name))) NoBody (s, w)).
Proof.
  unfold get_python_package. unfold bind at 1, self. cbn [fst snd].
  unfold try_except, bind.
  destruct (http_request_default "GET" _ NoBody (s, w)) as [[r | e | ] st1].
  - unfold response_json. destruct (json_body r); reflexivity.
  - destruct e; try reflexivity.
    destruct (status_code r =? HTTPStatus.NOT_FOUND); reflexivity.
  - reflexivity.
Qed.

Lemma get_python_package_sent name s w :
  (sent (snd (snd (get_python_package name (s, w)))) <= sent w + 5)%nat.
Proof.
  rewrite get_python_package_state. unfold http_request_default.
  rewrite http_request_eq.
  etransitivity; [apply retry_loop_sent_bound | ].
  rewrite sent_waited. change (Z.to_nat 5) with 5%nat. lia.
Qed.

Lemma wait_loop_turn fuel name end_time s w :
  clock w < end_time ->
  snd (wait_loop (S fuel) name end_time (s, w))
  = snd (get_python_package name (s, w))
  \/ wait_loop (S fuel) name end_time (s, w)
     = wait_loop fuel name end_time
         (fst (snd (get_python_package name (s, w))),
          sleep_w (seconds UPLOAD_STATE_CHECK_INTERVAL_SECONDS)
            (snd (snd (get_python_package name (s, w))))).
Proof.
  intros Hlt. pose proof (wait_loop_poll fuel name _ s _ Hlt) as Hpoll.
  set (run := wait_loop (S fuel) name end_time (s, w)) in *.
  unfold bind at 1 in Hpoll.
  destruct (get_python_package name (s, w)) as [[j | e | ] [s1 w1]];
    cbn [fst snd]; try (rewrite Hpoll; left; reflexivity).
  destruct (truthy j); cbn [negb] in Hpoll;
    [ | rewrite Hpoll; left; reflexivity].
  unfold bind at 1 in Hpoll.
  pose proof (getitem_state j "properties" (s1, w1)) as Hs1.
  destruct (getitem j "properties" (s1, w1)) as [[p | e | ] st2] eqn:Hg1;
    cbn [snd] in Hs1; subst st2; try (rewrite Hpoll; left; reflexivity).
  unfold bind at 1 in Hpoll.
  pose proof (getitem_state p "provisioningState" (s1, w1)) as Hs2.
  destruct (getitem p "provisioningState" (s1, w1)) as [[u | e | ] st3];
    cbn [snd] in Hs2; subst st3; try (rewrite Hpoll; left; reflexivity).
  destruct (json_eq_member u SUCCEEDED); [rewrite Hpoll; left; reflexivity | ].
  destruct (json_eq_member u FAILED).
  - left. unfold bind at 1 in Hpoll. rewrite Hg1 in Hpoll.
    unfold bind at 1 in Hpoll.
    pose proof (getitem_state p "error" (s1, w1)) as Hs4.
    destruct (getitem p "error" (s1, w1)) as [[er | e | ] st5];
      cbn [snd] in Hs4; subst st5; try (rewrite Hpoll; reflexivity).
    unfold bind at 1 in Hpoll.
    pose proof (getitem_state er "message" (s1, w1)) as Hs5.
    destruct (getitem er "message" (s1, w1)) as [[ms | e | ] st6];
      cbn [snd] in Hs5; subst st6; rewrite Hpoll; reflexivity.
  - right. rewrite Hpoll. reflexivity.
Qed.

Lemma wait_loop_sent_bound fuel name end_time :
  forall s w,
    (sent (snd (snd (wait_loop fuel name end_time (s, w))))
     <= sent w + 5 * Z.to_nat ((end_time - clock w + 19999) / 20000))%nat.
Proof.
  induction fuel as [ | fuel IH]; intros s w; [cbn [wait_loop snd]; lia | ].
  destruct (Z.lt_ge_cases (clock w) end_time) as [Hlt | Hge].
  - pose proof (get_python_package_sent name s w) as Hsent.
    pose proof (forward_get_python_package name (s, w)) as (_ & _ & Hclock & _).
    cbn [snd] in Hclock.
    assert (Hone : 1 <= (end_time - clock w + 19999) / 20000)
      by (apply Z.div_le_lower_bound; lia).
    destruct (wait_loop_turn fuel name end_time s w Hlt) as [Hst | Hgo].
    + rewrite Hst. lia.
    + rewrite Hgo. etransitivity; [apply IH | ].
      cbn [sleep_w log set_clock sent clock].
      change (seconds UPLOAD_STATE_CHECK_INTERVAL_SECONDS) with 20000.
      set (c1 := clock (snd (snd (get_python_package name (s, w))))) in *.
      assert (Hdiv : (end_time - (c1 + 20000) + 19999) / 20000
                     <= (end_time - clock w + 19999) / 20000 - 1).
      { replace (end_time - clock w + 19999)
          with ((end_time - clock w - 1) + 1 * 20000) by lia.
        rewrite Z.div_add by lia.
        replace (end_time - (c1 + 20000) + 19999) with (end_time - c1 - 1)
          by lia.
        assert ((end_time - c1 - 1) / 20000 <= (end_time - clock w - 1) / 20000)
          by (apply Z.div_le_mono; lia).
        lia. }
      lia.
  - rewrite wait_loop_timeout by lia. cbn [snd]. lia.
Qed.

(** The wait sends at most five requests for each check interval that
    fits in the timeout, begun ones counted: 75 for the default of 300
    seconds, and none for a timeout of zero or less. *)
Theorem wait_for_package_upload_request_bound name timeout_seconds s w :
  (sent (snd (snd (_wait_for_package_upload name timeout_seconds (s, w))))
   <= sent w + 5 * Z.to_nat ((timeout_seconds + 19) / 20))%nat.
Proof.
  unfold _wait_for_package_upload, wait_for_package_upload_fuel.
  unfold bind at 1, time_time, on_world. cbn [fst snd].
  etransitivity; [apply wait_loop_sent_bound | ].
  replace (clock w + seconds timeout_seconds - clock w + 19999)
    with (timeout_seconds * 1000 + 19999) by (unfold seconds; lia).
  assert (Hdiv : (timeout_seconds * 1000 + 19999) / 20000
                 <= (timeout_seconds + 19) / 20).
  { apply Z.div_le_lower_bound; [lia | ].
    pose proof (Z.div_mod (timeout_seconds * 1000 + 19999) 20000 ltac:(lia)).
    pose proof (Z.mod_pos_bound (timeout_seconds * 1000 + 19999) 20000
                  ltac:(lia)).
    lia. }
  lia.
Qed.

(** ** The ends of [get_access_token_from_cli] *)

Lemma commands_app tr1 tr2 :
  commands (tr1 ++ tr2) = (commands tr1 ++ commands tr2)%list.
Proof.
  induction tr1 as [ | e tr1 IH]; [reflexivity | ].
  destruct e; cbn [commands app]; rewrite IH; reflexivity.
Qed.

(** How the CLI ends. A token comes from two commands that both exit
    with zero, the second printing a JSON object with an [accessToken].
    A CLI that is not there, an account that is not logged in (the second
    command is then not run) and a failed second command give the three
    exceptions of the program. Output of the second command that is not
    such an object raises [JSONDecodeError], [KeyError] or [TypeError],
    which go up as they are. No request is sent. *)
Theorem get_access_token_from_cli_ends w :
  match fst (get_access_token_from_cli w) with
  | Return tok =>
      exists p p' members v,
        run_command E ["az"; "account"; "show"] = Some p
        /\ returncode p = 0
        /\ run_command E ["az"; "account"; "get-access-token"] = Some p'
        /\ returncode p' = 0
        /\ json_loads E (stdout p') = Some (JObj members)
        /\ assoc "accessToken" members = Some v
        /\ tok = token_text v
  | Raise (CloudMinerException c) =>
      (c = CliNotInstalled
       /\ (run_command E ["az"; "account"; "show"] = None
           \/ run_command E ["az"; "account"; "get-access-token"] = None))
      \/ (c = CliNotLoggedIn
          /\ (exists p, run_command E ["az"; "account"; "show"] = Some p
                        /\ returncode p <> 0)
          /\ commands (trace (snd (get_access_token_from_cli w)))
             = (commands (trace w) ++ [["az"; "account"; "show"]])%list)
      \/ (exists p', c = CliTokenFailed (stderr p')
                     /\ run_command E ["az"; "account"; "get-access-token"]
                        = Some p'
                     /\ returncode p' <> 0)
  | Raise JSONDecodeError =>
      exists p', run_command E ["az"; "account"; "get-access-token"] = Some p'
                 /\ returncode p' = 0 /\ json_loads E (stdout p') = None
  | Raise (KeyError key) =>
      key = "accessToken"
      /\ exists p' members,
           run_command E ["az"; "account"; "get-access-token"] = Some p'
           /\ returncode p' = 0
           /\ json_loads E (stdout p') = Some (JObj members)
           /\ assoc "accessToken" members = None
  | Raise TypeError =>
      exists p' j, run_command E ["az"; "account"; "get-access-token"] = Some p'
                   /\ returncode p' = 0
                   /\ json_loads E (stdout p') = Some j
                   /\ forall members, j <> JObj members
  | Raise _ => False
  | OutOfFuel => False
  end
  /\ requests (trace (snd (get_access_token_from_cli w))) = requests (trace w).
Proof.
  split; [ | apply (cli_run w)].
  unfold get_access_token_from_cli, bind, try_except, utils_run_command,
    raise, ret.
  destruct (run_command E ["az"; "account"; "show"]) as [p | ] eqn:Hshow;
    cbn [fst snd]; [ | left; split; [reflexivity | left; reflexivity]].
  destruct (Z.eqb_spec (returncode p) 0) as [Hp | Hp]; cbn [negb fst snd].
  - destruct (run_command E ["az"; "account"; "get-access-token"])
      as [p' | ] eqn:Htok; cbn [fst snd];
      [ | left; split; [reflexivity | right; reflexivity]].
    destruct (Z.eqb_spec (returncode p') 0) as [Hp' | Hp']; cbn [negb fst snd].
    + destruct (json_loads E (stdout p')) as [j | ] eqn:Hj; cbn [fst];
        [ | exists p'; auto].
      destruct j as [ | b | z | str | l | members];
        try (cbn [fst]; exists p'; eexists; repeat split; eauto; discriminate).
      destruct (assoc "accessToken" members) as [v | ] eqn:Hv; cbn [fst].
      * exists p, p', members, v. auto 10.
      * split; [reflexivity | ]. exists p', members. auto.
    + right. right. exists p'. auto.
  - right. left. split; [reflexivity | ]. split; [exists p; auto | ].
    cbn [log trace]. rewrite commands_app. reflexivity.
Qed.

(** ** The checks of [main] *)

(** [main] checks the two paths before anything else: with the script
    missing, or with a requirements file named and missing, it raises the
    exception of that path and the world is as it was, no command run and
    no request sent. The requirements file is checked for a PowerShell
    script as well. *)
Theorem main_rejects_missing_paths args w :
  arguments_ok args w = false ->
  main args w
  = (Raise (CloudMinerException
              (if path_exists (arg_path args) w
               then RequirementsPathMissing
                      (match arg_requirements args with
                       | Some r => r
                       | None => ""
                       end)
               else ScriptPathMissing (arg_path args))),
     w).
Proof.
  intros Hok. unfold arguments_ok in Hok. unfold main.
  unfold bind at 1, get.
  destruct (path_exists (arg_path args) w); cbn [negb andb] in *.
  - apply negb_false_iff in Hok. rewrite Hok. reflexivity.
  - reflexivity.
Qed.


(** ** The wrapper of [_wrap_script] and the files of [_create_whl_for_upload] *)








Lemma join_last sep l x :
  l <> [] -> join sep (l ++ [x]) = (join sep l ++ sep ++ x)%string.
Proof.
  induction l as [ | a l IH]; [contradiction | intros _].
  destruct l as [ | b l]; [reflexivity | ].
  change (join sep ((a :: b :: l) ++ [x]))
    with (a ++ sep ++ join sep ((b :: l) ++ [x]))%string.
  rewrite IH by discriminate.
  change (join sep (a :: b :: l)) with (a ++ sep ++ join sep (b :: l))%string.
  rewrite !append_assoc. reflexivity.
Qed.

Lemma wrapper_ends_with_newline code :
  exists body,
    join nl (wrap_header ++ code ++ wrap_footer) = (body ++ nl)%string.
Proof.
  unfold wrap_footer.
  set (f1 := ("def _main():" ++ nl ++ tab ++ "pass")%string).
  replace (wrap_header ++ code ++ [f1; _])%list
    with ((wrap_header ++ code ++ [f1])
          ++ [("######################################################################################" ++ nl)%string])%list
    by (rewrite <- !app_assoc; reflexivity).
  rewrite join_last by (unfold wrap_header; discriminate).
  eexists. rewrite <- !append_assoc. reflexivity.
Qed.






(** The wrapper leaves the state as it is and ends with a line end, so
    that the script put after it starts on a line of its own. What it
    raises comes from the requirements file, when one is named: the file
    is missing, it is a directory, or its bytes are not text of the
    default encoding. A requirements path that is empty counts as
    none. *)
Theorem wrap_script_ends ex st :
  snd (_wrap_script ex st) = st
  /\ match fst (_wrap_script ex st) with
     | Return wrapper => exists body, wrapper = (body ++ nl)%string
     | Raise e =>
         exists f,
           requirements_file ex = Some f /\ f <> ""
           /\ (e = FileNotFoundError f /\ assoc f (fs (snd st)) = None
               \/ e = IsADirectoryError f
                  /\ assoc f (fs (snd st)) = Some Directory
               \/ e = UnicodeDecodeError
                  /\ exists data, assoc f (fs (snd st)) = Some (File data)
                                  /\ decode E data = None)
     | OutOfFuel => False
     end
  /\ (requirements_file ex = Some "" ->
      _wrap_script ex st
      = _wrap_script (mkPythonScriptExecutor (script_path ex) None) st).
Proof.
  split; [apply wrap_script_state | ]. split.
  - unfold _wrap_script. unfold bind at 1.
    destruct (requirements_file ex) as [f | ];
      [ | cbn [ret fst]; apply wrapper_ends_with_newline].
    destruct (String.eqb_spec f "") as [-> | Hf]; cbn [negb];
      [cbn [ret fst]; apply wrapper_ends_with_newline | ].
    unfold bind at 1, read_text. unfold bind at 1, read_file.
    destruct (assoc f (fs (snd st))) as [[data | ] | ] eqn:Ht.
    + destruct (decode E data) as [decoded | ] eqn:Hd.
      * cbn [ret fst]. apply wrapper_ends_with_newline.
      * cbn [raise fst]. exists f. split; [reflexivity | ].
        split; [exact Hf | ]. right. right. split; [reflexivity | ].
        exists data. split; [first [exact Ht | reflexivity] | exact Hd].
    + cbn [fst]. exists f. split; [reflexivity | ]. split; [exact Hf | ].
      right. left. split; first [exact Ht | reflexivity].
    + cbn [fst]. exists f. split; [reflexivity | ]. split; [exact Hf | ].
      left. split; first [exact Ht | reflexivity].
  - intros Hreq. unfold _wrap_script. rewrite Hreq. reflexivity.
Qed.


(** The files of the build, when it fails early. With the script missing
    nothing is written. With the script at the path of [main.py] itself
    the copy is refused and nothing is written. With a script whose bytes
    are not text of the default encoding, or with a requirements file
    named and missing, the exception comes after the copy: [main.py] of
    the package already holds the bytes of the script, and no other file
    has changed. *)
Theorem create_whl_for_upload_missing_files ex s w :
  (assoc (script_path ex) (fs w) = None ->
   _create_whl_for_upload ex (s, w)
   = (Raise (FileNotFoundError (script_path ex)), (s, w)))
  /\ (script_path ex = main_file_path ->
      assoc (script_path ex) (fs w) <> None ->
      _create_whl_for_upload ex (s, w)
      = (Raise (SameFileError (script_path ex)), (s, w)))
  /\ (forall script,
        assoc (script_path ex) (fs w) = Some (File script) ->
        script_path ex <> main_file_path ->
        assoc main_file_path (fs w) <> Some Directory ->
        (decode E script = None ->
         _create_whl_for_upload ex (s, w)
         = (Raise UnicodeDecodeError,
            (s, set_fs (dict_set main_file_path (File script) (fs w)) w)))
        /\ (forall f,
              decode E script <> None ->
              requirements_file ex = Some f -> f <> "" ->
              f <> main_file_path ->
              assoc f (fs w) = None ->
              _create_whl_for_upload ex (s, w)
              = (Raise (FileNotFoundError f),
                 (s, set_fs (dict_set main_file_path (File script) (fs w)) w))))
  /\ (forall script p,
        p <> main_file_path ->
        assoc p (dict_set main_file_path (File script) (fs w))
        = assoc p (fs w)).
Proof.
  split; [ | split; [ | split]].
  - intros Hs. unfold _create_whl_for_upload. unfold bind at 1, copyfile.
    unfold path_exists. cbn [snd]. rewrite Hs, andb_false_r.
    unfold bind at 1, read_file. cbn [snd]. rewrite Hs. reflexivity.
  - intros Hsame Hex. unfold _create_whl_for_upload. unfold bind at 1, copyfile.
    unfold path_exists. cbn [snd]. rewrite <- Hsame, String.eqb_refl.
    destruct (assoc (script_path ex) (fs w)); [reflexivity | contradiction].
  - intros script Hs Hne Hdir.
    assert (Hcopy : copyfile (script_path ex) main_file_path (s, w)
                    = (Return tt,
                       (s, set_fs (dict_set main_file_path (File script) (fs w))
                             w))).
    { unfold copyfile. apply String.eqb_neq in Hne. rewrite Hne. cbn [andb].
      unfold bind, read_file. cbn [snd]. rewrite Hs. unfold write_file.
      cbn [fst snd].
      destruct (assoc main_file_path (fs w)) as [[d | ] | ];
        [reflexivity | contradiction | reflexivity]. }
    split.
    + intros Hdec. unfold _create_whl_for_upload. unfold bind at 1.
      rewrite Hcopy. unfold bind at 1, read_text. unfold bind at 1, read_file.
      cbn [snd set_fs fs]. rewrite assoc_dict_set, Hdec. reflexivity.
    + intros f Hdec Hreq Hf Hmain Hmiss.
      destruct (decode E script) as [text | ] eqn:Hd; [ | contradiction].
      unfold _create_whl_for_upload. unfold bind at 1.
      rewrite Hcopy. unfold bind at 1, read_text. unfold bind at 1, read_file.
      cbn [snd set_fs fs]. rewrite assoc_dict_set, Hd. cbn [ret].
      unfold bind at 1, _wrap_script. rewrite Hreq.
      apply String.eqb_neq in Hf. rewrite Hf. cbn [negb].
      unfold bind at 1. unfold bind at 1, read_text.
      unfold bind at 1, read_file. cbn [snd set_fs fs].
      rewrite dict_set_other by exact Hmain. rewrite Hmiss. reflexivity.
  - intros script p Hp. apply dict_set_other. exact Hp.
Qed.

(** ** Runs of the executors that fail *)

Lemma http_request_mutation_any m u b s w :
  is_mutation (mkRequest m u [] 0 b) = true ->
  mutations (trace (snd (snd (http_request_default m (JStr u) b (s, w)))))
  = (mutations (trace w)
     ++ match fst (http_request_default m (JStr u) b (s, w)) with
        | Return _ => [(m, u)]
        | _ => []
        end)%list.
Proof.
  intros Hmut. unfold http_request_default. rewrite http_request_eq.
  rewrite retry_loop_mutation by exact Hmut. rewrite mutations_waited.
  reflexivity.
Qed.

Lemma upload_python_package_mutations name whl s w :
  mutations (trace (snd (snd (upload_python_package name whl (s, w)))))
  = (mutations (trace w)
     ++ match fst (upload_python_package name whl (s, w)) with
        | Return _ => [("PUT", __get_url s ("python3Packages/" ++ name))]
        | _ => []
        end)%list.
Proof.
  unfold upload_python_package. rewrite bind_eq.
  pose proof (quiet_upload_file_to_temp_storage whl (s, w)) as Hq.
  pose proof (forward_upload_file_to_temp_storage whl (s, w)) as (Ha & _).
  unfold same_mutations in Hq.
  destruct (__upload_file_to_temp_storage whl (s, w)) as [[temp | e | ] [s1 w1]];
    cbn [fst snd] in *; rewrite <- Hq; try (rewrite app_nil_r; reflexivity).
  rewrite bind_eq. unfold self. cbn [fst snd]. rewrite bind_eq.
  pose proof (http_request_mutation_any "PUT"
                (__get_url s1 ("python3Packages/" ++ name))
                (Json (content_link temp)) s1 w1 eq_refl) as Hm.
  destruct (http_request_default "PUT" _ (Json (content_link temp)) (s1, w1))
    as [[r | e | ] st2]; cbn [fst snd ret] in *; rewrite Hm;
    rewrite ?(get_url_same s s1) by exact Ha; reflexivity.
Qed.

Lemma upload_powershell_module_mutations name zipped s w :
  mutations (trace (snd (snd (upload_powershell_module name zipped (s, w)))))
  = (mutations (trace w)
     ++ match fst (upload_powershell_module name zipped (s, w)) with
        | Return _ => [("PUT", __get_url s ("modules/" ++ name))]
        | _ => []
        end)%list.
Proof.
  unfold upload_powershell_module. rewrite bind_eq.
  pose proof (quiet_upload_file_to_temp_storage zipped (s, w)) as Hq.
  pose proof (forward_upload_file_to_temp_storage zipped (s, w)) as (Ha & _).
  unfold same_mutations in Hq.
  destruct (__upload_file_to_temp_storage zipped (s, w))
    as [[temp | e | ] [s1 w1]];
    cbn [fst snd] in *; rewrite <- Hq; try (rewrite app_nil_r; reflexivity).
  rewrite bind_eq. unfold self. cbn [fst snd]. rewrite bind_eq.
  pose proof (http_request_mutation_any "PUT"
                (__get_url s1 ("modules/" ++ name))
                (Json (content_link temp)) s1 w1 eq_refl) as Hm.
  destruct (http_request_default "PUT" _ (Json (content_link temp)) (s1, w1))
    as [[r | e | ] st2]; cbn [fst snd ret] in *; rewrite Hm;
    rewrite ?(get_url_same s s1) by exact Ha; reflexivity.
Qed.

Lemma firstn_seq_le k : forall a n, (k <= n)%nat -> firstn k (seq a n) = seq a k.
Proof.
  induction k as [ | k IH]; intros a n Hk; [reflexivity | ].
  destruct n as [ | n]; [lia | ]. cbn [seq firstn]. rewrite IH by lia.
  reflexivity.
Qed.

Lemma powershell_loop_prefix n script :
  forall s w,
    exists k,
      (k <= n)%nat
      /\ mutations (trace (snd (snd (powershell_loop n script (s, w)))))
         = (mutations (trace w)
            ++ map (fun i => ("PUT", __get_url s ("modules/"
                                                 ++ uuid_src E (uuid_ix w + i))))
                 (seq 0 k))%list
      /\ match fst (powershell_loop n script (s, w)) with
         | Return _ =>
             k = n
             /\ uuid_ix (snd (snd (powershell_loop n script (s, w))))
                = (uuid_ix w + n)%nat
         | _ =>
             (k < n)%nat
             /\ uuid_ix (snd (snd (powershell_loop n script (s, w))))
                = (uuid_ix w + S k)%nat
         end.
Proof.
  induction n as [ | n IH]; intros s w.
  - exists 0%nat. cbn [powershell_loop ret fst snd seq map].
    rewrite app_nil_r. repeat split; lia.
  - remember (powershell_loop (S n) script (s, w)) as run eqn:Hrun.
    cbn [powershell_loop] in Hrun. rewrite bind_eq in Hrun.
    unfold uuid4, on_world in Hrun. cbn [fst snd uuid4_w] in Hrun.
    rewrite bind_eq in Hrun. unfold utils_zip_file at 1 in Hrun.
    cbn [fst snd fs] in Hrun.
    destruct (zip_file E script (uuid_src E (uuid_ix w) ++ ".psm1") (fs w))
      as [[zipped | e | ] f']; cbn [fst snd] in Hrun;
      try (exists 0%nat; subst run; cbn [fst snd set_fs trace uuid_ix seq map];
           rewrite app_nil_r; repeat split; lia).
    rewrite bind_eq in Hrun.
    set (w1 := set_fs f' (mkWorld (clock w) (sent w) (S (uuid_ix w)) (fs w)
                            (trace w))) in *.
    pose proof (upload_powershell_module_mutations
                  (uuid_src E (uuid_ix w)) zipped s w1) as Hm.
    pose proof (same_uuid_upload_powershell_module
                  (uuid_src E (uuid_ix w)) zipped (s, w1)) as Hu.
    pose proof (forward_upload_powershell_module
                  (uuid_src E (uuid_ix w)) zipped (s, w1)) as (Ha & _).
    unfold same_uuid in Hu.
    destruct (upload_powershell_module (uuid_src E (uuid_ix w)) zipped (s, w1))
      as [[[] | e | ] [s2 w2]]; cbn [fst snd] in Hm, Hu, Ha;
      try (exists 0%nat; subst run; cbn [fst snd]; rewrite Hm, Hu;
           cbn [seq map];
           repeat split; [lia | lia | subst w1; cbn [set_fs uuid_ix]; lia]).
    destruct (IH s2 w2) as (k & Hk & Hmk & Hend).
    exists (S k). subst run. split; [lia | ]. split.
    + rewrite Hmk, Hm, map_seq_S, <- app_assoc. cbn [app].
      rewrite Nat.add_0_r. subst w1. cbn [set_fs trace]. do 2 f_equal.
      apply map_ext. intros i. rewrite (get_url_same s s2) by exact Ha.
      rewrite Hu. cbn [set_fs uuid_ix].
      now replace (S (uuid_ix w) + i)%nat with (uuid_ix w + S i)%nat by lia.
    + rewrite Hu in Hend. subst w1. cbn [set_fs uuid_ix] in Hend.
      destruct (fst (powershell_loop n script (s2, w2)));
        destruct Hend as [Hk' Hix]; rewrite Hix; split; lia.
Qed.

(** Whatever happens, the modules the account accepted are those of the
    first executions, in order: the loop stops at the first execution
    that fails, and draws no UUID after it. *)
Theorem powershell_execute_script_stops pex count s w :
  exists k,
    (k <= Z.to_nat count)%nat
    /\ mutations (trace (snd (snd (powershell_execute_script pex count (s, w)))))
       = (mutations (trace w) ++ firstn k (module_changes s w count))%list
    /\ match fst (powershell_execute_script pex count (s, w)) with
       | Return _ => k = Z.to_nat count
       | _ =>
           (k < Z.to_nat count)%nat
           /\ uuid_ix (snd (snd (powershell_execute_script pex count (s, w))))
              = (uuid_ix w + S k)%nat
       end.
Proof.
  unfold powershell_execute_script, module_changes.
  destruct (powershell_loop_prefix (Z.to_nat count) (ps_script_path pex) s w)
    as (k & Hk & Hm & Hend).
  exists k. split; [exact Hk | ]. split.
  - rewrite Hm, firstn_map, firstn_seq_le by exact Hk. reflexivity.
  - destruct (fst (powershell_loop _ _ _)); [exact (proj1 Hend) | | ];
      exact Hend.
Qed.

Lemma python_loop_prefix n :
  forall s w,
    exists k,
      (k <= n)%nat
      /\ mutations (trace (snd (snd (python_loop n (s, w)))))
         = (mutations (trace w)
            ++ map (fun i => ("PUT", __get_url s ("python3Packages/"
                                                 ++ uuid_src E (uuid_ix w + i))))
                 (seq 0 k))%list
      /\ (fst (python_loop n (s, w)) = Return tt -> k = n).
Proof.
  induction n as [ | n IH]; intros s w.
  - exists 0%nat. cbn [python_loop ret fst snd seq map].
    rewrite app_nil_r. repeat split; lia.
  - remember (python_loop (S n) (s, w)) as run eqn:Hrun.
    cbn [python_loop] in Hrun. rewrite bind_eq in Hrun.
    unfold uuid4, on_world in Hrun. cbn [fst snd uuid4_w] in Hrun.
    rewrite bind_eq in Hrun.
    set (w1 := mkWorld (clock w) (sent w) (S (uuid_ix w)) (fs w) (trace w))
      in *.
    pose proof (upload_python_package_mutations
                  (uuid_src E (uuid_ix w)) DUMMY_WHL_PATH s w1) as Hm.
    pose proof (same_uuid_upload_python_package
                  (uuid_src E (uuid_ix w)) DUMMY_WHL_PATH (s, w1)) as Hu.
    pose proof (forward_upload_python_package
                  (uuid_src E (uuid_ix w)) DUMMY_WHL_PATH (s, w1)) as (Ha & _).
    unfold same_uuid in Hu.
    destruct (upload_python_package (uuid_src E (uuid_ix w)) DUMMY_WHL_PATH
                (s, w1))
      as [[[] | e | ] [s2 w2]]; cbn [fst snd] in Hm, Hu, Ha;
      try (exists 0%nat; subst run; cbn [fst snd]; rewrite Hm; cbn [seq map];
           repeat split; [lia | discriminate]).
    destruct (IH s2 w2) as (k & Hk & Hmk & Hend).
    exists (S k). subst run. split; [lia | ]. split.
    + rewrite Hmk, Hm, map_seq_S, <- app_assoc. cbn [app].
      rewrite Nat.add_0_r. subst w1. cbn [trace]. do 2 f_equal.
      apply map_ext. intros i. rewrite (get_url_same s s2) by exact Ha.
      rewrite Hu. cbn [uuid_ix].
      now replace (S (uuid_ix w) + i)%nat with (uuid_ix w + S i)%nat by lia.
    + intros Hret. rewrite (Hend Hret). reflexivity.
Qed.

Lemma delete_python_package_mutations name s w :
  mutations (trace (snd (snd (delete_python_package name (s, w)))))
  = (mutations (trace w)
     ++ match fst (delete_python_package name (s, w)) with
        | Return _ => [("DELETE", __get_url s ("python3Packages/" ++ name))]
        | _ => []
        end)%list.
Proof.
  unfold delete_python_package. rewrite bind_eq. unfold self. cbn [fst snd].
  unfold try_except. rewrite bind_eq.
  pose proof (http_request_mutation_any "DELETE"
                (__get_url s ("python3Packages/" ++ name)) NoBody s w eq_refl)
    as Hm.
  destruct (http_request_default "DELETE" _ NoBody (s, w))
    as [[r | e | ] st1]; cbn [fst snd ret] in *; try exact Hm.
  destruct e; cbn [fst snd]; try exact Hm.
  destruct (status_code r =? HTTPStatus.NOT_FOUND); exact Hm.
Qed.

Lemma delete_pip_if_exists_mutations s w :
  mutations (trace (snd (snd (_delete_pip_if_exists (s, w)))))
  = (mutations (trace w)
     ++ match fst (_delete_pip_if_exists (s, w)) with
        | Return _ =>
            if pip_existed s w
            then [("DELETE",
                   __get_url s ("python3Packages/" ++ PIP_PACKAGE_NAME))]
            else []
        | _ => []
        end)%list.
Proof.
  unfold _delete_pip_if_exists, pip_existed. rewrite bind_eq.
  pose proof (quiet_get_python_package PIP_PACKAGE_NAME (s, w)) as Hq.
  pose proof (forward_get_python_package PIP_PACKAGE_NAME (s, w)) as (Ha & _).
  unfold same_mutations in Hq.
  destruct (get_python_package PIP_PACKAGE_NAME (s, w))
    as [[pkg | e | ] [s1 w1]]; cbn [fst snd] in *;
    try (rewrite Hq, app_nil_r; reflexivity).
  destruct (truthy pkg).
  - rewrite delete_python_package_mutations, Hq,
      (get_url_same s s1) by exact Ha.
    destruct (fst (delete_python_package PIP_PACKAGE_NAME (s1, w1)));
      reflexivity.
  - cbn [ret fst snd]. rewrite Hq, app_nil_r. reflexivity.
Qed.

Lemma forward_delete_pip_if_exists : forward _delete_pip_if_exists.
Proof. forward_by stable_delete_pip_if_exists. Qed.

Lemma forward_create_whl_for_upload ex : forward (_create_whl_for_upload ex).
Proof. forward_by stable_create_whl_for_upload. Qed.

Lemma forward_wait_for_package_upload name timeout :
  forward (_wait_for_package_upload name timeout).
Proof. forward_by stable_wait_for_package_upload. Qed.

Lemma firstn_app_length {A : Type} (l1 l2 : list A) :
  firstn (List.length l1) (l1 ++ l2) = l1.
Proof.
  replace (List.length l1) with (List.length l1 + 0)%nat by lia.
  rewrite firstn_app_2. apply app_nil_r.
Qed.

(** Whatever happens, the changes the account accepted are the first ones
    of the run that returns, in order: the old ['pip'] is deleted before
    the new one is put, and no package of an execution is put before the
    new ['pip']. *)
Theorem python_execute_script_prefix ex count s w :
  exists k,
    (k <= List.length (python_changes s w count))%nat
    /\ mutations (trace (snd (snd (python_execute_script ex count (s, w)))))
       = (mutations (trace w) ++ firstn k (python_changes s w count))%list
    /\ (fst (python_execute_script ex count (s, w)) = Return tt ->
        k = List.length (python_changes s w count)).
Proof.
  unfold python_changes.
  set (D := if pip_existed s w
            then [("DELETE",
                   __get_url s ("python3Packages/" ++ PIP_PACKAGE_NAME))]
            else []).
  set (P := ("PUT", __get_url s ("python3Packages/" ++ PIP_PACKAGE_NAME))).
  set (dummy := fun i => ("PUT", __get_url s ("python3Packages/"
                                             ++ uuid_src E (uuid_ix w + i)))).
  assert (Hlen : List.length (D ++ P :: map dummy (seq 0 (Z.to_nat count)))
                 = (List.length D + S (Z.to_nat count))%nat)
    by (rewrite length_app; cbn [List.length]; rewrite length_map, length_seq;
        reflexivity).
  rewrite Hlen.
  remember (python_execute_script ex count (s, w)) as run eqn:Hrun.
  unfold python_execute_script in Hrun. rewrite bind_eq in Hrun.
  pose proof (delete_pip_if_exists_mutations s w) as Hm1.
  pose proof (same_uuid_delete_pip_if_exists (s, w)) as Hu1.
  pose proof (forward_delete_pip_if_exists (s, w)) as (Ha1 & _).
  unfold same_uuid in Hu1.
  destruct (_delete_pip_if_exists (s, w)) as [[[] | e | ] [s1 w1]];
    cbn [fst snd] in Hm1, Hu1, Ha1;
    try (exists 0%nat; subst run; cbn [fst snd firstn]; rewrite Hm1;
         repeat split; [lia | discriminate]).
  fold D in Hm1.
  rewrite bind_eq in Hrun.
  pose proof (quiet_create_whl_for_upload ex (s1, w1)) as Hm2.
  pose proof (same_uuid_create_whl_for_upload ex (s1, w1)) as Hu2.
  pose proof (forward_create_whl_for_upload ex (s1, w1)) as (Ha2 & _).
  unfold same_uuid in Hu2. unfold same_mutations in Hm2.
  destruct (_create_whl_for_upload ex (s1, w1)) as [[whl | e | ] [s2 w2]];
    cbn [fst snd] in Hm2, Hu2, Ha2;
    try (exists (List.length D); subst run; cbn [fst snd];
         rewrite firstn_app_length, Hm2, Hm1;
         repeat split; [lia | discriminate]).
  rewrite bind_eq in Hrun.
  pose proof (upload_python_package_mutations PIP_PACKAGE_NAME whl s2 w2)
    as Hm3.
  pose proof (same_uuid_upload_python_package PIP_PACKAGE_NAME whl (s2, w2))
    as Hu3.
  pose proof (forward_upload_python_package PIP_PACKAGE_NAME whl (s2, w2))
    as (Ha3 & _).
  unfold same_uuid in Hu3.
  destruct (upload_python_package PIP_PACKAGE_NAME whl (s2, w2))
    as [[[] | e | ] [s3 w3]]; cbn [fst snd] in Hm3, Hu3, Ha3;
    try (exists (List.length D); subst run; cbn [fst snd];
         rewrite firstn_app_length, Hm3, Hm2, Hm1, app_nil_r;
         repeat split; [lia | discriminate]).
  rewrite (get_url_same s1 s2), (get_url_same s s1) in Hm3
    by first [exact Ha2 | exact Ha1].
  fold P in Hm3.
  assert (Hfirst : forall j, (j <= Z.to_nat count)%nat ->
            firstn (List.length D + S j)
              (D ++ P :: map dummy (seq 0 (Z.to_nat count)))
            = (D ++ P :: map dummy (seq 0 j))%list).
  { intros j Hj. rewrite firstn_app_2. cbn [firstn].
    rewrite firstn_map, firstn_seq_le by exact Hj. reflexivity. }
  rewrite bind_eq in Hrun.
  pose proof (quiet_wait_for_package_upload PIP_PACKAGE_NAME UPLOAD_TIMEOUT
                (s3, w3)) as Hm4.
  pose proof (same_uuid_wait_for_package_upload PIP_PACKAGE_NAME UPLOAD_TIMEOUT
                (s3, w3)) as Hu4.
  pose proof (forward_wait_for_package_upload PIP_PACKAGE_NAME UPLOAD_TIMEOUT
                (s3, w3)) as (Ha4 & _).
  unfold same_uuid in Hu4. unfold same_mutations in Hm4.
  destruct (_wait_for_package_upload PIP_PACKAGE_NAME UPLOAD_TIMEOUT (s3, w3))
    as [[[] | e | ] [s4 w4]]; cbn [fst snd] in Hm4, Hu4, Ha4;
    try (exists (List.length D + 1)%nat; subst run; cbn [fst snd];
         rewrite (Hfirst 0%nat) by lia; cbn [seq map];
         rewrite Hm4, Hm3, Hm2, Hm1, <- app_assoc;
         repeat split; [lia | discriminate]).
  destruct (python_loop_prefix (Z.to_nat count) s4 w4) as (j & Hj & Hm5 & Hend).
  exists (List.length D + S j)%nat. subst run.
  split; [lia | ]. split.
  - rewrite (Hfirst j Hj), Hm5, Hm4, Hm3, Hm2, Hm1, <- !app_assoc.
    cbn [app]. do 3 f_equal. apply map_ext. intros i. unfold dummy.
    rewrite (get_url_same s s4) by congruence.
    replace (uuid_ix w4) with (uuid_ix w) by congruence. reflexivity.
  - intros Hret. rewrite (Hend Hret). reflexivity.
Qed.

(** ** Answers that are not JSON *)


(** An accepted answer whose body is not JSON is not read as an absent
    package: [get_python_package] raises [JSONDecodeError], and so does an
    upload, which then has put nothing. *)
Theorem answer_without_json name path s w r :
  fst (net E (sent w)) = Responded r ->
  accepted (Responded r) = true ->
  json_body r = None ->
  get_python_package name (s, w) = (Raise JSONDecodeError, polled s w name)
  /\ fst (upload_python_package name path (s, w)) = Raise JSONDecodeError
  /\ requests (trace (snd (snd (upload_python_package name path (s, w)))))
     = (requests (trace w)
        ++ [mkRequest "GET" (URL_GET_STORAGE_BLOB (__account_id s))
              [("Authorization", ("Bearer " ++ __access_token s)%string)] 5
              NoBody])%list.
Proof.
  intros Ho Hacc Hbody. split.
  - unfold get_python_package. rewrite bind_eq. unfold self. cbn [fst snd].
    unfold try_except. rewrite bind_eq. unfold http_request_default.
    rewrite (http_request_accepted "GET" _ None true 5 HTTP_REQUEST_TIMEOUT
               NoBody s w r ltac:(lia) Ho Hacc).
    unfold response_json. rewrite Hbody. reflexivity.
  - assert (Hrun :
      upload_python_package name path (s, w)
      = (Raise JSONDecodeError,
         (set_next_request_time
            (clock (waited s w) + TIME_BETWEEN_REQUESTS_MS) s,
          snd (send_w E
                 (mkRequest "GET" (URL_GET_STORAGE_BLOB (__account_id s))
                    (request_headers s None true) HTTP_REQUEST_TIMEOUT NoBody)
                 (waited s w))))).
    { unfold upload_python_package. rewrite bind_eq.
      unfold __upload_file_to_temp_storage. rewrite bind_eq.
      unfold self. cbn [fst snd]. rewrite bind_eq.
      unfold http_request_default.
      rewrite (http_request_accepted "GET" _ None true 5 HTTP_REQUEST_TIMEOUT
                 NoBody s w r ltac:(lia) Ho Hacc).
      rewrite bind_eq. unfold response_json. rewrite Hbody. reflexivity. }
    rewrite Hrun. cbn [fst snd]. split; [reflexivity | ].
    rewrite requests_sent, requests_waited. reflexivity.
Qed.

(** ** The flow of [main] *)

Lemma last_char_app a b : b <> "" -> last_char (a ++ b) = last_char b.
Proof.
  intros Hb. induction a as [ | c a IH]; [reflexivity | ].
  change (String c a ++ b)%string with (String c (a ++ b)).
  pose proof (append_not_empty a b Hb) as Hne.
  cbn [last_char]. destruct (a ++ b)%string eqn:Hab; [contradiction | ].
  exact IH.
Qed.

(** The link of a temporary storage is no URL of [__get_url]: the one ends
    in the asset type, the other in the API version. *)
Lemma storage_url_is_no_account_url a s path :
  URL_GET_STORAGE_BLOB a <> __get_url s path.
Proof.
  intros H. apply (f_equal last_char) in H.
  unfold URL_GET_STORAGE_BLOB, __get_url in H.
  rewrite (last_char_app _ (a ++ "&assetType=Module")) in H
    by (apply append_not_empty; discriminate).
  rewrite (last_char_app a) in H by discriminate.
  rewrite (last_char_app _ ("?api-version=" ++ DEFAULT_API_VERSION)) in H
    by discriminate.
  vm_compute in H. discriminate.
Qed.

Lemma upload_request_no_poll s name : ~ upload_request (poll_request s name).
Proof.
  intros [H | [_ [a H]]]; [discriminate H | ].
  cbn [poll_request req_url] in H. symmetry in H.
  exact (storage_url_is_no_account_url _ _ _ H).
Qed.

Lemma sends_only_refl P st : sends_only P st st.
Proof. exists []. now rewrite app_nil_r. Qed.

Lemma sends_only_trans P a b c :
  sends_only P a b -> sends_only P b c -> sends_only P a c.
Proof.
  intros (l1 & H1 & HP1) (l2 & H2 & HP2). exists (l1 ++ l2)%list.
  split; [rewrite H2, H1, app_assoc; reflexivity | ].
  apply Forall_app. now split.
Qed.

Lemma sends_only_same P a b :
  requests (trace (snd b)) = requests (trace (snd a)) -> sends_only P a b.
Proof. intros H. exists []. now rewrite app_nil_r. Qed.

Lemma sends_only_send P r s w :
  P r -> sends_only P (s, w) (s, snd (send_w E r w)).
Proof.
  intros HP. exists [r]. cbn [snd]. rewrite requests_sent.
  split; [reflexivity | ]. constructor; [exact HP | constructor].
Qed.

Lemma sends_only_sleep P d s w :
  0 <= d -> sends_only P (s, w) (s, sleep_w d w).
Proof.
  intros _. apply sends_only_same. cbn [snd sleep_w log set_clock trace].
  rewrite requests_app. cbn [requests]. apply app_nil_r.
Qed.

(** Every request of the PowerShell executor is a request of an upload. *)
Lemma powershell_sends_uploads pex count :
  respects (sends_only upload_request) (powershell_execute_script pex count).
Proof.
  apply (stable_powershell_execute_script (sends_only upload_request)
           upload_request);
    first [ exact (sends_only_refl _) | exact (sends_only_trans _)
          | exact (sends_only_send _) | exact (sends_only_sleep _)
          | (intros; apply sends_only_same; reflexivity)
          | (intros; left; reflexivity)
          | (intros; right; split; [reflexivity | eexists; reflexivity]) ].
Qed.

Lemma forward_wait_loop fuel name end_time :
  forward (wait_loop fuel name end_time).
Proof. forward_by stable_wait_loop. Qed.

Lemma forward_python_loop n : forward (python_loop n).
Proof. forward_by stable_python_loop. Qed.

(** The first request of [get_python_package] is the poll. *)
Lemma get_python_package_first_request name s w :
  exists rest,
    requests (trace (snd (snd (get_python_package name (s, w)))))
    = (requests (trace w) ++ poll_request s name :: rest)%list.
Proof.
  rewrite get_python_package_state. unfold http_request_default.
  rewrite http_request_eq. change (Z.to_nat 5) with 5%nat.
  match goal with
  | |- context [retry_loop 5 ?m (JStr ?u) ?h ?t ?b (?s1, ?w1)] =>
      destruct (retry_loop_first_request 4 m u h t b s1 w1) as [l Hl]
  end.
  rewrite Hl, requests_app, requests_waited. cbn [requests].
  exists (requests l). reflexivity.
Qed.

(** With a timeout that is positive the wait begins with a poll. *)
Lemma wait_for_package_upload_first_poll name timeout_seconds s w :
  0 < timeout_seconds ->
  exists rest,
    requests (trace (snd (snd (_wait_for_package_upload name timeout_seconds
                                 (s, w)))))
    = (requests (trace w) ++ poll_request s name :: rest)%list.
Proof.
  intros Ht.
  destruct (wait_for_package_upload_poll name timeout_seconds s w Ht)
    as [-> Hlt].
  unfold poll_fuel.
  destruct (get_python_package_first_request name s w) as [rest Hrest].
  match goal with
  | |- context [wait_loop (S ?f) name ?e (s, w)] =>
      destruct (wait_loop_turn f name e s w Hlt) as [Hsame | Hnext];
      [ rewrite Hsame; exists rest; exact Hrest
      | rewrite Hnext ]
  end.
  match goal with
  | |- context [wait_loop ?f name ?e ?st] =>
      destruct (forward_wait_loop f name e st) as (_ & _ & _ & _ & _ & l & Hl)
  end.
  rewrite Hl. cbn [snd sleep_w log set_clock trace].
  rewrite !requests_app, Hrest. cbn [requests]. rewrite app_nil_r.
  exists (rest ++ requests l)%list. rewrite <- app_assoc. reflexivity.
Qed.

(** Once the upload of ['pip'] has returned, the Python executor waits for
    it, and the next request it sends is the poll. *)
Lemma python_execute_script_polls ex count st st_d whl st_b st_u :
  _delete_pip_if_exists st = (Return tt, st_d) ->
  _create_whl_for_upload ex st_d = (Return whl, st_b) ->
  upload_python_package PIP_PACKAGE_NAME whl st_b = (Return tt, st_u) ->
  python_execute_script ex count st
  = (_wait_for_package_upload PIP_PACKAGE_NAME UPLOAD_TIMEOUT ;;
     python_loop (Z.to_nat count)) st_u
  /\ exists rest,
       requests (trace (snd (snd (python_execute_script ex count st))))
       = (requests (trace (snd st_u))
          ++ poll_request (fst st_u) PIP_PACKAGE_NAME :: rest)%list.
Proof.
  intros Hd Hc Hu.
  assert (Hrun : python_execute_script ex count st
                 = (_wait_for_package_upload PIP_PACKAGE_NAME UPLOAD_TIMEOUT ;;
                    python_loop (Z.to_nat count)) st_u).
  { unfold python_execute_script.
    rewrite bind_eq, Hd, bind_eq, Hc, bind_eq, Hu. reflexivity. }
  split; [exact Hrun | ]. rewrite Hrun. destruct st_u as [s_u w_u].
  destruct (wait_for_package_upload_first_poll PIP_PACKAGE_NAME UPLOAD_TIMEOUT
              s_u w_u ltac:(unfold UPLOAD_TIMEOUT; lia)) as [rest Hrest].
  rewrite bind_eq. cbn [fst snd].
  destruct (_wait_for_package_upload PIP_PACKAGE_NAME UPLOAD_TIMEOUT
              (s_u, w_u)) as [[[] | e | ] st_w];
    cbn [fst snd] in Hrest |- *; try (exists rest; exact Hrest).
  destruct (forward_python_loop (Z.to_nat count) st_w)
    as (_ & _ & _ & _ & _ & l & Hl).
  rewrite Hl, requests_app, Hrest. exists (rest ++ requests l)%list.
  rewrite <- app_assoc. reflexivity.
Qed.

(** C5 (as amended): [main] goes on only when its two checks of the
    arguments pass, and raises the [CloudMinerException] of the failing
    check otherwise, with nothing done; it takes the token from [--token]
    when that is given and not empty, and otherwise from the Azure CLI,
    whose two commands run before anything is sent; what the token step
    raises, [main] raises; it then constructs the session, whose
    validating [GET] of the account URL is the first request answered, and
    raises what the constructor raises; it then picks the executor by the
    lower-cased extension: with [.ps1] the run of [main] is the run of the
    PowerShell executor on that session, with [.py] it is the run of the
    Python executor, and any other extension raises the
    [CloudMinerException] of an unsupported extension with nothing
    uploaded. The Python executor uploads ['pip'], then waits for it, then
    uploads the dummy packages: once the upload of ['pip'] has returned,
    its run is the wait followed by the loop, and the next request it
    sends is the poll of ['pip']. The PowerShell executor only uploads:
    every request of every run of it is a [PUT] or the [GET] of the link
    of a temporary storage, none is a poll; what the server answers of a
    run that returns is, for each module, the link, the file and the
    module. *)
Theorem main_flow args w :
  let ext := lower (get_file_extension E (arg_path args)) in
  let run := main args w in
  (fst run = Return tt ->
   arguments_ok args w = true
   /\ exists tok w1 sess w2,
        token_run args w = (Return tok, w1)
        /\ requests (trace w1) = requests (trace w)
        /\ AzureAutomationSession (arg_id args) tok w1 = (Return sess, w2)
        /\ __access_token sess = tok
        /\ answered (trace w2)
           = (answered (trace w) ++ [("GET", __get_url sess "")])%list
        /\ mutations (trace w2) = mutations (trace w)
        /\ ((ext = ".ps1"
             /\ run = with_session sess
                        (powershell_execute_script
                           (mkPowershellScriptExecutor (arg_path args))
                           (arg_count args)) w2
             /\ exists blobs,
                  List.length blobs = Z.to_nat (arg_count args)
                  /\ answered (trace (snd run))
                     = (answered (trace w2)
                        ++ module_uploads sess (uuid_ix w2) blobs)%list)
            \/ (ext = ".py"
                /\ run = with_session sess
                           (python_execute_script
                              (mkPythonScriptExecutor (arg_path args)
                                 (arg_requirements args))
                              (arg_count args)) w2
                /\ exists st_uploaded st_waited s',
                     mutations (trace (snd st_uploaded))
                     = (mutations (trace w2)
                        ++ (if pip_existed sess w2
                            then [("DELETE",
                                   __get_url sess ("python3Packages/"
                                                   ++ PIP_PACKAGE_NAME))]
                            else [])
                        ++ [("PUT", __get_url sess ("python3Packages/"
                                                    ++ PIP_PACKAGE_NAME))])%list
                     /\ _wait_for_package_upload PIP_PACKAGE_NAME
                          UPLOAD_TIMEOUT st_uploaded
                        = (Return tt, st_waited)
                     /\ python_loop (Z.to_nat (arg_count args)) st_waited
                        = (Return tt, (s', snd run)))))
  /\ (ext <> ".ps1" -> ext <> ".py" ->
      (exists e, fst run = Raise e)
      /\ mutations (trace (snd run)) = mutations (trace w)
      /\ (forall tok w1 sess w2,
            arguments_ok args w = true ->
            token_run args w = (Return tok, w1) ->
            AzureAutomationSession (arg_id args) tok w1 = (Return sess, w2) ->
            run = (Raise (CloudMinerException (UnsupportedExtension ext)), w2)))
  /\ (forall t, arg_token args = Some t -> t <> "" ->
                token_run args w = (Return t, w))
  /\ (arg_token args = None \/ arg_token args = Some "" ->
      token_run args w = get_access_token_from_cli w
      /\ forall tok w1,
           token_run args w = (Return tok, w1) ->
           trace w1
           = (trace w ++ [EvCommand ["az"; "account"; "show"];
                          EvCommand ["az"; "account"; "get-access-token"]])%list)
  /\ (arguments_ok args w = false ->
      exists m, run = (Raise (CloudMinerException m), w))
  /\ (arguments_ok args w = true ->
      (forall e w1, token_run args w = (Raise e, w1) -> run = (Raise e, w1))
      /\ (forall tok w1,
            token_run args w = (Return tok, w1) ->
            (forall e w2,
               AzureAutomationSession (arg_id args) tok w1 = (Raise e, w2) ->
               run = (Raise e, w2))
            /\ (forall sess w2,
                  AzureAutomationSession (arg_id args) tok w1
                  = (Return sess, w2) ->
                  (ext = ".ps1" ->
                   run = with_session sess
                           (powershell_execute_script
                              (mkPowershellScriptExecutor (arg_path args))
                              (arg_count args)) w2)
                  /\ (ext = ".py" ->
                      run = with_session sess
                              (python_execute_script
                                 (mkPythonScriptExecutor (arg_path args)
                                    (arg_requirements args))
                                 (arg_count args)) w2))))
  /\ (forall pex count st,
        exists sent_now,
          requests (trace (snd (snd (powershell_execute_script pex count st))))
          = (requests (trace (snd st)) ++ sent_now)%list
          /\ Forall upload_request sent_now
          /\ forall s name, ~ In (poll_request s name) sent_now)
  /\ (forall ex count st st_d whl st_b st_u,
        _delete_pip_if_exists st = (Return tt, st_d) ->
        _create_whl_for_upload ex st_d = (Return whl, st_b) ->
        upload_python_package PIP_PACKAGE_NAME whl st_b = (Return tt, st_u) ->
        python_execute_script ex count st
        = (_wait_for_package_upload PIP_PACKAGE_NAME UPLOAD_TIMEOUT ;;
           python_loop (Z.to_nat count)) st_u
        /\ exists rest,
             requests (trace (snd (snd (python_execute_script ex count st))))
             = (requests (trace (snd st_u))
                ++ poll_request (fst st_u) PIP_PACKAGE_NAME :: rest)%list).
Proof.
  intros ext run.
  split; [ | split; [ | split; [ | split; [ | split; [ | split; [ | split]]]]]].
  - intros Hret.
    destruct (arguments_ok args w) eqn:Hok.
    2:{ destruct (main_guarded args w Hok) as [m Hm]. subst run.
        rewrite Hm in Hret. discriminate. }
    split; [reflexivity | ].
    pose proof (main_eq args w Hok) as Heq. fold run in Heq.
    destruct (token_run_facts args w) as (_ & Hreq & Hmut & Hans).
    destruct (token_run args w) as [[tok | e | ] w1] eqn:Htok;
      try (rewrite Heq in Hret; discriminate).
    cbn [snd] in Hreq, Hmut, Hans.
    pose proof (session_mutations (arg_id args) tok w1) as Hsm.
    destruct (AzureAutomationSession (arg_id args) tok w1)
      as [[sess | e | ] w2] eqn:Hsess; try (rewrite Heq in Hret; discriminate).
    cbn [snd] in Hsm.
    destruct (session_constructed _ _ _ _ _ Hsess) as (Hid & Htk & Hans2).
    exists tok, w1, sess, w2.
    repeat split; auto; try congruence.
    unfold executor_run in Heq. fold ext in Heq.
    destruct (ext =? ".ps1")%string eqn:Hps.
    + left. apply String.eqb_eq in Hps. split; [exact Hps | ].
      split; [exact Heq | ].
      rewrite Heq in Hret |- *. unfold with_session in Hret |- *.
      destruct (powershell_execute_script
                  (mkPowershellScriptExecutor (arg_path args)) (arg_count args)
                  (sess, w2)) as [res [s' w']] eqn:Hrun.
      cbn [fst snd] in Hret |- *. subst res.
      unfold powershell_execute_script in Hrun.
      apply powershell_loop_answered in Hrun.
      destruct Hrun as (blobs & Hlen & Hansw). exists blobs.
      split; [exact Hlen | exact Hansw].
    + destruct (ext =? ".py")%string eqn:Hpy.
      * right. apply String.eqb_eq in Hpy. split; [exact Hpy | ].
        split; [exact Heq | ].
        rewrite Heq in Hret |- *. unfold with_session in Hret |- *.
        destruct (python_execute_script
                    (mkPythonScriptExecutor (arg_path args)
                       (arg_requirements args)) (arg_count args)
                    (sess, w2)) as [res [s' w']] eqn:Hrun.
        cbn [fst snd] in Hret |- *. subst res.
        apply python_execute_script_returns in Hrun. cbv zeta in Hrun.
        destruct Hrun as (st_d & whl & st_b & st_u & st_w & _ & _ & _ & Hwait
                          & Hloop & Hm1 & Hm2 & _).
        exists st_u, st_w, s'. cbn [snd] in Hm1.
        repeat split; [ | exact Hwait | exact Hloop].
        rewrite Hm2, Hm1, <- app_assoc. reflexivity.
      * rewrite Heq in Hret. discriminate.
  - intros Hps Hpy.
    assert (Hraise : forall sess w2,
               executor_run args sess w2
               = (Raise (CloudMinerException (UnsupportedExtension ext)), w2)).
    { intros sess w2. unfold executor_run. fold ext.
      apply String.eqb_neq in Hps, Hpy. now rewrite Hps, Hpy. }
    destruct (arguments_ok args w) eqn:Hok.
    2:{ destruct (main_guarded args w Hok) as [m Hm]. subst run. rewrite Hm.
        cbn [fst snd]. repeat split; [eexists; reflexivity | ].
        intros; discriminate. }
    pose proof (main_eq args w Hok) as Heq. fold run in Heq.
    destruct (token_run_facts args w) as (Htot & _ & Hmut & _).
    destruct (token_run args w) as [[tok | e | ] w1] eqn:Htok;
      cbn [fst snd] in Htot, Hmut; [ | | contradiction].
    + pose proof (session_mutations (arg_id args) tok w1) as Hsm.
      pose proof (session_total (arg_id args) tok w1) as Hst.
      destruct (AzureAutomationSession (arg_id args) tok w1)
        as [[sess | e | ] w2] eqn:Hsess; cbn [fst snd] in Hsm, Hst;
        [ | | contradiction].
      * rewrite Hraise in Heq. rewrite Heq. cbn [fst snd].
        repeat split; [eexists; reflexivity | congruence | ].
        intros tok' w1' sess' w2' _ Ht' Hs'. inversion Ht'; subst tok' w1'.
        rewrite Hsess in Hs'. inversion Hs'; subst. reflexivity.
      * rewrite Heq. cbn [fst snd].
        repeat split; [eexists; reflexivity | congruence | ].
        intros tok' w1' sess' w2' _ Ht' Hs'. inversion Ht'; subst tok' w1'.
        rewrite Hsess in Hs'. discriminate.
    + rewrite Heq. cbn [fst snd].
      repeat split; [eexists; reflexivity | congruence | ].
      intros tok' w1' sess' w2' _ Ht'. discriminate.
  - intros t Ht Hne. unfold token_run. rewrite Ht.
    apply String.eqb_neq in Hne. now rewrite Hne.
  - intros Hcli. assert (Htr : token_run args w = get_access_token_from_cli w).
    { unfold token_run. destruct Hcli as [-> | ->]; reflexivity. }
    split; [exact Htr | ]. intros tok w1 Hrun. rewrite Htr in Hrun.
    destruct (cli_run w) as (_ & _ & _ & _ & Hcmd).
    specialize (Hcmd tok). rewrite Hrun in Hcmd. now apply Hcmd.
  - intros Hok. exact (main_guarded args w Hok).
  - intros Hok. pose proof (main_eq args w Hok) as Heq. fold run in Heq.
    split.
    + intros e w1 Ht. rewrite Heq, Ht. reflexivity.
    + intros tok w1 Ht. rewrite Ht in Heq. split.
      * intros e w2 Hs. rewrite Heq, Hs. reflexivity.
      * intros sess w2 Hs. rewrite Hs in Heq. unfold executor_run in Heq.
        fold ext in Heq. split.
        -- intros Hps. rewrite Heq, Hps. reflexivity.
        -- intros Hpy. rewrite Heq, Hpy. reflexivity.
  - intros pex count st.
    destruct (powershell_sends_uploads pex count st) as (l & Hl & HP).
    exists l. split; [exact Hl | ]. split; [exact HP | ].
    intros s name Hin. rewrite Forall_forall in HP.
    exact (upload_request_no_poll s name (HP _ Hin)).
  - intros ex count st st_d whl st_b st_u Hd Hc Hu.
    exact (python_execute_script_polls ex count st st_d whl st_b st_u
             Hd Hc Hu).
Qed.

End Program.

(** * Runs on concrete environments *)

(** C1, as the spec words it, fails: a 502 is not retried (the helper
    raises [HTTPError] after the one request), and a 504, although it is
    none of 429, 502 and 503, is retried (the second request is sent and
    its response returned). *)
Lemma retry_502_504_counterexample :
  (let E := example_env [(Responded (status_response 502), 0%N)] in
   let run :=
     http_request_default E "GET" (JStr "https://h/x") NoBody
       (example_session, example_world) in
   fst run = Raise (HTTPError (status_response 502))
   /\ sent (snd (snd run)) = 1%nat
   /\ trace (snd (snd run))
      = [EvRequest 1000
           (mkRequest "GET" "https://h/x" [("Authorization", "Bearer tok")] 5
              NoBody)
           (Responded (status_response 502))])
  /\ (let E := example_env [(Responded (status_response 504), 0%N);
                            (Responded (ok_response (JStr "done")), 0%N)] in
      let run :=
        http_request_default E "GET" (JStr "https://h/x") NoBody
          (example_session, example_world) in
      fst run = Return (ok_response (JStr "done"))
      /\ sent (snd (snd run)) = 2%nat
      /\ commands (trace (snd (snd run))) = []
      /\ request_times (trace (snd (snd run))) = [1000; 11000]).
Proof. vm_compute. repeat split; reflexivity. Qed.

(** C8, as the spec words it, fails: after a retried attempt the recorded
    next-request time is still the one of the call's start (1500, not
    11650), and the first request of the next call leaves 100 ms after
    the last request of this one. *)
Lemma request_spacing_counterexample :
  let E := example_env [(Responded (status_response 429), 50%N);
                        (Responded (ok_response JNull), 100%N);
                        (Responded (ok_response JNull), 0%N)] in
  let run1 :=
    http_request_default E "GET" (JStr "https://h/a") NoBody
      (example_session, example_world) in
  let run2 := http_request_default E "GET" (JStr "https://h/b") NoBody (snd run1) in
  fst run1 = Return (ok_response JNull)
  /\ request_times (trace (snd (snd run1))) = [1000; 11050]
  /\ clock (snd (snd run1)) = 11150
  /\ __next_request_time (fst (snd run1)) = 1500
  /\ request_times (trace (snd (snd run2))) = [1000; 11050; 11150]
  /\ 11150 - 11050 < TIME_BETWEEN_REQUESTS_MS.
Proof. vm_compute. repeat split; reflexivity. Qed.

(** C7, as the spec words it, fails: an upload assigns the session's
    [__current_temp_storage_url], an attribute the constructor did not
    set, besides the next-request time. *)
Lemma upload_assigns_temp_storage_url_counterexample :
  let E := example_env [(Responded (ok_response (JStr "https://blob/sas")), 0%N);
                        (Responded (status_response 201), 0%N);
                        (Responded (ok_response JNull), 0%N)] in
  let w := mkWorld 1000 0 0 [("dummy.whl", File "WHL")] [] in
  let run := upload_python_package E "pkg" "dummy.whl" (example_session, w) in
  fst run = Return tt
  /\ __current_temp_storage_url example_session = None
  /\ __current_temp_storage_url (fst (snd run)) = Some (JStr "https://blob/sas")
  /\ __next_request_time (fst (snd run)) = 2500.
Proof. vm_compute. repeat split; reflexivity. Qed.

(** C9, as the spec words it, fails: a 200 whose body is the JSON [null]
    makes [get_python_package] return [None] although no 404 came. *)
Lemma get_python_package_null_counterexample :
  let E := example_env [(Responded (ok_response JNull), 0%N)] in
  let run := get_python_package E "pip" (example_session, example_world) in
  fst run = Return JNull
  /\ fst (net E 0) = Responded (mkResponse 200 (Some JNull))
  /\ sent (snd (snd run)) = 1%nat.
Proof. vm_compute. repeat split; reflexivity. Qed.

(** C5, as the spec words it, fails twice on this run for a [.ps1]
    script with an empty [--token]: the token is given, yet the two
    commands of the CLI run and the requests carry the CLI's token; and
    after the upload nothing polls for completion: the four requests are
    the validation, the link of the temporary storage, the file and the
    module, and [main] returns. *)
Lemma main_powershell_counterexample :
  let E := example_env [(Responded (ok_response JNull), 0%N);
                        (Responded (ok_response (JStr "https://blob/sas")), 0%N);
                        (Responded (status_response 201), 0%N);
                        (Responded (ok_response JNull), 0%N)] in
  let args := mkNamespace "miner.ps1" "/subscriptions/x" 1 (Some "") None false in
  let w := mkWorld 1000 0 0 [("miner.ps1", File "Write-Host 1")] [] in
  let run := main E args w in
  fst run = Return tt
  /\ arg_token args = Some ""
  /\ commands (trace (snd run))
     = [["az"; "account"; "show"]; ["az"; "account"; "get-access-token"]]
  /\ map req_method (requests (trace (snd run))) = ["GET"; "GET"; "PUT"; "PUT"]
  /\ map req_headers (requests (trace (snd run)))
     = [[("Authorization", "Bearer cli-token")];
        [("Authorization", "Bearer cli-token")];
        [("x-ms-blob-type", "BlockBlob")];
        [("Authorization", "Bearer cli-token")]]
  /\ answered (trace (snd run))
     = [("GET", "https://management.azure.com/subscriptions/x/?api-version=2018-06-30");
        ("GET", URL_GET_STORAGE_BLOB "/subscriptions/x");
        ("PUT", "https://blob/sas");
        ("PUT", "https://management.azure.com/subscriptions/x/modules/uuid-0?api-version=2018-06-30")].
Proof. vm_compute. repeat split; reflexivity. Qed.

(** The flow of [main] on a run for a [.ps1] script that returns, and on
    a run for a [.py] script: there the run of [main] is the run of the
    Python executor on the session constructed, it returns, and after the
    ['pip'] package is put the package is polled, twice, before the dummy
    package is uploaded. *)
Lemma main_flow_witness :
  let E := example_env [(Responded (ok_response JNull), 0%N);
                        (Responded (ok_response (JStr "https://blob/sas")), 0%N);
                        (Responded (status_response 201), 0%N);
                        (Responded (ok_response JNull), 0%N)] in
  let args :=
    mkNamespace "miner.ps1" "/subscriptions/x" 1 (Some "tok") None false in
  let w := mkWorld 1000 0 0 [("miner.ps1", File "Write-Host 1")] [] in
  let E' :=
    example_env [(Responded (ok_response JNull), 0%N);
                 (Responded (ok_response (package_json "Succeeded")), 0%N);
                 (Responded (ok_response JNull), 0%N);
                 (Responded (ok_response (JStr "https://blob/pip")), 0%N);
                 (Responded (status_response 201), 0%N);
                 (Responded (ok_response JNull), 0%N);
                 (Responded (ok_response (package_json "Creating")), 0%N);
                 (Responded (ok_response (package_json "Succeeded")), 0%N);
                 (Responded (ok_response (JStr "https://blob/d0")), 0%N);
                 (Responded (status_response 201), 0%N);
                 (Responded (ok_response JNull), 0%N)] in
  let args' :=
    mkNamespace "miner.py" "/subscriptions/x" 1 (Some "tok") None false in
  let w' :=
    mkWorld 1000 0 0
      [("miner.py", File "print(1)");
       ("resources/random_whl-0.0.1-py3-none-any.whl", File "WHL")] [] in
  let sess := mkSession "/subscriptions/x" "tok" 1500 None in
  let w2 := snd (AzureAutomationSession E' "/subscriptions/x" "tok" w') in
  let pip := "https://management.azure.com/subscriptions/x/python3Packages/pip?api-version=2018-06-30" in
  (fst (main E args w) = Return tt
   /\ arguments_ok args w = true
   /\ token_run E args w = (Return "tok", w))
  /\ arguments_ok args' w' = true
  /\ token_run E' args' w' = (Return "tok", w')
  /\ AzureAutomationSession E' "/subscriptions/x" "tok" w' = (Return sess, w2)
  /\ lower (get_file_extension E' "miner.py") = ".py"
  /\ main E' args' w'
     = with_session sess
         (python_execute_script E' (mkPythonScriptExecutor "miner.py" None) 1)
         w2
  /\ fst (main E' args' w') = Return tt
  /\ map (fun r => (req_method r, req_url r))
       (requests (trace (snd (main E' args' w'))))
     = [("GET", "https://management.azure.com/subscriptions/x/?api-version=2018-06-30");
        ("GET", pip);
        ("DELETE", pip);
        ("GET", URL_GET_STORAGE_BLOB "/subscriptions/x");
        ("PUT", "https://blob/pip");
        ("PUT", pip);
        ("GET", pip);
        ("GET", pip);
        ("GET", URL_GET_STORAGE_BLOB "/subscriptions/x");
        ("PUT", "https://blob/d0");
        ("PUT", "https://management.azure.com/subscriptions/x/python3Packages/uuid-0?api-version=2018-06-30")].
Proof.
  intros E args w E' args' w' sess w2 pip.
  assert (Hret : fst (main E args w) = Return tt) by (vm_compute; reflexivity).
  assert (Hok : arguments_ok args' w' = true) by reflexivity.
  assert (Htok : token_run E' args' w' = (Return "tok", w')) by reflexivity.
  assert (Hsess : AzureAutomationSession E' (arg_id args') "tok" w'
                  = (Return sess, w2)) by (vm_compute; reflexivity).
  assert (Hext : lower (get_file_extension E' (arg_path args')) = ".py")
    by (vm_compute; reflexivity).
  assert (Hrun : main E' args' w'
                 = with_session sess
                     (python_execute_script E'
                        (mkPythonScriptExecutor "miner.py" None) 1) w2).
  { exact (proj2 (proj2 (proj2 (proj1 (proj2 (proj2 (proj2 (proj2 (proj2
             (main_flow E' args' w')))))) Hok) "tok" w' Htok)
             sess w2 Hsess) Hext). }
  split.
  { split; [exact Hret | ]. split.
    - exact (proj1 (proj1 (main_flow E args w) Hret)).
    - apply (proj1 (proj2 (proj2 (main_flow E args w))) "tok");
        [reflexivity | discriminate]. }
  split; [exact Hok | ]. split; [exact Htok | ]. split; [exact Hsess | ].
  split; [exact Hext | ]. split; [exact Hrun | ].
  split; vm_compute; reflexivity.
Defined.


(** On that server the wait returns after its third poll, the polls a
    check interval after each answer. *)
Lemma wait_for_package_upload_example :
  let run :=
    _wait_for_package_upload polling_env "pip" UPLOAD_TIMEOUT
      (example_session, example_world) in
  fst run = Return tt
  /\ sent (snd (snd run)) = 3%nat
  /\ request_times (trace (snd (snd run))) = [1000; 21100; 41200].
Proof. vm_compute. repeat split; reflexivity. Qed.


(** A 404 ends the loop at its first turn. *)
Lemma http_request_retries_witness :
  let E := example_env [(Responded (status_response 404), 0%N)] in
  let r := status_response 404 in
  fst (net E (sent example_world)) = Responded r
  /\ retry_loop E 5 "GET" (JStr "https://h/x") [] 5 NoBody
       (example_session, example_world)
     = (Raise (HTTPError r),
        (example_session,
         snd (send_w E (mkRequest "GET" "https://h/x" [] 5 NoBody)
                example_world))).
Proof.
  intros E r. split; [reflexivity | ].
  apply (proj2 (http_request_retries_exactly_when E 4 "GET" "https://h/x" [] 5
                  NoBody example_session example_world) r).
  - reflexivity.
  - cbn. lia.
  - discriminate.
  - discriminate.
  - discriminate.
Defined.

(** Five answers of 429: five attempts, then the exception of the
    maximal retry count. *)
Lemma http_request_bounded_witness :
  let E := example_env (repeat (Responded (status_response 429), 0%N) 5) in
  let run :=
    __http_request E "GET" (JStr "https://h/x") None true 5 5 NoBody
      (example_session, example_world) in
  (forall i, (i < Z.to_nat 5)%nat ->
             transient (fst (net E (sent example_world + i))) = true)
  /\ fst run
     = Raise (CloudMinerException
                (MaxRetriesReached "GET" (JStr "https://h/x")))
  /\ sent (snd (snd run)) = (sent example_world + Z.to_nat 5)%nat.
Proof.
  intros E run.
  assert (Hall : forall i, (i < Z.to_nat 5)%nat ->
                           transient (fst (net E (sent example_world + i))) = true).
  { intros i Hi. change (Z.to_nat 5) with 5%nat in Hi.
    do 5 (destruct i as [ | i]; [reflexivity | ]). lia. }
  split; [exact Hall | ].
  exact (proj2 (proj2 (proj2 (http_request_bounded E "GET" (JStr "https://h/x")
                                None true 5 5 NoBody example_session
                                example_world)))
           "https://h/x" eq_refl Hall).
Defined.

(** A 401 at the validation is the exception of an invalid token. *)
Lemma init_error_mapping_witness :
  let E := example_env [(Responded (status_response 401), 0%N)] in
  fst (net E (sent example_world)) = Responded (status_response 401)
  /\ fst (AzureAutomationSession E "/subscriptions/x" "bad" example_world)
     = Raise (init_error "/subscriptions/x" (status_response 401))
  /\ init_error "/subscriptions/x" (status_response 401)
     = CloudMinerException InvalidAccessToken.
Proof.
  intros E. split; [reflexivity | ]. split; [ | reflexivity].
  apply (proj1 (proj2 (proj2 (init_error_mapping E "/subscriptions/x" "bad"
                                example_world)))
           (status_response 401)).
  - reflexivity.
  - cbn. lia.
  - discriminate.
  - discriminate.
  - discriminate.
Defined.

(** Reading a package changes neither the account, the token nor the
    recorded URL; an upload whose [GET] of the storage link is answered
    with a 500 raises and leaves the URL unset; and a Python executor
    made on a store holds, after a call of [execute_script] and an upload
    on its session, the attributes its constructor set. *)
Lemma operations_keep_account_and_token_witness :
  let E := example_env [] in
  let op := Op_get_python_package "pip" in
  let E' := example_env [(Responded (status_response 500), 0%N)] in
  let w := mkWorld 1000 0 0 [("dummy.whl", File "WHL")] [] in
  let upload :=
    __upload_file_to_temp_storage E' "dummy.whl" (example_session, w) in
  let made :=
    new_PythonScriptExecutor 0 "miner.py" (Some "requirements.txt")
      [SessionObject example_session] in
  let cs := [ExecutorCall (fst made) (Method_execute_script 1);
             SessionCall 0 (Op_upload_python_package "pkg" "dummy.whl")] in
  (uploads op = false
   /\ __current_temp_storage_url
        (fst (snd (run_operation E op (example_session, example_world))))
      = __current_temp_storage_url example_session)
  /\ fst upload = Raise (HTTPError (status_response 500))
  /\ __current_temp_storage_url (fst (snd upload)) = None
  /\ fst made = 1%nat
  /\ nth_error (fst (run_calls E' cs (snd made, w))) (fst made)
     = Some (PythonExecutorObject 0 "miner.py" (Some "requirements.txt")).
Proof.
  intros E op E' w upload made cs.
  split.
  { split; [reflexivity | ].
    apply (proj1 (proj2 (proj2 (operations_keep_account_and_token E op
                                  example_session example_world)))).
    reflexivity. }
  split; [vm_compute; reflexivity | ].
  split.
  { unfold upload.
    rewrite (proj1 (proj2 (proj2 (proj2 (operations_keep_account_and_token E'
                                           op example_session w))))
               "dummy.whl").
    vm_compute. reflexivity. }
  split; [reflexivity | ].
  exact (proj1 (proj2 (proj2 (proj2 (proj2 (proj2 (proj2
           (operations_keep_account_and_token E' op example_session w))))))
           [SessionObject example_session] 0%nat "miner.py"
           (Some "requirements.txt") cs)).
Defined.

(** The first request of a call leaves at the recorded next-request
    time when the clock is behind it. *)
Lemma request_spacing_witness :
  let E := example_env [] in
  let s := mkSession "/subscriptions/x" "tok" 1500 None in
  0 < 5
  /\ exists l,
       trace (snd (snd (__http_request E "GET" (JStr "https://h/x") None true
                          5 5 NoBody (s, example_world))))
       = (trace (waited s example_world)
          ++ EvRequest (clock (waited s example_world))
               (mkRequest "GET" "https://h/x" (request_headers s None true) 5
                  NoBody)
               (fst (net E (sent example_world))) :: l)%list.
Proof.
  intros E s. split; [reflexivity | ].
  apply (proj1 (proj2 (proj2 (request_spacing_between_calls E "GET"
                                "https://h/x" None true 5 5 NoBody s
                                example_world)))).
  reflexivity.
Defined.

(** A 404 for the package gives [None]. *)
Lemma get_python_package_witness :
  let E := example_env [(Responded (status_response 404), 0%N)] in
  fst (net E (sent example_world)) = Responded (status_response 404)
  /\ status_code (status_response 404) = 404
  /\ fst (get_python_package E "pip" (example_session, example_world))
     = Return JNull.
Proof.
  intros E. split; [reflexivity | ]. split; [reflexivity | ].
  apply (proj2 (proj2 (proj2 (proj2 (get_python_package_spec E "pip"
                                       example_session example_world))))
           (status_response 404)); reflexivity.
Defined.

(** ** Runs for the further properties *)

(** The URL of the ['pip'] package in an account, and in an account
    whose ID starts with a character of two bytes. *)
Lemma get_url_shape_witness :
  let s :=
    mkSession (String (ascii_of_nat 195) (String (ascii_of_nat 169)
                                            "subscriptions/x")) "tok" 0 None in
  __get_url example_session "python3Packages/pip"
  = "https://management.azure.com/subscriptions/x/python3Packages/pip?api-version=2018-06-30"
  /\ __get_url s "python3Packages/pip"
     = "https://management.azure.com/subscriptions/x/python3Packages/pip?api-version=2018-06-30".
Proof.
  intros s. split.
  - apply (get_url_shape example_session "python3Packages/pip");
      [discriminate | reflexivity | reflexivity | reflexivity].
  - apply (get_url_shape s "python3Packages/pip");
      [discriminate | reflexivity | reflexivity | reflexivity].
Defined.

(** An account ID that starts with two slashes: the URL has lost the
    management host. *)
Lemma get_url_without_host_witness :
  let s := mkSession "//evil.example/x" "tok" 0 None in
  __get_url s "modules/m" = "/evil.example/x/modules/m?api-version=2018-06-30".
Proof.
  intros s. apply (get_url_without_host s "modules/m"); reflexivity.
Defined.

(** No attempt with [retries=0]. *)
Lemma http_request_no_retries_witness :
  let E := example_env [] in
  let s := mkSession "/subscriptions/x" "tok" 1500 None in
  fst (__http_request E "GET" (JStr "https://h/x") None true 0 5 NoBody
         (s, example_world))
  = Raise (CloudMinerException (MaxRetriesReached "GET" (JStr "https://h/x")))
  /\ sent (waited s example_world) = sent example_world.
Proof.
  intros E s.
  destruct (http_request_no_retries E "GET" (JStr "https://h/x") None true 0 5
              NoBody s example_world (Z.le_refl 0)) as (Hrun & _ & Hsent).
  split; [rewrite Hrun; reflexivity | exact Hsent].
Defined.



(** An upload of a file that is not there. *)
Lemma upload_missing_file_witness :
  let E := example_env [(Responded (ok_response (JStr "https://blob/sas")), 0%N)] in
  let run :=
    __upload_file_to_temp_storage E "pip.whl" (example_session, example_world) in
  assoc "pip.whl" (fs example_world) = None
  /\ fst run = Raise (FileNotFoundError "pip.whl")
  /\ __current_temp_storage_url (fst (snd run)) = Some (JStr "https://blob/sas").
Proof.
  intros E run. split; [reflexivity | ].
  destruct (upload_missing_file E "pip.whl" example_session example_world
              (ok_response (JStr "https://blob/sas")) (JStr "https://blob/sas")
              eq_refl eq_refl eq_refl eq_refl) as (Hrun & _ & Hurl).
  split; [exact Hrun | exact Hurl].
Defined.

(** An account without a ['pip'] package: one request. *)
Lemma delete_pip_if_exists_absent_witness :
  let E := example_env [(Responded (status_response 404), 0%N)] in
  let run := _delete_pip_if_exists E (example_session, example_world) in
  fst run = Return tt
  /\ requests (trace (snd (snd run)))
     = (requests (trace example_world)
        ++ [poll_request example_session (PIP_PACKAGE_NAME)])%list.
Proof.
  intros E run.
  exact (delete_pip_if_exists_absent E example_session example_world
           (status_response 404) eq_refl eq_refl).
Defined.

(** A ['pip'] package that is gone when the [DELETE] arrives. *)
Lemma delete_pip_if_exists_gone_witness :
  let E := example_env [(Responded (ok_response (package_json "Succeeded")), 0%N);
                        (Responded (status_response 404), 0%N)] in
  fst (_delete_pip_if_exists E (example_session, example_world))
  = Raise (CloudMinerException (DeleteMissingPackage PIP_PACKAGE_NAME)).
Proof.
  intros E.
  exact (proj1 (delete_pip_if_exists_gone E example_session example_world
                  (ok_response (package_json "Succeeded"))
                  (package_json "Succeeded") (status_response 404)
                  eq_refl eq_refl eq_refl eq_refl eq_refl eq_refl)).
Defined.

(** A wait for a package the account does not show. *)
Lemma wait_for_package_upload_not_started_witness :
  let E := example_env [(Responded (status_response 404), 0%N)] in
  let polled := get_python_package E "pip" (example_session, example_world) in
  fst polled = Return JNull
  /\ _wait_for_package_upload E "pip" UPLOAD_TIMEOUT
       (example_session, example_world)
     = (Raise (CloudMinerException (UploadFlowNotStarted "pip")), snd polled).
Proof.
  intros E polled. split; [reflexivity | ].
  apply (wait_for_package_upload_not_started E "pip" UPLOAD_TIMEOUT
           example_session example_world JNull (snd polled));
    [reflexivity | vm_compute; reflexivity | reflexivity].
Defined.

(** A wait with no time. *)
Lemma wait_for_package_upload_no_time_witness :
  let E := example_env [] in
  _wait_for_package_upload E "pip" 0 (example_session, example_world)
  = (Raise (CloudMinerException PackageUploadTimeout),
     (example_session, example_world)).
Proof.
  intros E.
  apply (wait_for_package_upload_no_time E "pip" 0 example_session example_world).
  apply Z.le_refl.
Defined.

(** A poll that shows a package without its properties. *)
Lemma wait_for_package_upload_missing_key_witness :
  let E := example_env [(Responded (ok_response (JObj [("name", JStr "pip")])),
                         0%N)] in
  let polled := get_python_package E "pip" (example_session, example_world) in
  _wait_for_package_upload E "pip" UPLOAD_TIMEOUT
    (example_session, example_world)
  = (Raise (KeyError "properties"), snd polled).
Proof.
  intros E polled.
  apply (proj1 (wait_for_package_upload_missing_key E "pip" UPLOAD_TIMEOUT
                  example_session example_world [("name", JStr "pip")]
                  (snd polled) eq_refl ltac:(vm_compute; reflexivity)
                  ltac:(discriminate))).
  reflexivity.
Defined.

(** A script that is not there; and a requirements file that is not
    there, for a PowerShell script. *)
Lemma main_rejects_missing_paths_witness :
  let E := example_env [] in
  let args := mkNamespace "miner.py" "/subscriptions/x" 1 (Some "tok") None
                false in
  let args' := mkNamespace "miner.ps1" "/subscriptions/x" 1 (Some "tok")
                 (Some "req.txt") false in
  let w' := mkWorld 1000 0 0 [("miner.ps1", File "Write-Host 1")] [] in
  main E args example_world
  = (Raise (CloudMinerException (ScriptPathMissing "miner.py")), example_world)
  /\ main E args' w'
     = (Raise (CloudMinerException (RequirementsPathMissing "req.txt")), w').
Proof.
  intros E args args' w'. split.
  - exact (main_rejects_missing_paths E args example_world eq_refl).
  - exact (main_rejects_missing_paths E args' w' eq_refl).
Defined.


(** A 200 whose body is not JSON. *)
Lemma answer_without_json_witness :
  let E := example_env [(Responded (status_response 200), 0%N)] in
  json_body (status_response 200) = None
  /\ fst (get_python_package E "pip" (example_session, example_world))
     = Raise JSONDecodeError
  /\ fst (upload_python_package E "pip" "pip.whl"
            (example_session, example_world))
     = Raise JSONDecodeError.
Proof.
  intros E. split; [reflexivity | ].
  destruct (answer_without_json E "pip" "pip.whl" example_session example_world
              (status_response 200) eq_refl eq_refl eq_refl)
    as (Hget & Hup & _).
  split; [rewrite Hget; reflexivity | exact Hup].
Defined.
